(** * governance-alerts-cosmos: a shallow embedding of the monitoring core

    The development follows the layout of the Go repository:
    - [gotime], [gofmt]: the pieces of Go's [time] and [fmt] packages that the
      service relies on (instants, saturating durations, [Duration.Hours],
      [Sscanf] with the verb [%d]);
    - [types]: internal/types/types.go;
    - [world]: the outside world (clock, HTTP, the chat bot API) as oracles
      over the history of interactions, and the monad that threads it;
    - [notifications]: internal/notifications/notifications.go;
    - [governance]: the governance client (package governance);
    - [service]: the monitoring service (package service).

    Output written with [fmt.Printf] does not influence control flow and is
    not part of the model. *)

From Stdlib Require Import ZArith String Ascii List Lia Bool.
From Stdlib Require Import Floats.SpecFloat.
From stdpp Require Import base option list gmap strings pretty.

Local Open Scope string_scope.
Local Open Scope list_scope.
Local Open Scope Z_scope.

(** * Part I: the program *)

(** Go's [error] values are modelled by their message ([err.Error()]);
    [nil] is [None] where an [error] is returned alone. *)
Definition error := string.

(** [fmt.Errorf("<prefix>: %w", err)]. *)
Definition Errorf_w (prefix : string) (err : error) : error :=
  prefix +:+ ": " +:+ err.

(** The line feed and the double quote, which have no literal form here. *)
Definition LF : string := String "010"%char EmptyString.
Definition DQ : string := String "034"%char EmptyString.

(** ** Go's [time] package: instants, durations, [Hours] *)
Module gotime.

(** Instants are counted in nanoseconds on the wall clock. A parsed
    timestamp carries no monotonic reading, so every comparison and
    difference below is the wall-clock one. *)
Definition Time := Z.

(** [type Duration int64], in nanoseconds. *)
Definition Duration := Z.
Definition minDuration : Duration := - 2 ^ 63.
Definition maxDuration : Duration := 2 ^ 63 - 1.
Definition Hour : Duration := 3600000000000.

(** [t.After(u)] *)
Definition After (t u : Time) : bool := u <? t.

(** [t.Sub(u)]: the difference, saturated to the range of [Duration]. *)
Definition Sub (t u : Time) : Duration :=
  if t - u <? minDuration then minDuration
  else if maxDuration <? t - u then maxDuration
  else t - u.

(** [float64] is IEEE 754 binary64 with round to nearest, ties to even. *)
Definition float64 := spec_float.
Definition prec : Z := 53.
Definition emax : Z := 1024.

(** The conversion [float64(n)] of an integer. *)
Definition float64_of_int (n : Z) : float64 := binary_normalize prec emax n 0 false.

Definition f64_add (x y : float64) : float64 := SFadd prec emax x y.
Definition f64_div (x y : float64) : float64 := SFdiv prec emax x y.
(** [x <= y] and [x > y] on [float64]. *)
Definition f64_le (x y : float64) : bool := SFleb x y.
Definition f64_gt (x y : float64) : bool := SFltb y x.

(** [d.Hours()]:
    [hour := d / Hour; nsec := d % Hour;
     return float64(hour) + float64(nsec)/(60*60*1e9)]. *)
Definition Hours (d : Duration) : float64 :=
  let hour := Z.quot d Hour in
  let nsec := Z.rem d Hour in
  f64_add (float64_of_int hour)
          (f64_div (float64_of_int nsec) (float64_of_int (60 * 60 * 1000000000))).

End gotime.

(** ** Go's [fmt] package: [Sscanf(str, "%d", &v)] with [v] a [uint64] *)
Module gofmt.

Inductive ScanError :=
| ErrEOF                   (* the input ran out before a number started *)
| ErrUnexpectedNewline
| ErrExpectedInteger
| ErrValueOutOfRange.

(** Scanning reads at most [hugeWid] runes. *)
Definition hugeWid : N := 1073741824.

Definition byte_in (c : ascii) (lo hi : N) : bool :=
  ((lo <=? N_of_ascii c) && (N_of_ascii c <=? hi))%N.

(** When the first rune of [s] is a space in the sense of [fmt.isSpace]
    (U+0009..U+000D, U+0020, U+0085, U+00A0, U+1680, U+2000..U+200A,
    U+2028, U+2029, U+202F, U+205F, U+3000, in UTF-8), the bytes after it. *)
Definition space_rune (s : string) : option string :=
  match s with
  | String c r =>
      if byte_in c 9 13 || byte_in c 32 32 then Some r
      else if byte_in c 194 194 then
        match r with
        | String c2 r2 =>
            if byte_in c2 133 133 || byte_in c2 160 160 then Some r2 else None
        | _ => None
        end
      else if byte_in c 225 225 then
        match r with
        | String c2 (String c3 r3) =>
            if byte_in c2 154 154 && byte_in c3 128 128 then Some r3 else None
        | _ => None
        end
      else if byte_in c 226 226 then
        match r with
        | String c2 (String c3 r3) =>
            if byte_in c2 128 128 &&
               (byte_in c3 128 138 || byte_in c3 168 169 || byte_in c3 175 175)
            then Some r3
            else if byte_in c2 129 129 && byte_in c3 159 159 then Some r3
            else None
        | _ => None
        end
      else if byte_in c 227 227 then
        match r with
        | String c2 (String c3 r3) =>
            if byte_in c2 128 128 && byte_in c3 128 128 then Some r3 else None
        | _ => None
        end
      else None
  | EmptyString => None
  end.

(** [ss.SkipSpace] for [Sscanf], where a newline is not a space: skips
    space runes, fails on a line feed, stops at the first other rune or when
    [count] runes have been read. Returns what is left and the rune count. *)
Fixpoint SkipSpace (s : string) (count : N) {struct s} : ScanError + string * N :=
  if (hugeWid <=? count)%N then inr (s, count)
  else
    match s with
    | EmptyString => inr (s, count)
    | String c r =>
        if byte_in c 10 10 then inl ErrUnexpectedNewline
        else if byte_in c 9 13 || byte_in c 32 32 then SkipSpace r (count + 1)%N
        else if byte_in c 194 194 then
          match r with
          | String c2 r2 =>
              if byte_in c2 133 133 || byte_in c2 160 160
              then SkipSpace r2 (count + 1)%N else inr (s, count)
          | _ => inr (s, count)
          end
        else if byte_in c 225 225 || byte_in c 226 226 || byte_in c 227 227 then
          match r with
          | String c2 (String c3 r3) =>
              match space_rune s with
              | Some _ => SkipSpace r3 (count + 1)%N
              | None => inr (s, count)
              end
          | _ => inr (s, count)
          end
        else inr (s, count)
    end.

Definition is_digit (c : ascii) : bool := byte_in c 48 57.
Definition digit_value (c : ascii) : Z := Z.of_N (N_of_ascii c) - 48.

(** The loop [for s.accept(digits) {}] of [scanNumber], folded with the
    base-10 value of the token read so far. *)
Fixpoint accept_digits (s : string) (count : N) (acc : Z) {struct s} : Z :=
  if (hugeWid <=? count)%N then acc
  else
    match s with
    | String c r =>
        if is_digit c then accept_digits r (count + 1)%N (10 * acc + digit_value c)
        else acc
    | EmptyString => acc
    end.

(** [scanUint('d', 64)] after the [SkipSpace] of [doScanf]: skip spaces
    again, require input, require a first digit, read the run of digits,
    and convert it with [strconv.ParseUint(tok, 10, 64)]. *)
Definition Sscanf_d_uint64 (str : string) : ScanError + Z :=
  match SkipSpace str 0 with
  | inl e => inl e
  | inr (s, count) =>
      if (hugeWid <=? count)%N then inl ErrEOF
      else
        match s with
        | EmptyString => inl ErrEOF
        | String c r =>
            if is_digit c then
              let v := accept_digits s count 0 in
              if v <? 2 ^ 64 then inr v else inl ErrValueOutOfRange
            else inl ErrExpectedInteger
        end
  end.

End gofmt.

(** ** internal/types/types.go *)
Module types.

Definition Time := gotime.Time.

Record Proposal := {
  ID : Z;                      (* uint64 *)
  Title : string;
  Description : string;
  Status : string;
  VotingStart : Time;
  VotingEnd : Time;
  Network : string
}.

Record NetworkConfig := {
  Name : string;
  RestEndpoint : string;
  ChainID : string
}.

Record AlertConfig := {
  HoursBeforeStart : Z;        (* int *)
  HoursBeforeEnd : Z;          (* int *)
  CheckIntervalMinutes : Z;    (* int *)
  NotifyOnStartup : bool
}.

Record TelegramConfig := {
  Telegram_Enabled : bool;
  BotToken : string;
  ChatID : Z                   (* int64 *)
}.

Record SlackConfig := {
  Slack_Enabled : bool;
  WebhookURL : string
}.

Record NotificationConfig := {
  Telegram : TelegramConfig;
  Slack : SlackConfig
}.

Record LoggingConfig := {
  Level : string;
  Format : string
}.

Record Config := {
  Alerts : AlertConfig;
  Networks : gmap string NetworkConfig;
  Notifications : NotificationConfig;
  Logging : LoggingConfig
}.

Record NotificationMessage := {
  msg_Title : string;
  msg_Content : string;
  msg_Network : string;
  msg_ChainID : string;
  msg_ProposalID : Z;          (* uint64 *)
  msg_ExplorerURL : string
}.

(** The zero value of [NetworkConfig], which a Go map lookup yields for a
    missing key. *)
Definition NetworkConfig_zero : NetworkConfig :=
  {| Name := ""; RestEndpoint := ""; ChainID := "" |}.

End types.

(** ** The outside world *)
Module world.

(** Outcome of the GET issued by [makeRequest]: the request could not be
    built, the round trip failed, or a response arrived, whose body may
    still fail to be read. *)
Inductive GetOutcome :=
| GetNewRequestError (e : error)
| GetDoError (e : error)
| GetResponse (status : Z) (body : error + string).

(** Outcome of [http.Post]. *)
Inductive PostOutcome :=
| PostError (e : error)
| PostResponse (status : Z).

(** A handle on the chat bot created by [telebot.NewBot]. *)
Record Bot := { bot_Token : string }.

(** What the program did to the world, in order. *)
Inductive Event :=
| EvNow (t : types.Time)
| EvGet (url : string) (o : GetOutcome)
| EvPost (url contentType body : string) (o : PostOutcome)
| EvNewBot (token : string) (o : error + Bot)
| EvTelegramSend (chat : Z) (text : string) (o : option error).

Definition History := list Event.

(** The world answers each interaction as a function of everything that
    happened before it. *)
Record Env := {
  now_at : History -> types.Time;
  get_at : History -> string -> GetOutcome;
  post_at : History -> string -> string -> string -> PostOutcome;
  newbot_at : History -> string -> error + Bot;
  telegram_at : History -> Z -> string -> option error
}.

(** Computations that interact with the world. *)
Definition M (A : Type) : Type := History -> A * History.

Definition ret {A} (a : A) : M A := fun h => (a, h).

Definition bind {A B} (m : M A) (k : A -> M B) : M B :=
  fun h => let (a, h') := m h in k a h'.

Definition time_Now (env : Env) : M types.Time :=
  fun h => let t := now_at env h in (t, h ++ [EvNow t]).

Definition http_Get (env : Env) (url : string) : M GetOutcome :=
  fun h => let o := get_at env h url in (o, h ++ [EvGet url o]).

Definition http_Post (env : Env) (url contentType body : string) : M PostOutcome :=
  fun h => let o := post_at env h url contentType body in
           (o, h ++ [EvPost url contentType body o]).

Definition telebot_NewBot (env : Env) (token : string) : M (error + Bot) :=
  fun h => let o := newbot_at env h token in (o, h ++ [EvNewBot token o]).

Definition telebot_Send (env : Env) (chat : Z) (text : string) : M (option error) :=
  fun h => let o := telegram_at env h chat text in
           (o, h ++ [EvTelegramSend chat text o]).

End world.

Declare Scope world_scope.
Delimit Scope world_scope with world.
Notation "x <- c1 ;; c2" := (world.bind c1 (fun x => c2))
(at level 100, c1 at next level, right associativity) : world_scope.
Notation "c1 ;;; c2" := (world.bind c1 (fun _ => c2))
(at level 100, right associativity) : world_scope.

(** ** internal/notifications/notifications.go *)
Module notifications.
Import types world.

Record Notifier := {
  telegram : option Bot;       (* *telebot.Bot, nil when not initialised *)
  telegramChatID : Z;
  slack : SlackConfig
}.

(** [formatTelegramMessage] *)
Definition formatTelegramMessage (msg : NotificationMessage) : string :=
  if String.eqb (msg_Network msg) "Governance Alerts" then
    "🚀 <b>" +:+ msg_Title msg +:+ "</b>" +:+ LF +:+ LF +:+ msg_Content msg
  else
    "🚨 <b>" +:+ msg_Title msg +:+ "</b>" +:+ LF +:+ LF +:+
    "<b>Network:</b> " +:+ msg_Network msg +:+ LF +:+
    "<b>Chain ID:</b> " +:+ msg_ChainID msg +:+ LF +:+
    "<b>Proposal ID:</b> " +:+ pretty (msg_ProposalID msg) +:+ LF +:+ LF +:+
    msg_Content msg.

(** [formatSlackMessage] *)
Definition formatSlackMessage (msg : NotificationMessage) : string :=
  if String.eqb (msg_Network msg) "Governance Alerts" then
    "🚀 *" +:+ msg_Title msg +:+ "*" +:+ LF +:+ LF +:+ msg_Content msg
  else
    "🚨 *" +:+ msg_Title msg +:+ "*" +:+ LF +:+ LF +:+
    "*Network:* " +:+ msg_Network msg +:+ LF +:+
    "*Chain ID:* " +:+ msg_ChainID msg +:+ LF +:+
    "*Proposal ID:* " +:+ pretty (msg_ProposalID msg) +:+ LF +:+ LF +:+
    msg_Content msg.

Section Notifier.
Variable env : Env.
(** [json.Marshal] of the payload [{"text": text}]. *)
Variable json_Marshal_text : string -> error + string.

Local Open Scope world_scope.

(** [NewNotifier] *)
Definition NewNotifier (config : NotificationConfig) : M (error + Notifier) :=
  if Telegram_Enabled (Telegram config) then
    r <- telebot_NewBot env (BotToken (Telegram config)) ;;
    match r with
    | inl err => ret (inl (Errorf_w "failed to create Telegram bot" err))
    | inr bot =>
        ret (inr {| telegram := Some bot;
                    telegramChatID := ChatID (Telegram config);
                    slack := Slack config |})
    end
  else
    ret (inr {| telegram := None; telegramChatID := 0; slack := Slack config |}).

(** [sendTelegramNotification]; called only when the bot is present. *)
Definition sendTelegramNotification (n : Notifier) (msg : NotificationMessage)
  : M (option error) :=
  let formattedMsg := formatTelegramMessage msg in
  r <- telebot_Send env (telegramChatID n) formattedMsg ;;
  match r with
  | Some err => ret (Some (Errorf_w "failed to send message" err))
  | None => ret None
  end.

(** [sendSlackNotification] *)
Definition sendSlackNotification (n : Notifier) (msg : NotificationMessage)
  : M (option error) :=
  match json_Marshal_text (formatSlackMessage msg) with
  | inl err => ret (Some (Errorf_w "failed to marshal payload" err))
  | inr jsonData =>
      r <- http_Post env (WebhookURL (slack n)) "application/json" jsonData ;;
      match r with
      | PostError err => ret (Some (Errorf_w "failed to send request" err))
      | PostResponse status =>
          if negb (status =? 200) then
            ret (Some ("unexpected status code: " +:+ pretty status))
          else ret None
      end
  end.

(** [SendNotification] *)
Definition SendNotification (n : Notifier) (msg : NotificationMessage)
  : M (option error) :=
  let errors : list error := [] in
  errors <- (match telegram n with
             | Some _ =>
                 r <- sendTelegramNotification n msg ;;
                 match r with
                 | Some err => ret (errors ++ [Errorf_w "telegram" err])
                 | None => ret errors
                 end
             | None => ret errors
             end) ;;
  errors <- (if Slack_Enabled (slack n) then
               r <- sendSlackNotification n msg ;;
               match r with
               | Some err => ret (errors ++ [Errorf_w "slack" err])
               | None => ret errors
               end
             else ret errors) ;;
  match errors with
  | e :: _ => ret (Some e)
  | [] => ret None
  end.

End Notifier.
End notifications.

(** ** Package governance: the governance client *)
Module governance.
Import types world.

Record Client := {
  config : NetworkConfig
  (* client *http.Client, with a timeout of 15 seconds *)
}.

(** [CosmosProposal]: a proposal as the REST API returns it. *)
Record CosmosProposal := {
  raw_ID : string;
  raw_Title : string;
  raw_Description : string;
  raw_Status : string;
  raw_VotingStart : string;
  raw_VotingEnd : string;
  raw_Messages : list string     (* the [@type] of each message *)
}.

Record CosmosGovResponse := {
  Proposals : list CosmosProposal;
  Pagination_NextKey : string;
  Pagination_Total : string
}.

(** [NewClient] *)
Definition NewClient (config : NetworkConfig) : error + Client :=
  inr {| config := config |}.

Section Client.
Variable env : Env.
(** [time.Parse(time.RFC3339, s)] *)
Variable time_Parse_RFC3339 : string -> error + Time.
(** [json.Unmarshal(body, &response)] into a [CosmosGovResponse] *)
Variable json_Unmarshal : string -> error + CosmosGovResponse.

Local Open Scope world_scope.

(** [makeRequest] *)
Definition makeRequest (c : Client) (url : string) : M (error + string) :=
  o <- http_Get env url ;;
  match o with
  | GetNewRequestError err => ret (inl (Errorf_w "failed to create request" err))
  | GetDoError err => ret (inl (Errorf_w "failed to make request" err))
  | GetResponse status body =>
      if negb (status =? 200) then
        ret (inl ("unexpected status code: " +:+ pretty status))
      else
        match body with
        | inl err => ret (inl (Errorf_w "failed to read response body" err))
        | inr body => ret (inr body)
        end
  end.

(** The loop of [GetVotingProposals] over [response.Proposals], with the
    slice [proposals] built so far; each [continue] of the source is a call
    on the rest of the batch with [proposals] unchanged. *)
Fixpoint filterVoting (c : Client) (raw : list CosmosProposal)
    (proposals : list Proposal) {struct raw} : list Proposal :=
  match raw with
  | [] => proposals
  | proposal :: rest =>
      if String.eqb (raw_Status proposal) "PROPOSAL_STATUS_VOTING_PERIOD" then
        match time_Parse_RFC3339 (raw_VotingStart proposal) with
        | inl _ => filterVoting c rest proposals
        | inr votingStart =>
            match time_Parse_RFC3339 (raw_VotingEnd proposal) with
            | inl _ => filterVoting c rest proposals
            | inr votingEnd =>
                let title := raw_Title proposal in
                let title :=
                  if String.eqb title "" then "Proposal " +:+ raw_ID proposal
                  else title in
                let description := raw_Description proposal in
                let description :=
                  if String.eqb description "" then "No description available"
                  else description in
                match gofmt.Sscanf_d_uint64 (raw_ID proposal) with
                | inl _ => filterVoting c rest proposals
                | inr proposalID =>
                    filterVoting c rest
                      (proposals ++
                       [ {| ID := proposalID;
                            Title := title;
                            Description := description;
                            Status := raw_Status proposal;
                            VotingStart := votingStart;
                            VotingEnd := votingEnd;
                            Network := Name (config c) |} ])
                end
            end
        end
      else filterVoting c rest proposals
  end.

(** [GetVotingProposals] *)
Definition GetVotingProposals (c : Client) : M (error + list Proposal) :=
  let apiURL := RestEndpoint (config c) +:+ "/cosmos/gov/v1/proposals" in
  r <- makeRequest c apiURL ;;
  match r with
  | inl err => ret (inl (Errorf_w "failed to fetch proposals" err))
  | inr body =>
      match json_Unmarshal body with
      | inl err => ret (inl (Errorf_w "failed to parse response" err))
      | inr response => ret (inr (filterVoting c (Proposals response) []))
      end
  end.

(** [json.Unmarshal(body, &response)] into a [struct { Proposal CosmosProposal }] *)
Variable json_Unmarshal_proposal : string -> error + CosmosProposal.
(** The text [err.Error()] of an error of [Sscanf]. *)
Variable ScanError_Error : gofmt.ScanError -> string.

(** [GetProposalDetails] *)
Definition GetProposalDetails (c : Client) (proposalID : Z) : M (error + Proposal) :=
  let apiURL := RestEndpoint (config c) +:+ "/cosmos/gov/v1/proposals/" +:+ pretty proposalID in
  r <- makeRequest c apiURL ;;
  match r with
  | inl err =>
      ret (inl (Errorf_w ("failed to fetch proposal " +:+ pretty proposalID) err))
  | inr body =>
      match json_Unmarshal_proposal body with
      | inl err => ret (inl (Errorf_w "failed to parse response" err))
      | inr proposal =>
          match time_Parse_RFC3339 (raw_VotingStart proposal) with
          | inl err => ret (inl (Errorf_w "failed to parse voting start time" err))
          | inr votingStart =>
              match time_Parse_RFC3339 (raw_VotingEnd proposal) with
              | inl err => ret (inl (Errorf_w "failed to parse voting end time" err))
              | inr votingEnd =>
                  let title := raw_Title proposal in
                  let title :=
                    if String.eqb title "" then "Proposal " +:+ raw_ID proposal
                    else title in
                  let description := raw_Description proposal in
                  let description :=
                    if String.eqb description "" then "No description available"
                    else description in
                  match gofmt.Sscanf_d_uint64 (raw_ID proposal) with
                  | inl err =>
                      ret (inl (Errorf_w "failed to parse proposal ID" (ScanError_Error err)))
                  | inr id =>
                      ret (inr {| ID := id;
                                  Title := title;
                                  Description := description;
                                  Status := raw_Status proposal;
                                  VotingStart := votingStart;
                                  VotingEnd := votingEnd;
                                  Network := Name (config c) |})
                  end
              end
          end
      end
  end.

(** [CheckProposalStatus] *)
Definition CheckProposalStatus (c : Client) (proposalID : Z) : M (error + string) :=
  r <- GetProposalDetails c proposalID ;;
  match r with
  | inl err => ret (inl err)
  | inr proposal => ret (inr (Status proposal))
  end.

End Client.

(** [Close] *)
Definition Close (c : Client) : option error := None.

End governance.

(** ** Package service: the monitoring service *)
Module service.
Import types world.

(** A channel of [struct{}] on which nothing is ever sent: all that matters
    is whether it has been closed. *)
Inductive Chan := ChanOpen | ChanClosed.

(** A Go run-time panic. *)
Inductive Panic := PanicMsg (msg : string).

(** [close(ch)] *)
Definition close (ch : Chan) : Panic + Chan :=
  match ch with
  | ChanOpen => inr ChanClosed
  | ChanClosed => inl (PanicMsg "close of closed channel")
  end.

(** Whether a receive [<-ch] can proceed: with no sender, only once the
    channel is closed. *)
Definition recv_ready (ch : Chan) : bool :=
  match ch with
  | ChanOpen => false
  | ChanClosed => true
  end.

Record Service := {
  config : Config;
  notifier : notifications.Notifier;
  clients : gmap string governance.Client;
  stopChan : Chan
}.

(** [Stop]: [close(s.stopChan)]. The channel is shared state, so the service
    is returned with the channel as the call leaves it. *)
Definition Stop (s : Service) : Panic + Service :=
  match close (stopChan s) with
  | inl p => inl p
  | inr ch => inr {| config := config s; notifier := notifier s;
                     clients := clients s; stopChan := ch |}
  end.

(** [truncateString]: [s[:maxLen]] panics when [maxLen] is negative, which
    the test [len(s) <= maxLen] lets through. *)
Definition truncateString (s : string) (maxLen : Z) : Panic + string :=
  if Z.of_nat (String.length s) <=? maxLen then inr s
  else if maxLen <? 0 then
    inl (PanicMsg ("runtime error: slice bounds out of range [:" +:+ pretty maxLen +:+ "]"))
  else inr (substring 0 (Z.to_nat maxLen) s +:+ "...").

(** [time.Minute] *)
Definition Minute : gotime.Duration := 60000000000.

(** Multiplication on [int64] wraps around. *)
Definition wrap_int64 (x : Z) : Z := (x + 2 ^ 63) mod 2 ^ 64 - 2 ^ 63.

(** The case that a [select] of [Run] takes: the context is done (with the
    error [ctx.Err()] then gives), the stop channel is closed, or a tick has
    arrived; a tick starts a cycle, which visits the clients in some
    order. *)
Inductive Select :=
| SelectDone (err : error)
| SelectStop
| SelectTick (order : list (string * governance.Client)).

(** How far a run of [Run] gets: it returns, it panics, or it still waits in
    [select] when the cases given are used up. *)
Inductive RunResult :=
| Returned (r : option error)
| Panicked (p : Panic)
| Waiting.

Section Service.
Variable env : Env.
Variable json_Marshal_text : string -> error + string.
Variable time_Parse_RFC3339 : string -> error + Time.
Variable json_Unmarshal : string -> error + governance.CosmosGovResponse.
(** [fmt.Sprintf("%.1f", x)] *)
Variable Sprintf_f1 : gotime.float64 -> string.

Local Open Scope world_scope.

(** [NewService] *)
Definition NewService (config : Config) : M (error + Service) :=
  r <- notifications.NewNotifier env (Notifications config) ;;
  match r with
  | inl err => ret (inl (Errorf_w "failed to create notifier" err))
  | inr notifier =>
      ret (inr {| config := config;
                  notifier := notifier;
                  clients := (fun networkConfig => {| governance.config := networkConfig |})
                               <$> Networks config;
                  stopChan := ChanOpen |})
  end.

(** The loop of [NewService] over [config.Networks], along one iteration
    order, with the map [clients] built so far. *)
Fixpoint newClients (order : list (string * NetworkConfig))
    (clients : gmap string governance.Client) : error + gmap string governance.Client :=
  match order with
  | [] => inr clients
  | (name, networkConfig) :: rest =>
      match governance.NewClient networkConfig with
      | inl err => inl (Errorf_w ("failed to create client for " +:+ name) err)
      | inr client => newClients rest (<[name := client]> clients)
      end
  end.

(** [NewService], along one iteration order of [config.Networks]. *)
Definition NewService_in (config : Config) (order : list (string * NetworkConfig))
    : M (error + Service) :=
  r <- notifications.NewNotifier env (Notifications config) ;;
  match r with
  | inl err => ret (inl (Errorf_w "failed to create notifier" err))
  | inr notifier =>
      match newClients order ∅ with
      | inl err => ret (inl err)
      | inr clients =>
          ret (inr {| config := config;
                      notifier := notifier;
                      clients := clients;
                      stopChan := ChanOpen |})
      end
  end.

(** The message of the "voting starts soon" alert. *)
Definition startMessage (proposal : Proposal) (networkConfig : NetworkConfig)
    (hoursUntilStart : gotime.float64) : NotificationMessage :=
  {| msg_Title := "🚨 Governance Proposal Voting Starting Soon - " +:+ Network proposal;
     msg_Content := "Proposal " +:+ DQ +:+ Title proposal +:+ DQ +:+
                    " will start voting in " +:+ Sprintf_f1 hoursUntilStart +:+
                    " hours." +:+ LF +:+ LF +:+ "Description: " +:+ Description proposal;
     msg_Network := Network proposal;
     msg_ChainID := ChainID networkConfig;
     msg_ProposalID := ID proposal;
     msg_ExplorerURL := "" |}.

(** The message of the "voting ends soon" alert. *)
Definition endMessage (proposal : Proposal) (networkConfig : NetworkConfig)
    (hoursUntilEnd : gotime.float64) : NotificationMessage :=
  {| msg_Title := "⏰ Governance Proposal Voting Ending Soon - " +:+ Network proposal;
     msg_Content := "Proposal " +:+ DQ +:+ Title proposal +:+ DQ +:+
                    " will end voting in " +:+ Sprintf_f1 hoursUntilEnd +:+
                    " hours." +:+ LF +:+ LF +:+ "Description: " +:+ Description proposal;
     msg_Network := Network proposal;
     msg_ChainID := ChainID networkConfig;
     msg_ProposalID := ID proposal;
     msg_ExplorerURL := "" |}.

(** The test of [checkProposal] on a boundary [t] of the voting period:
    [t.After(now)], and with [hours := t.Sub(now).Hours()],
    [hours <= float64(threshold) && hours > 0]. *)
Definition due (t now : Time) (threshold : Z) : bool :=
  gotime.After t now &&
  (let hours := gotime.Hours (gotime.Sub t now) in
   gotime.f64_le hours (gotime.float64_of_int threshold) &&
   gotime.f64_gt hours (gotime.float64_of_int 0)).

(** The second half of [checkProposal]: the check of the voting end. *)
Definition checkProposal_end (s : Service) (proposal : Proposal)
    (networkConfig : NetworkConfig) (now : Time) : M (option error) :=
  if gotime.After (VotingEnd proposal) now then
    let timeUntilEnd := gotime.Sub (VotingEnd proposal) now in
    let hoursUntilEnd := gotime.Hours timeUntilEnd in
    if gotime.f64_le hoursUntilEnd (gotime.float64_of_int (HoursBeforeEnd (Alerts (config s))))
       && gotime.f64_gt hoursUntilEnd (gotime.float64_of_int 0)
    then
      let msg := endMessage proposal networkConfig hoursUntilEnd in
      r <- notifications.SendNotification env json_Marshal_text (notifier s) msg ;;
      match r with
      | Some err => ret (Some (Errorf_w "failed to send end notification" err))
      | None => ret None
      end
    else ret None
  else ret None.

(** [checkProposal] *)
Definition checkProposal (s : Service) (proposal : Proposal)
    (client : governance.Client) (networkConfig : NetworkConfig) : M (option error) :=
  now <- time_Now env ;;
  if gotime.After (VotingStart proposal) now then
    let timeUntilStart := gotime.Sub (VotingStart proposal) now in
    let hoursUntilStart := gotime.Hours timeUntilStart in
    if gotime.f64_le hoursUntilStart (gotime.float64_of_int (HoursBeforeStart (Alerts (config s))))
       && gotime.f64_gt hoursUntilStart (gotime.float64_of_int 0)
    then
      let msg := startMessage proposal networkConfig hoursUntilStart in
      r <- notifications.SendNotification env json_Marshal_text (notifier s) msg ;;
      match r with
      | Some err => ret (Some (Errorf_w "failed to send start notification" err))
      | None => checkProposal_end s proposal networkConfig now
      end
    else checkProposal_end s proposal networkConfig now
  else checkProposal_end s proposal networkConfig now.

(** The loop of [checkNetworkProposals] over the proposals of a network; the
    error of a proposal is printed and dropped. *)
Fixpoint checkEach (s : Service) (proposals : list Proposal)
    (client : governance.Client) (networkConfig : NetworkConfig) : M unit :=
  match proposals with
  | [] => ret tt
  | proposal :: rest =>
      _ <- checkProposal s proposal client networkConfig ;;
      checkEach s rest client networkConfig
  end.

(** [checkNetworkProposals] *)
Definition checkNetworkProposals (s : Service) (networkName : string)
    (client : governance.Client) : M (option error) :=
  r <- governance.GetVotingProposals env time_Parse_RFC3339 json_Unmarshal client ;;
  match r with
  | inl err => ret (Some (Errorf_w "failed to get proposals" err))
  | inr proposals =>
      if (length proposals =? 0)%nat then ret None
      else
        let networkConfig := default NetworkConfig_zero (Networks (config s) !! networkName) in
        _ <- checkEach s proposals client networkConfig ;;
        ret None
  end.

(** [checkProposals], along one iteration order of the map [s.clients]; the
    error of a network is printed and dropped. *)
Fixpoint checkProposals_in (s : Service) (order : list (string * governance.Client))
    : M (option error) :=
  match order with
  | [] => ret None
  | (name, client) :: rest =>
      _ <- checkNetworkProposals s name client ;;
      checkProposals_in s rest
  end.

(** Go ranges over a map in an unspecified order: a run of [checkProposals]
    is a run along some enumeration of [s.clients]. *)
Definition checkProposals (s : Service) (h : History) (r : option error) (h' : History)
    : Prop :=
  exists order, order ≡ₚ map_to_list (clients s) /\ checkProposals_in s order h = (r, h').

(** The message that [sendStartupNotification] builds from the slice
    [networks], whose first element is [first]. *)
Definition startupMessage (first : string) (others : list string) : NotificationMessage :=
  let content :=
    "Service is now monitoring " +:+ pretty (Z.of_nat (S (length others))) +:+
    " networks:" +:+ LF +:+ "• " +:+ first in
  {| msg_Title := "🚀 Governance Alerts Service Started";
     msg_Content := fold_left (fun content network => content +:+ LF +:+ "• " +:+ network)
                      others content;
     msg_Network := "Governance Alerts";
     msg_ChainID := "Service";
     msg_ProposalID := 0;
     msg_ExplorerURL := "" |}.

(** [sendStartupNotification], along one iteration order of
    [s.config.Networks]; [networks[0]] panics when there is no network. *)
Definition sendStartupNotification_in (s : Service) (order : list (string * NetworkConfig))
    : M (Panic + option error) :=
  let networks :=
    map (fun entry => Name (snd entry) +:+ " (" +:+ ChainID (snd entry) +:+ ")") order in
  match networks with
  | [] => ret (inl (PanicMsg "runtime error: index out of range [0] with length 0"))
  | first :: others =>
      r <- notifications.SendNotification env json_Marshal_text (notifier s)
             (startupMessage first others) ;;
      ret (inr r)
  end.

(** The loop of [Run], along the cases that [select] takes. *)
Fixpoint Run_loop (s : Service) (schedule : list Select) : M RunResult :=
  match schedule with
  | [] => ret Waiting
  | SelectDone err :: _ => ret (Returned (Some err))
  | SelectStop :: _ => ret (Returned None)
  | SelectTick order :: rest =>
      _ <- checkProposals_in s order ;;
      Run_loop s rest
  end.

(** [Run]: the startup notification along the order [startup] of the
    networks, the ticker (which panics on an interval that is not
    positive), the initial check along [first], then the loop. *)
Definition Run_in (s : Service) (startup : list (string * NetworkConfig))
    (first : list (string * governance.Client)) (schedule : list Select) : M RunResult :=
  r <- (if NotifyOnStartup (Alerts (config s))
        then sendStartupNotification_in s startup
        else ret (inr None)) ;;
  match r with
  | inl p => ret (Panicked p)
  | inr _ =>
      if wrap_int64 (CheckIntervalMinutes (Alerts (config s)) * Minute) <=? 0 then
        ret (Panicked (PanicMsg "non-positive interval for NewTicker"))
      else
        _ <- checkProposals_in s first ;;
        Run_loop s schedule
  end.

End Service.
End service.

(** ** internal/config/config.go *)
Module config.
Import types.

(** The loop of [validateConfig] over [config.Networks], along one iteration
    order. *)
Fixpoint validateNetworks (order : list (string * NetworkConfig)) : option error :=
  match order with
  | [] => None
  | (name, network) :: rest =>
      if String.eqb (Name network) "" then
        Some ("network name is required for " +:+ name)
      else if String.eqb (RestEndpoint network) "" then
        Some ("rest_endpoint is required for network " +:+ name)
      else if String.eqb (ChainID network) "" then
        Some ("chain_id is required for network " +:+ name)
      else validateNetworks rest
  end.

(** [validateConfig], along one iteration order of [config.Networks]. *)
Definition validateConfig_in (config : Config) (order : list (string * NetworkConfig))
    : option error :=
  if HoursBeforeStart (Alerts config) <=? 0 then
    Some "hours_before_start must be greater than 0"
  else if HoursBeforeEnd (Alerts config) <=? 0 then
    Some "hours_before_end must be greater than 0"
  else if CheckIntervalMinutes (Alerts config) <=? 0 then
    Some "check_interval_minutes must be greater than 0"
  else if (size (Networks config) =? 0)%nat then
    Some "at least one network must be configured"
  else validateNetworks order.

(** [validateConfig]: Go ranges over the map in an unspecified order. *)
Definition validateConfig (config : Config) (r : option error) : Prop :=
  exists order, order ≡ₚ map_to_list (Networks config) /\ validateConfig_in config order = r.

Section LoadConfig.
(** [os.Stat(path)] fails with an error for which [os.IsNotExist] holds. *)
Variable os_Stat_IsNotExist : string -> bool.
(** [viper.ReadInConfig()] once the file [path] has been set. *)
Variable viper_ReadInConfig : string -> option error.
(** [viper.Unmarshal(&config)] once the file [path] has been read. *)
Variable viper_Unmarshal : string -> error + Config.

(** [LoadConfig], with the order in which [validateConfig] ranges over the
    networks. *)
Definition LoadConfig_in (configPath : string) (order : list (string * NetworkConfig))
    : error + Config :=
  let configPath := if String.eqb configPath "" then "config/config.yaml" else configPath in
  if os_Stat_IsNotExist configPath then
    inl ("config file not found: " +:+ configPath)
  else
    match viper_ReadInConfig configPath with
    | Some err => inl (Errorf_w "failed to read config file" err)
    | None =>
        match viper_Unmarshal configPath with
        | inl err => inl (Errorf_w "failed to unmarshal config" err)
        | inr config =>
            match validateConfig_in config order with
            | Some err => inl (Errorf_w "config validation failed" err)
            | None => inr config
            end
        end
    end.

End LoadConfig.

(** What [validateConfig] asks of a configuration. *)
Definition valid (config : Config) : Prop :=
  0 < HoursBeforeStart (Alerts config)
  /\ 0 < HoursBeforeEnd (Alerts config)
  /\ 0 < CheckIntervalMinutes (Alerts config)
  /\ Networks config <> ∅
  /\ forall name network, Networks config !! name = Some network ->
       Name network <> "" /\ RestEndpoint network <> "" /\ ChainID network <> "".

End config.

(** ** Concrete scenarios

    Small worlds and configurations on which the program is run below. *)
Module scenario.
Import types world.

Definition msg0 : NotificationMessage :=
  {| msg_Title := "Voting"; msg_Content := "Proposal 7"; msg_Network := "Babylon Mainnet";
     msg_ChainID := "bbn-1"; msg_ProposalID := 7; msg_ExplorerURL := "" |}.

(** A marshaller that wraps the text in an object with the key [text]
    (escaping is of no concern for the texts used here). *)
Definition marshal0 (text : string) : error + string :=
  inr ("{" +:+ DQ +:+ "text" +:+ DQ +:+ ":" +:+ DQ +:+ text +:+ DQ +:+ "}").

(** A world whose webhook answers every POST with the given status, whose
    chat bot answers with [tg], whose clock shows [now] and whose REST
    endpoints answer as [get] says. *)
Definition env_of (now : Time) (get : string -> GetOutcome) (status : Z)
    (tg : option error) : Env :=
  {| now_at := fun _ => now;
     get_at := fun _ url => get url;
     post_at := fun _ _ _ _ => PostResponse status;
     newbot_at := fun _ token => inr {| bot_Token := token |};
     telegram_at := fun _ _ _ => tg |}.

Definition no_get (url : string) : GetOutcome := GetDoError "connection refused".

Definition slack_only : notifications.Notifier :=
  {| notifications.telegram := None;
     notifications.telegramChatID := 0;
     notifications.slack := {| Slack_Enabled := true; WebhookURL := "https://hooks.example/T" |} |}.

Definition both_channels : notifications.Notifier :=
  {| notifications.telegram := Some {| bot_Token := "token" |};
     notifications.telegramChatID := 42;
     notifications.slack := {| Slack_Enabled := true; WebhookURL := "https://hooks.example/T" |} |}.

(** A parser that knows two timestamps. *)
Definition parse0 (s : string) : error + Time :=
  if String.eqb s "2030-01-01T00:00:00Z" then inr 1893456000000000000
  else if String.eqb s "2030-01-02T00:00:00Z" then inr 1893542400000000000
  else inl "cannot parse as RFC3339".

Definition raw_voting (id title description : string) : governance.CosmosProposal :=
  {| governance.raw_ID := id;
     governance.raw_Title := title;
     governance.raw_Description := description;
     governance.raw_Status := "PROPOSAL_STATUS_VOTING_PERIOD";
     governance.raw_VotingStart := "2030-01-01T00:00:00Z";
     governance.raw_VotingEnd := "2030-01-02T00:00:00Z";
     governance.raw_Messages := [] |}.

Definition raw_passed : governance.CosmosProposal :=
  {| governance.raw_ID := "3";
     governance.raw_Title := "Old";
     governance.raw_Description := "";
     governance.raw_Status := "PROPOSAL_STATUS_PASSED";
     governance.raw_VotingStart := "2030-01-01T00:00:00Z";
     governance.raw_VotingEnd := "2030-01-02T00:00:00Z";
     governance.raw_Messages := [] |}.

Definition raw_bad_time : governance.CosmosProposal :=
  {| governance.raw_ID := "4";
     governance.raw_Title := "Bad time";
     governance.raw_Description := "";
     governance.raw_Status := "PROPOSAL_STATUS_VOTING_PERIOD";
     governance.raw_VotingStart := "tomorrow";
     governance.raw_VotingEnd := "2030-01-02T00:00:00Z";
     governance.raw_Messages := [] |}.

Definition response_of (l : list governance.CosmosProposal) : governance.CosmosGovResponse :=
  {| governance.Proposals := l;
     governance.Pagination_NextKey := "";
     governance.Pagination_Total := "" |}.

(** A decoder that knows the bodies ["A"] and ["B"]. *)
Definition unmarshal0 (a b : list governance.CosmosProposal) (body : string)
    : error + governance.CosmosGovResponse :=
  if String.eqb body "A" then inr (response_of a)
  else if String.eqb body "B" then inr (response_of b)
  else inl "invalid character".

Definition babylon : NetworkConfig :=
  {| Name := "Babylon Mainnet";
     RestEndpoint := "https://babylon-rest.publicnode.com";
     ChainID := "bbn-1" |}.

Definition zetachain : NetworkConfig :=
  {| Name := "ZetaChain Mainnet";
     RestEndpoint := "https://zetachain.blockpi.network/lcd/v1/public";
     ChainID := "zetachain_7000-1" |}.

(** The REST endpoint of Babylon is down, that of ZetaChain answers ["B"]. *)
Definition get_zeta_only (url : string) : GetOutcome :=
  if String.eqb url "https://zetachain.blockpi.network/lcd/v1/public/cosmos/gov/v1/proposals"
  then GetResponse 200 (inr "B")
  else GetDoError "connection refused".

(** Thresholds of 24 hours, a chat bot only, two networks. *)
Definition config0 : Config :=
  {| Alerts := {| HoursBeforeStart := 24; HoursBeforeEnd := 24;
                  CheckIntervalMinutes := 60; NotifyOnStartup := false |};
     Networks := <["babylon-mainnet" := babylon]> (<["zetachain-mainnet" := zetachain]> ∅);
     Notifications := {| Telegram := {| Telegram_Enabled := true; BotToken := "token";
                                        ChatID := 42 |};
                         Slack := {| Slack_Enabled := false; WebhookURL := "" |} |};
     Logging := {| Level := "info"; Format := "text" |} |}.

Definition telegram_only : notifications.Notifier :=
  {| notifications.telegram := Some {| bot_Token := "token" |};
     notifications.telegramChatID := 42;
     notifications.slack := {| Slack_Enabled := false; WebhookURL := "" |} |}.

Definition service0 : service.Service :=
  {| service.config := config0;
     service.notifier := telegram_only;
     service.clients := <["babylon-mainnet" := {| governance.config := babylon |}]>
                           (<["zetachain-mainnet" := {| governance.config := zetachain |}]> ∅);
     service.stopChan := service.ChanOpen |}.

(** One hour before 2030-01-01T00:00:00Z. *)
Definition now0 : Time := 1893456000000000000 - 3600000000000.

(** A proposal whose voting starts one hour and ends two hours after
    [now0]. *)
Definition short_window : Proposal :=
  {| ID := 7; Title := "Raise the cap"; Description := "d";
     Status := "PROPOSAL_STATUS_VOTING_PERIOD";
     VotingStart := now0 + 3600000000000;
     VotingEnd := now0 + 7200000000000;
     Network := "ZetaChain Mainnet" |}.

Definition f1_0 (x : gotime.float64) : string := "1.0".

(** [service0] with a startup notification and a check interval of 200
    million minutes. *)
Definition config_long : Config :=
  {| Alerts := {| HoursBeforeStart := 24; HoursBeforeEnd := 24;
                  CheckIntervalMinutes := 200000000; NotifyOnStartup := true |};
     Networks := Networks config0;
     Notifications := Notifications config0;
     Logging := Logging config0 |}.

Definition service_long : service.Service :=
  {| service.config := config_long;
     service.notifier := telegram_only;
     service.clients := service.clients service0;
     service.stopChan := service.ChanOpen |}.

(** An order of visit: Babylon, then ZetaChain. *)
Definition down_then_up : list (string * governance.Client) :=
  [("babylon-mainnet", {| governance.config := babylon |});
   ("zetachain-mainnet", {| governance.config := zetachain |})].

End scenario.

(** ** The loop body of [GetVotingProposals], one proposal at a time *)
Module governance_view.
Import types governance.

Section View.
Variable time_Parse_RFC3339 : string -> error + Time.

(** The test [proposal.Status == "PROPOSAL_STATUS_VOTING_PERIOD"]. *)
Definition isVoting (p : CosmosProposal) : bool :=
  String.eqb (raw_Status p) "PROPOSAL_STATUS_VOTING_PERIOD".

(** What the body of the loop appends for a proposal in the voting period:
    nothing when a timestamp or the identifier is rejected. *)
Definition convert (c : Client) (p : CosmosProposal) : option Proposal :=
  match time_Parse_RFC3339 (raw_VotingStart p),
        time_Parse_RFC3339 (raw_VotingEnd p),
        gofmt.Sscanf_d_uint64 (raw_ID p) with
  | inr votingStart, inr votingEnd, inr proposalID =>
      Some {| ID := proposalID;
              Title := if String.eqb (raw_Title p) "" then "Proposal " +:+ raw_ID p
                       else raw_Title p;
              Description := if String.eqb (raw_Description p) ""
                             then "No description available"
                             else raw_Description p;
              Status := raw_Status p;
              VotingStart := votingStart;
              VotingEnd := votingEnd;
              Network := Name (config c) |}
  | _, _, _ => None
  end.

End View.

(** An identifier is numeric when it is a non-empty string of decimal
    digits. *)
Fixpoint all_digits (s : string) : bool :=
  match s with
  | EmptyString => true
  | String c r => gofmt.is_digit c && all_digits r
  end.

Definition numeric (s : string) : bool :=
  match s with
  | EmptyString => false
  | _ => all_digits s
  end.

(** The number that a string of decimal digits writes, after [acc]. *)
Fixpoint decimal_from (acc : Z) (s : string) : Z :=
  match s with
  | EmptyString => acc
  | String c r => decimal_from (10 * acc + gofmt.digit_value c) r
  end.

Definition decimal_value (s : string) : Z := decimal_from 0 s.

End governance_view.


(** ** Runs inside runs *)
Module service_view.
Import types world.

(** The computation [m] was run at some point between the histories [h]
    and [h']: from a history that extends [h], up to one that [h']
    extends. *)
Definition runs_within {A : Type} (m : M A) (h h' : History) : Prop :=
  exists h1 a h2, h `prefix_of` h1 /\ m h1 = (a, h2) /\ h2 `prefix_of` h'.

(** The computation [m] only adds to the history. *)
Definition grows {A : Type} (m : M A) : Prop := forall h, h `prefix_of` snd (m h).

(** Kinds of events, and how many of a kind a history holds. *)
Definition is_get (e : Event) : bool :=
  match e with EvGet _ _ => true | _ => false end.
Definition is_now (e : Event) : bool :=
  match e with EvNow _ => true | _ => false end.
Definition is_telegram_send (e : Event) : bool :=
  match e with EvTelegramSend _ _ _ => true | _ => false end.
Definition is_post (e : Event) : bool :=
  match e with EvPost _ _ _ _ => true | _ => false end.

Fixpoint count (f : Event -> bool) (h : History) : nat :=
  match h with
  | [] => 0
  | e :: h' => (if f e then 1 else 0) + count f h'
  end.

(** A delivery: a message sent by the chat bot or posted to the webhook. *)
Definition is_delivery (e : Event) : bool := is_telegram_send e || is_post e.

(** The URL of a request. *)
Definition get_url (e : Event) : option string :=
  match e with EvGet url _ => Some url | _ => None end.

(** The URL that [GetVotingProposals] requests for a client. *)
Definition proposals_url (c : governance.Client) : string :=
  RestEndpoint (governance.config c) +:+ "/cosmos/gov/v1/proposals".

(** The line of the startup message for a network. *)
Definition startup_line (network : NetworkConfig) : string :=
  LF +:+ "• " +:+ Name network +:+ " (" +:+ ChainID network +:+ ")".

(** The number of channels on which a notifier delivers. *)
Definition channels (n : notifications.Notifier) : nat :=
  (match notifications.telegram n with Some _ => 1 | None => 0 end)
  + (if Slack_Enabled (notifications.slack n) then 1 else 0).

(** The computation [m] adds only events of the kind [f], and at most [n]
    of them. *)
Definition adds_only {A : Type} (f : Event -> bool) (n : nat) (m : M A) : Prop :=
  forall h, exists evs,
    snd (m h) = h ++ evs /\ Forall (fun e => f e = true) evs /\ (length evs <= n)%nat.

(** A world whose answers do not depend on what happened before. *)
Definition stationary (env : Env) : Prop :=
  (forall h, now_at env h = now_at env [])
  /\ (forall h url, get_at env h url = get_at env [] url)
  /\ (forall h url ct body, post_at env h url ct body = post_at env [] url ct body)
  /\ (forall h token, newbot_at env h token = newbot_at env [] token)
  /\ (forall h chat text, telegram_at env h chat text = telegram_at env [] chat text).

(** The computation [m] does the same from every history: the same result,
    and the same events added. *)
Definition framed {A : Type} (m : M A) : Prop :=
  forall h, m h = (fst (m []), h ++ snd (m [])).

End service_view.


(** ** Reading float64 values *)
Module float64_view.

(** The float of mantissa [r] and exponent [e], renormalised when rounding
    has carried the mantissa up to 2^53; infinite beyond the largest
    exponent. *)
Definition Fnorm (s : bool) (r e : Z) : spec_float :=
  let '(m', e') := if r =? 2 ^ 53 then (2 ^ 52, e + 1) else (r, e) in
  if e' <=? 971 then S754_finite s (Z.to_pos m') e' else S754_infinity s.

(** Scaled value: the value of a positive finite float times 2^150. *)
Definition Fval (x : spec_float) : Z :=
  match x with
  | S754_finite false m e => Zpos m * 2 ^ (e + 150)
  | _ => 0
  end.

(** Positive, with a mantissa of 53 bits and an exponent in [-150, 900]. *)
Definition Fnormal (x : spec_float) : bool :=
  match x with
  | S754_finite false m e => (Zpos (digits2_pos m) =? 53) && (-150 <=? e) && (e <=? 900)
  | _ => false
  end.

End float64_view.


(** * Part II: properties *)

(** ** float64: [Duration.Hours] against the exact number of hours *)
Module float64_spec.
Import gotime float64_view service.

(** *** Bit lengths and shifts

    [digits2_pos p] is the number of bits of [p]. *)
Lemma digits2_bounds (p : positive) :
  2 ^ (Zpos (digits2_pos p) - 1) <= Zpos p < 2 ^ Zpos (digits2_pos p).
Proof.
  induction p as [p IH|p IH|]; cbn [digits2_pos].
  - rewrite Pos2Z.inj_succ.
    replace (Z.succ (Zpos (digits2_pos p)) - 1)
      with (Z.succ (Zpos (digits2_pos p) - 1)) by lia.
    rewrite !Z.pow_succ_r by lia. lia.
  - rewrite Pos2Z.inj_succ.
    replace (Z.succ (Zpos (digits2_pos p)) - 1)
      with (Z.succ (Zpos (digits2_pos p) - 1)) by lia.
    rewrite !Z.pow_succ_r by lia. lia.
  - cbn. lia.
Qed.

Lemma digits2_unique (p : positive) (k : Z) :
  2 ^ (k - 1) <= Zpos p < 2 ^ k -> Zpos (digits2_pos p) = k.
Proof.
  intros [Hlo Hhi]. pose proof (digits2_bounds p) as [Blo Bhi].
  assert (0 < k). { destruct (Z.ltb_spec 0 k); [lia|]. rewrite Z.pow_neg_r in Hlo by lia.
    destruct (Z.eq_dec k 0) as [->|]; [cbn in Hhi; lia|]. rewrite Z.pow_neg_r in Hhi by lia. lia. }
  destruct (Z.lt_trichotomy (Zpos (digits2_pos p)) k) as [Hlt|[Heq|Hgt]]; [|exact Heq|].
  - assert (2 ^ Zpos (digits2_pos p) <= 2 ^ (k - 1)) by (apply Z.pow_le_mono_r; lia). lia.
  - assert (2 ^ k <= 2 ^ (Zpos (digits2_pos p) - 1)) by (apply Z.pow_le_mono_r; lia). lia.
Qed.

(** Shifting a mantissa to the left. *)
Lemma iter_xO (m d : positive) : Zpos (Pos.iter xO m d) = Zpos m * 2 ^ Zpos d.
Proof.
  revert m. induction d as [|d IH] using Pos.peano_ind; intros m.
  - cbn. lia.
  - rewrite Pos.iter_succ, Pos2Z.inj_xO, IH, Pos2Z.inj_succ, Z.pow_succ_r by lia. lia.
Qed.

(** The iterator of the float specification, as an iteration over [nat]. *)
Lemma iter_pos_nat {A : Type} (f : A -> A) (p : positive) (x : A) :
  SpecFloat.iter_pos f p x = Nat.iter (Pos.to_nat p) f x.
Proof.
  revert x. induction p as [p IH|p IH|]; intros x; cbn [SpecFloat.iter_pos].
  - rewrite !IH, Pos2Nat.inj_xI. cbn [Nat.iter]. rewrite <- Nat.iter_add.
    replace (Pos.to_nat p + Pos.to_nat p)%nat with (2 * Pos.to_nat p)%nat by lia.
    rewrite Nat.iter_succ_r. reflexivity.
  - rewrite !IH, Pos2Nat.inj_xO, <- Nat.iter_add.
    replace (Pos.to_nat p + Pos.to_nat p)%nat with (2 * Pos.to_nat p)%nat by lia. reflexivity.
  - reflexivity.
Qed.

(* one step of shr_1 on a nonnegative mantissa *)
(** *** Shifting to the right with rounding and sticky bits

    One step of [shr_1] halves the mantissa, keeps the bit that falls off as
    the rounding bit and accumulates the earlier ones in the sticky bit. *)
Lemma shr_1_nonneg (m : Z) (r s : bool) :
  0 <= m ->
  shr_1 (Build_shr_record m r s) = Build_shr_record (m / 2) (Z.odd m) (r || s).
Proof.
  intros Hm. destruct m as [|p|p]; [reflexivity| |lia].
  destruct p as [p|p|]; cbn [shr_1 Z.odd].
  - f_equal. rewrite Pos2Z.inj_xI. apply (Z.div_unique _ 2 _ 1); lia.
  - f_equal. rewrite Pos2Z.inj_xO. apply (Z.div_unique _ 2 _ 0); lia.
  - reflexivity.
Qed.

(** After [k + 1] steps from an exact mantissa: the quotient by 2^(k+1),
    bit [k] as rounding bit, and whether the [k] bits below are all zero. *)
Lemma shr_iter (k : nat) (m : Z) :
  0 <= m ->
  Nat.iter (S k) shr_1 (Build_shr_record m false false)
  = Build_shr_record (m / 2 ^ Z.of_nat (S k)) (Z.testbit m (Z.of_nat k))
      (negb (m mod 2 ^ Z.of_nat k =? 0)).
Proof.
  intros Hm. induction k as [|k IH].
  - cbn [Nat.iter]. rewrite shr_1_nonneg by exact Hm. cbn [orb].
    change (Z.of_nat 0) with 0. rewrite Z.bit0_odd, Z.pow_0_r, Z.mod_1_r. reflexivity.
  - change (Nat.iter (S (S k)) shr_1 ?x) with (shr_1 (Nat.iter (S k) shr_1 x)).
    rewrite IH.
    assert (Hp : 0 < 2 ^ Z.of_nat (S k)) by (apply Z.pow_pos_nonneg; lia).
    rewrite shr_1_nonneg by (apply Z.div_pos; lia).
    f_equal.
    + rewrite Z.div_div by lia. f_equal.
      rewrite (Nat2Z.inj_succ (S k)), Z.pow_succ_r by lia. lia.
    + rewrite (Z.testbit_odd m (Z.of_nat (S k))), Z.shiftr_div_pow2 by lia. reflexivity.
    + (* sticky bit *)
      rewrite (Nat2Z.inj_succ k), Z.pow_succ_r by lia.
      set (q := 2 ^ Z.of_nat k). assert (0 < q) by (apply Z.pow_pos_nonneg; lia).
      pose proof (Z.mod_pos_bound (m / q) 2 ltac:(lia)).
      pose proof (Z.mod_pos_bound m q ltac:(lia)).
      assert (E : m mod (2 * q) = q * ((m / q) mod 2) + m mod q).
      { rewrite (Z.mul_comm 2 q), Z.rem_mul_r by lia. lia. }
      rewrite E.
      destruct (Z.testbit m (Z.of_nat k)) eqn:Hb.
      * apply Z.testbit_true in Hb; [|lia]. fold q in Hb. rewrite Hb.
        destruct (Z.eqb_spec (q * 1 + m mod q) 0); [lia|]. reflexivity.
      * apply Z.testbit_false in Hb; [|lia]. fold q in Hb. rewrite Hb.
        rewrite Z.mul_0_r, Z.add_0_l. reflexivity.
Qed.


(** The mantissa after [k] steps, whatever the initial bits. *)
Lemma shr_iter_m (k : nat) (m : Z) (r s : bool) :
  0 <= m -> shr_m (Nat.iter k shr_1 (Build_shr_record m r s)) = m / 2 ^ Z.of_nat k.
Proof.
  revert m r s. induction k as [|k IH]; intros m r s Hm.
  - cbn. rewrite Z.div_1_r. reflexivity.
  - rewrite Nat.iter_succ_r, shr_1_nonneg by lia.
    rewrite IH by (apply Z.div_pos; lia).
    rewrite Z.div_div by (try apply Z.pow_pos_nonneg; lia).
    rewrite Nat2Z.inj_succ, Z.pow_succ_r by lia. reflexivity.
Qed.

Lemma loc_of_shr_record_of_loc (m : Z) (l : location) :
  loc_of_shr_record (shr_record_of_loc m l) = l.
Proof. destruct l as [|[| |]]; reflexivity. Qed.

Lemma shr_m_record_of_loc (m : Z) (l : location) : shr_m (shr_record_of_loc m l) = m.
Proof. destruct l as [|[| |]]; reflexivity. Qed.

(** Rounding to nearest keeps the mantissa or adds one to it. *)
Lemma round_nearest_even_range (a : Z) (l : location) :
  a <= round_nearest_even a l <= a + 1.
Proof. destruct l as [|[| |]]; cbn; try destruct (Z.even a); lia. Qed.

(** In the range of normal numbers the exponent function is [x - 53]. *)
Lemma fexp_normal (x : Z) : -1021 <= x -> fexp 53 1024 x = x - 53.
Proof. intros H. unfold fexp, emin. lia. Qed.

(** Second stage of [binary_round_aux]: a mantissa between 2^52 and 2^53. *)
Lemma round_stage2 (s : bool) (r e : Z) :
  2 ^ 52 <= r <= 2 ^ 53 -> -1074 <= e ->
  (let '(mrs, e') := shr_fexp 53 1024 r e loc_Exact in
   match shr_m mrs with
   | Z0 => S754_zero s
   | Zpos m => if e' <=? 1024 - 53 then S754_finite s m e' else S754_infinity s
   | Zneg _ => S754_nan
   end) = Fnorm s r e.
Proof.
  intros Hr He. unfold Fnorm.
  destruct (Z.eqb_spec r (2 ^ 53)) as [->|Hne].
  - unfold shr_fexp. change (Zdigits2 (2 ^ 53)) with 54.
    rewrite fexp_normal by lia. replace (54 + e - 53 - e) with 1 by lia.
    cbn [shr SpecFloat.iter_pos shr_record_of_loc].
    change (2 ^ 53) with (Zpos (xO (Z.to_pos (2 ^ 52)))).
    cbn [shr_1 shr_m orb]. change (1024 - 53) with 971.
    reflexivity.
  - destruct r as [|pr|pr]; try (cbn in Hr; lia).
    assert (Hd : Zpos (digits2_pos pr) = 53) by (apply digits2_unique; change (53 - 1) with 52; lia).
    unfold shr_fexp. cbn [Zdigits2]. rewrite Hd, fexp_normal by lia.
    replace (53 + e - 53 - e) with 0 by lia. cbn [shr shr_record_of_loc shr_m].
    change (1024 - 53) with 971. reflexivity.
Qed.

(** *** Rounding a long mantissa

    [binary_round_aux] on a mantissa of [53 + n] bits drops the [n] low
    bits: the result has mantissa [r], the quotient by 2^n or its
    successor, and, when the input is exact, [r] is the quotient when the
    bits dropped are below one half and its successor when they are above. *)
Lemma binary_round_aux_normal (s : bool) (m : positive) (e : Z) (l : location) (n : Z) :
  Zpos (digits2_pos m) = 53 + n -> 0 <= n -> -1074 <= e + n ->
  exists r,
    binary_round_aux 53 1024 s (Zpos m) e l = Fnorm s r (e + n)
    /\ Zpos m / 2 ^ n <= r <= Zpos m / 2 ^ n + 1
    /\ (l = loc_Exact ->
        (2 * (Zpos m mod 2 ^ n) < 2 ^ n -> r = Zpos m / 2 ^ n)
        /\ (2 ^ n < 2 * (Zpos m mod 2 ^ n) -> r = Zpos m / 2 ^ n + 1)).
Proof.
  intros Hd Hn He.
  pose proof (digits2_bounds m) as [Blo Bhi]. rewrite Hd in Blo, Bhi.
  assert (Hpn : 0 < 2 ^ n) by (apply Z.pow_pos_nonneg; lia).
  assert (Ha : 2 ^ 52 <= Zpos m / 2 ^ n < 2 ^ 53).
  { replace (53 + n - 1) with (52 + n) in Blo by lia.
    rewrite Z.pow_add_r in Blo, Bhi by lia. split.
    - apply Z.div_le_lower_bound; lia.
    - apply Z.div_lt_upper_bound; lia. }
  unfold binary_round_aux.
  assert (Hsh : shr_fexp 53 1024 (Zpos m) e l
                = (match n with
                   | Zpos p => SpecFloat.iter_pos shr_1 p (shr_record_of_loc (Zpos m) l)
                   | _ => shr_record_of_loc (Zpos m) l
                   end, e + n)).
  { unfold shr_fexp. cbn [Zdigits2]. rewrite Hd, fexp_normal by lia.
    replace (53 + n + e - 53 - e) with n by lia. unfold shr.
    destruct n as [|p|p]; try reflexivity; [f_equal; lia | lia]. }
  rewrite Hsh. clear Hsh.
  set (mrs := match n with Zpos p => _ | _ => _ end).
  set (r := round_nearest_even (shr_m mrs) (loc_of_shr_record mrs)).
  assert (Hm : shr_m mrs = Zpos m / 2 ^ n).
  { subst mrs. destruct n as [|p|p]; [| |lia].
    - rewrite shr_m_record_of_loc, Z.pow_0_r, Z.div_1_r. reflexivity.
    - rewrite iter_pos_nat.
      assert (Hrec : exists b1 b2, shr_record_of_loc (Zpos m) l = Build_shr_record (Zpos m) b1 b2)
        by (destruct l as [|[| |]]; cbn; eauto).
      destruct Hrec as (b1 & b2 & ->).
      rewrite shr_iter_m, positive_nat_Z by lia. reflexivity. }
  exists r.
  split; [|split].
  - apply round_stage2; [|lia].
    pose proof (round_nearest_even_range (shr_m mrs) (loc_of_shr_record mrs)). fold r in H.
    rewrite Hm in H. lia.
  - pose proof (round_nearest_even_range (shr_m mrs) (loc_of_shr_record mrs)). fold r in H.
    rewrite Hm in H. exact H.
  - intros ->. subst r. rewrite Hm. subst mrs.
    destruct n as [|p|p]; [| |lia].
    + cbn [shr_record_of_loc loc_of_shr_record round_nearest_even].
      rewrite Z.pow_0_r, Z.mod_1_r. split; intros; [reflexivity|lia].
    + rewrite iter_pos_nat. cbn [shr_record_of_loc].
      destruct (Pos.to_nat p) as [|k] eqn:Hk; [lia|].
      rewrite shr_iter by lia.
      assert (Hpk : Zpos p = Z.succ (Z.of_nat k)) by lia.
      rewrite Hpk, Z.pow_succ_r by lia.
      set (q := 2 ^ Z.of_nat k). assert (0 < q) by (apply Z.pow_pos_nonneg; lia).
      pose proof (Z.mod_pos_bound (Zpos m) q ltac:(lia)).
      assert (E : Zpos m mod (2 * q) = q * ((Zpos m / q) mod 2) + Zpos m mod q).
      { rewrite (Z.mul_comm 2 q), Z.rem_mul_r by lia. lia. }
      rewrite E.
      destruct (Z.testbit (Zpos m) (Z.of_nat k)) eqn:Hb.
      * apply Z.testbit_true in Hb; [|lia]. fold q in Hb. rewrite Hb.
        destruct (Z.eqb_spec (Zpos m mod q) 0) as [E0|E0];
          cbn [negb loc_of_shr_record round_nearest_even]; split; intros; lia.
      * apply Z.testbit_false in Hb; [|lia]. fold q in Hb. rewrite Hb.
        destruct (Z.eqb_spec (Zpos m mod q) 0) as [E0|E0];
          cbn [negb loc_of_shr_record round_nearest_even]; split; intros; lia.
Qed.



(** *** Normal positive floats and their order *)

Lemma Fnormal_inv (x : spec_float) :
  Fnormal x = true ->
  exists m e, x = S754_finite false m e /\ Zpos (digits2_pos m) = 53 /\ -150 <= e <= 900.
Proof.
  destruct x as [| | |[|] m e]; try discriminate. cbn [Fnormal].
  intros H. apply andb_prop in H as [H H3]. apply andb_prop in H as [H1 H2].
  exists m, e. split; [reflexivity|]. lia.
Qed.

Lemma Fnorm_normal (r e : Z) :
  2 ^ 52 <= r <= 2 ^ 53 -> -150 <= e <= 899 ->
  Fnormal (Fnorm false r e) = true /\ Fval (Fnorm false r e) = r * 2 ^ (e + 150).
Proof.
  intros Hr He. unfold Fnorm.
  destruct (Z.eqb_spec r (2 ^ 53)) as [->|Hne].
  - destruct (Z.leb_spec (e + 1) 971); [|lia].
    cbn [Fnormal Fval]. split.
    + change (Zpos (digits2_pos (Z.to_pos (2 ^ 52)))) with 53.
      apply andb_true_intro; split; [apply andb_true_intro; split|]; lia.
    + replace (e + 1 + 150) with (Z.succ (e + 150)) by lia. rewrite Z.pow_succ_r by lia.
      change (Zpos (Z.to_pos (2 ^ 52))) with (2 ^ 52). change (2 ^ 53) with (2 * 2 ^ 52). lia.
  - destruct (Z.leb_spec e 971); [|lia].
    destruct r as [|pr|pr]; try (cbn in Hr; lia).
    cbn [Fnormal Fval Z.to_pos]. split; [|reflexivity].
    assert (Hd : Zpos (digits2_pos pr) = 53) by (apply digits2_unique; change (53 - 1) with 52; lia).
    rewrite Hd. apply andb_true_intro; split; [apply andb_true_intro; split|]; lia.
Qed.

(** On normal positive floats [SFcompare] compares the values. *)
Lemma SFcompare_normal (x y : spec_float) :
  Fnormal x = true -> Fnormal y = true ->
  SFcompare x y = Some (Fval x ?= Fval y).
Proof.
  intros Hx Hy.
  apply Fnormal_inv in Hx as (m1 & e1 & -> & D1 & E1).
  apply Fnormal_inv in Hy as (m2 & e2 & -> & D2 & E2).
  pose proof (digits2_bounds m1) as B1. pose proof (digits2_bounds m2) as B2.
  rewrite D1 in B1. rewrite D2 in B2. change (53 - 1) with 52 in *.
  cbn [SFcompare Fval]. f_equal.
  assert (P1 : 0 < 2 ^ (e1 + 150)) by (apply Z.pow_pos_nonneg; lia).
  assert (P2 : 0 < 2 ^ (e2 + 150)) by (apply Z.pow_pos_nonneg; lia).
  destruct (Z.compare_spec e1 e2) as [->|Hlt|Hgt].
  - rewrite Pos.compare_cont_spec.
    change (Pos.compare m1 m2) with (Z.compare (Zpos m1) (Zpos m2)).
    rewrite <- (Zmult_compare_compat_r (Zpos m1) (Zpos m2) (2 ^ (e2 + 150))) by lia.
    destruct (Zpos m1 ?= Zpos m2); reflexivity.
  - symmetry. apply Z.compare_lt_iff.
    replace (e2 + 150) with ((e1 + 150) + (e2 - e1)) by lia.
    rewrite (Z.pow_add_r 2 (e1 + 150) (e2 - e1)) by lia.
    assert (Q : 2 ^ 1 <= 2 ^ (e2 - e1)) by (apply Z.pow_le_mono_r; lia).
    change (2 ^ 1) with 2 in Q.
    assert (Zpos m1 < Zpos m2 * 2 ^ (e2 - e1)) by nia.
    rewrite (Z.mul_comm (2 ^ (e1 + 150))), Z.mul_assoc.
    apply Z.mul_lt_mono_pos_r; assumption.
  - symmetry. apply Z.compare_gt_iff.
    replace (e1 + 150) with ((e2 + 150) + (e1 - e2)) by lia.
    rewrite (Z.pow_add_r 2 (e2 + 150) (e1 - e2)) by lia.
    assert (Q : 2 ^ 1 <= 2 ^ (e1 - e2)) by (apply Z.pow_le_mono_r; lia).
    change (2 ^ 1) with 2 in Q.
    assert (Zpos m2 < Zpos m1 * 2 ^ (e1 - e2)) by nia.
    rewrite (Z.mul_comm (2 ^ (e2 + 150))), Z.mul_assoc.
    apply Z.mul_lt_mono_pos_r; assumption.
Qed.

Lemma shl_align_fst (m : positive) (e e' : Z) :
  e' <= e -> Zpos (fst (shl_align m e e')) = Zpos m * 2 ^ (e - e').
Proof.
  intros H. unfold shl_align.
  destruct (e' - e) as [|d|d] eqn:Hd.
  - replace (e - e') with 0 by lia. cbn [fst]. lia.
  - lia.
  - cbn [fst]. rewrite iter_xO. f_equal. f_equal. lia.
Qed.

(** [float64(n)] for [0 < n < 2^53] is exact. *)
Lemma binary_normalize_small (n : Z) :
  0 < n < 2 ^ 53 ->
  Fnormal (float64_of_int n) = true
  /\ Fval (float64_of_int n) = n * 2 ^ 150.
Proof.
  intros Hn. unfold float64_of_int, prec, emax. destruct n as [|p|p]; try lia.
  cbn [binary_normalize]. unfold binary_round.
  pose proof (digits2_bounds p) as [Blo Bhi].
  remember (Zpos (digits2_pos p)) as d eqn:Hdd.
  assert (Hd : 1 <= d <= 53).
  { split; [lia|]. destruct (Z.leb_spec d 53); [assumption|].
    assert (2 ^ 53 <= 2 ^ (d - 1)) by (apply Z.pow_le_mono_r; lia). lia. }
  rewrite Z.add_0_r, fexp_normal by lia.
  destruct (shl_align p 0 (d - 53)) as [mz ez] eqn:Hsh.
  assert (Hmz : Zpos mz = Zpos p * 2 ^ (53 - d)).
  { pose proof (shl_align_fst p 0 (d - 53) ltac:(lia)) as H. rewrite Hsh in H. cbn [fst] in H.
    rewrite H. f_equal. f_equal. lia. }
  assert (Hez : ez = d - 53).
  { unfold shl_align in Hsh. destruct (d - 53 - 0) as [|q|q] eqn:E;
      injection Hsh as _ Hez; lia. }
  subst ez.
  assert (Hdz : Zpos (digits2_pos mz) = 53 + 0).
  { apply digits2_unique. rewrite Hmz. change (53 + 0 - 1) with 52. change (53 + 0) with 53.
    assert (P : 0 < 2 ^ (53 - d)) by (apply Z.pow_pos_nonneg; lia).
    replace (2 ^ 52) with (2 ^ (d - 1) * 2 ^ (53 - d))
      by (rewrite <- Z.pow_add_r by lia; f_equal; lia).
    replace (2 ^ 53) with (2 ^ d * 2 ^ (53 - d))
      by (rewrite <- Z.pow_add_r by lia; f_equal; lia).
    nia. }
  destruct (binary_round_aux_normal false mz (d - 53) loc_Exact 0 Hdz ltac:(lia) ltac:(lia))
    as (r & Hr & Hrange & Hex).
  rewrite Z.pow_0_r, Z.div_1_r in Hrange.
  destruct (Hex eq_refl) as [Hex1 _]. rewrite Z.pow_0_r, Z.mod_1_r, Z.div_1_r in Hex1.
  specialize (Hex1 ltac:(lia)). subst r. rewrite Hr, Z.add_0_r.
  pose proof (digits2_bounds mz) as Bz. rewrite Hdz in Bz. change (53 + 0 - 1) with 52 in Bz.
  change (53 + 0) with 53 in Bz.
  destruct (Fnorm_normal (Zpos mz) (d - 53) ltac:(lia) ltac:(lia)) as [N V].
  split; [exact N|]. rewrite V, Hmz, <- Z.mul_assoc, <- Z.pow_add_r by lia.
  f_equal. f_equal. lia.
Qed.

(** *** Division and addition of normal positive floats

    The quotient of two mantissas of 53 bits has 53 or 54 bits, and the
    rounded result is at most one above it. *)
Lemma SFdiv_normal (m1 m2 : positive) (e1 e2 : Z) :
  Zpos (digits2_pos m1) = 53 -> Zpos (digits2_pos m2) = 53 ->
  -1000 <= e1 - e2 ->
  exists r n,
    SFdiv 53 1024 (S754_finite false m1 e1) (S754_finite false m2 e2)
    = Fnorm false r (e1 - e2 - 53 + n)
    /\ 0 <= n <= 1
    /\ 2 ^ 52 <= r <= 2 ^ 53
    /\ r <= (Zpos m1 * 2 ^ 53 / Zpos m2) / 2 ^ n + 1.
Proof.
  intros D1 D2 He.
  pose proof (digits2_bounds m1) as B1. pose proof (digits2_bounds m2) as B2.
  rewrite D1 in B1. rewrite D2 in B2. change (53 - 1) with 52 in *.
  cbn [SFdiv xorb]. unfold SFdiv_core_binary. cbn [Zdigits2]. rewrite D1, D2.
  replace (53 + e1 - (53 + e2)) with (e1 - e2) by lia.
  rewrite fexp_normal by lia.
  rewrite Z.min_l by lia.
  replace (e1 - e2 - (e1 - e2 - 53)) with 53 by lia.
  rewrite Z.shiftl_mul_pow2 by lia.
  set (q0 := Zpos m1 * 2 ^ 53 / Zpos m2).
  assert (Hq : Z.div_eucl (Zpos m1 * 2 ^ 53) (Zpos m2) = (q0, (Zpos m1 * 2 ^ 53) mod Zpos m2)).
  { unfold q0, Z.div, Z.modulo. destruct (Z.div_eucl _ _); reflexivity. }
  rewrite Hq. clear Hq.
  assert (Hq0 : 2 ^ 52 <= q0 < 2 ^ 54).
  { unfold q0. split.
    - apply Z.div_le_lower_bound; [lia|]. change (2 ^ 53) with (2 * 2 ^ 52) in *. nia.
    - apply Z.div_lt_upper_bound; [lia|]. change (2 ^ 54) with (2 * 2 ^ 53). nia. }
  destruct q0 as [|pq|pq] eqn:Eq0; try (cbn in Hq0; lia).
  set (n := Zpos (digits2_pos pq) - 53).
  assert (Hn : 0 <= n <= 1).
  { pose proof (digits2_bounds pq) as [Blo Bhi]. subst n.
    destruct (Z.leb_spec (Zpos (digits2_pos pq)) 52).
    - assert (2 ^ Zpos (digits2_pos pq) <= 2 ^ 52) by (apply Z.pow_le_mono_r; lia). lia.
    - destruct (Z.leb_spec 55 (Zpos (digits2_pos pq))); [|lia].
      assert (2 ^ 54 <= 2 ^ (Zpos (digits2_pos pq) - 1)) by (apply Z.pow_le_mono_r; lia). lia. }
  destruct (binary_round_aux_normal false pq (e1 - e2 - 53)
              (new_location (Zpos m2) ((Zpos m1 * 2 ^ 53) mod Zpos m2)) n
              ltac:(subst n; lia) ltac:(lia) ltac:(lia)) as (r & Hr & Hrange & _).
  exists r, n. split; [exact Hr|]. split; [exact Hn|].
  assert (Ha : 2 ^ 52 <= Zpos pq / 2 ^ n < 2 ^ 53).
  { pose proof (digits2_bounds pq) as [Blo Bhi].
    replace (Zpos (digits2_pos pq)) with (53 + n) in * by (subst n; lia).
    assert (0 < 2 ^ n) by (apply Z.pow_pos_nonneg; lia).
    replace (53 + n - 1) with (52 + n) in Blo by lia.
    rewrite Z.pow_add_r in Blo, Bhi by lia. split.
    - apply Z.div_le_lower_bound; lia.
    - apply Z.div_lt_upper_bound; lia. }
  split; lia.
Qed.

(** The sum of two normal positive floats is the exact sum [W] of their
    values rounded to the multiples of [2^k], where [2^k] is the unit in
    the last place of [W]. *)
Lemma SFadd_round (x y : spec_float) :
  Fnormal x = true -> Fnormal y = true -> Fval x + Fval y < 2 ^ 200 ->
  exists k r,
    0 <= k
    /\ Fnormal (SFadd 53 1024 x y) = true
    /\ Fval (SFadd 53 1024 x y) = r * 2 ^ k
    /\ 2 ^ 52 <= (Fval x + Fval y) / 2 ^ k
    /\ (Fval x + Fval y) / 2 ^ k <= r <= (Fval x + Fval y) / 2 ^ k + 1
    /\ (2 * ((Fval x + Fval y) mod 2 ^ k) < 2 ^ k -> r = (Fval x + Fval y) / 2 ^ k)
    /\ (2 ^ k < 2 * ((Fval x + Fval y) mod 2 ^ k) -> r = (Fval x + Fval y) / 2 ^ k + 1).
Proof.
  intros Hx Hy HW.
  apply Fnormal_inv in Hx as (m1 & e1 & -> & D1 & E1).
  apply Fnormal_inv in Hy as (m2 & e2 & -> & D2 & E2).
  pose proof (digits2_bounds m1) as B1. pose proof (digits2_bounds m2) as B2.
  rewrite D1 in B1. rewrite D2 in B2. change (53 - 1) with 52 in *.
  cbn [Fval] in *.
  set (ez := Z.min e1 e2).
  assert (Hez : -150 <= ez /\ ez <= e1 /\ ez <= e2) by (subst ez; lia).
  set (t := 2 ^ (ez + 150)). assert (Ht : 0 < t) by (apply Z.pow_pos_nonneg; lia).
  set (Sm := Zpos m1 * 2 ^ (e1 - ez) + Zpos m2 * 2 ^ (e2 - ez)).
  assert (HS : Zpos m1 * 2 ^ (e1 + 150) + Zpos m2 * 2 ^ (e2 + 150) = Sm * t).
  { unfold Sm, t. rewrite Z.mul_add_distr_r, <- !Z.mul_assoc, <- !Z.pow_add_r by lia.
    f_equal; f_equal; f_equal; lia. }
  rewrite HS in *.
  assert (P1 : 1 <= 2 ^ (e1 - ez)) by (apply (Z.pow_le_mono_r 2 0); lia).
  assert (P2 : 1 <= 2 ^ (e2 - ez)) by (apply (Z.pow_le_mono_r 2 0); lia).
  assert (HSlo : 2 ^ 52 < Sm) by (unfold Sm; nia).
  (* what [SFadd] computes *)
  cbn [SFadd cond_Zopp]. fold ez.
  pose proof (shl_align_fst m1 e1 ez ltac:(lia)) as A1.
  pose proof (shl_align_fst m2 e2 ez ltac:(lia)) as A2.
  remember (fst (shl_align m1 e1 ez)) as a1 eqn:F1.
  remember (fst (shl_align m2 e2 ez)) as a2 eqn:F2.
  change (Zpos a1 + Zpos a2) with (Zpos (a1 + a2)).
  assert (HSp : Zpos (a1 + a2) = Sm) by (unfold Sm; rewrite <- A1, <- A2; reflexivity).
  remember (a1 + a2)%positive as pS eqn:EpS. clear EpS F1 F2 A1 A2.
  cbn [binary_normalize]. unfold binary_round.
  pose proof (digits2_bounds pS) as [Blo Bhi]. rewrite HSp in Blo, Bhi.
  remember (Zpos (digits2_pos pS)) as d eqn:Hdd.
  assert (Hd : 53 <= d).
  { destruct (Z.leb_spec 53 d); [assumption|].
    assert (2 ^ d <= 2 ^ 52) by (apply Z.pow_le_mono_r; lia). lia. }
  rewrite fexp_normal by lia.
  assert (Hsh : shl_align pS ez (d + ez - 53) = (pS, ez)).
  { unfold shl_align. destruct (d + ez - 53 - ez) eqn:E; [reflexivity|reflexivity|lia]. }
  rewrite Hsh.
  destruct (binary_round_aux_normal false pS ez loc_Exact (d - 53)
              ltac:(lia) ltac:(lia) ltac:(lia)) as (r & Hr & Hrange & Hex).
  destruct (Hex eq_refl) as [Hex1 Hex2]. rewrite HSp in Hrange, Hex1, Hex2.
  set (n := d - 53) in *. assert (Hn : 0 <= n) by (subst n; lia).
  assert (Pn : 0 < 2 ^ n) by (apply Z.pow_pos_nonneg; lia).
  assert (Hdn : d = 53 + n) by (subst n; lia). rewrite Hdn in Blo, Bhi.
  replace (53 + n - 1) with (52 + n) in Blo by lia.
  rewrite Z.pow_add_r in Blo, Bhi by lia.
  assert (Hk : 2 ^ (ez + n + 150) = 2 ^ n * t)
    by (unfold t; rewrite <- Z.pow_add_r by lia; f_equal; lia).
  assert (Hub : ez + n + 150 <= 148).
  { destruct (Z.leb_spec (ez + n + 150) 148); [assumption|].
    assert (2 ^ 148 <= 2 ^ (ez + n + 150)) by (apply Z.pow_le_mono_r; lia).
    change (2 ^ 200) with (2 ^ 52 * 2 ^ 148) in HW.
    exfalso. nia. }
  exists (ez + n + 150), r.
  assert (Ha : 2 ^ 52 <= Sm / 2 ^ n < 2 ^ 53).
  { split; [apply Z.div_le_lower_bound; lia | apply Z.div_lt_upper_bound; lia]. }
  destruct (Fnorm_normal r (ez + n) ltac:(lia) ltac:(lia)) as [N V].
  rewrite Hr, Hk, Z.div_mul_cancel_r, Z.mul_mod_distr_r by lia.
  split; [lia|]. split; [exact N|]. split; [rewrite V, Hk; reflexivity|].
  split; [lia|]. split; [exact Hrange|]. split; intros Hc; [apply Hex1|apply Hex2]; nia.
Qed.

(** Rounding to a grid of step [u] does not cross the points of the grid. *)
Lemma round_le_grid (W u r g : Z) :
  0 < u -> W / u <= r <= W / u + 1 -> (2 * (W mod u) < u -> r = W / u) ->
  W <= g * u -> r * u <= g * u.
Proof.
  intros Hu Hr Hex HW.
  pose proof (Z.div_mod W u ltac:(lia)) as E. pose proof (Z.mod_pos_bound W u Hu) as B.
  destruct (Z.eq_dec (W mod u) 0) as [E0|E0].
  - rewrite (Hex ltac:(lia)). nia.
  - assert (W / u < g) by nia. nia.
Qed.

Lemma round_ge_grid (W u r g : Z) :
  0 < u -> W / u <= r -> g * u <= W -> g * u <= r * u.
Proof.
  intros Hu Hr HW. assert (g <= W / u) by (apply Z.div_le_lower_bound; lia). nia.
Qed.

(** Past the middle of a step, rounding goes up. *)
Lemma round_gt_grid (W u r g Q : Z) :
  0 < u -> W = g * u + Q -> u < 2 * Q -> W / u <= r ->
  (u < 2 * (W mod u) -> r = W / u + 1) ->
  g * u < r * u.
Proof.
  intros Hu HW HQ Hr Hex.
  destruct (Z.leb_spec u Q) as [Hge|Hlt].
  - assert (g + 1 <= W / u) by (apply Z.div_le_lower_bound; lia). nia.
  - assert (Hd : W / u = g) by (symmetry; apply (Z.div_unique W u g Q); lia).
    assert (Hm : W mod u = Q) by (symmetry; apply (Z.mod_unique W u g Q); lia).
    rewrite Hm in Hex. rewrite (Hex HQ), Hd. nia.
Qed.


(** The fraction of an hour: a float between 2^-42 (excluded) and 1. *)
Lemma hour_fraction (nsec : Z) :
  1 <= nsec < Hour ->
  let q := f64_div (float64_of_int nsec) (float64_of_int (60 * 60 * 1000000000)) in
  Fnormal q = true /\ 2 ^ 108 < Fval q <= 2 ^ 150.
Proof.
  intros Hn q. subst q.
  destruct (Z.eq_dec nsec 1) as [->|Hne].
  { vm_compute. repeat split; congruence. }
  unfold Hour in Hn.
  destruct (binary_normalize_small nsec ltac:(lia)) as [N V].
  apply Fnormal_inv in N as (m1 & e1 & Ex & D1 & E1). rewrite Ex in V |- *. cbn [Fval] in V.
  unfold f64_div, prec, emax.
  change (float64_of_int (60 * 60 * 1000000000))
    with (S754_finite false 7372800000000000 (-11)).
  pose proof (digits2_bounds m1) as B1. rewrite D1 in B1. change (53 - 1) with 52 in B1.
  (* the exponent of [float64(nsec)] *)
  assert (He1 : -51 <= e1 <= -11).
  { split.
    - destruct (Z.leb_spec (-51) e1); [assumption|].
      assert (2 ^ (e1 + 150) <= 2 ^ 98) by (apply Z.pow_le_mono_r; lia).
      change (2 ^ 150) with (2 ^ 52 * 2 ^ 98) in V.
      assert (0 < 2 ^ (e1 + 150)) by (apply Z.pow_pos_nonneg; lia).
      change (2 ^ 53) with (2 * 2 ^ 52) in B1. nia.
    - destruct (Z.leb_spec e1 (-11)); [assumption|].
      assert (2 ^ 140 <= 2 ^ (e1 + 150)) by (apply Z.pow_le_mono_r; lia).
      change (2 ^ 150) with (2 ^ 10 * 2 ^ 140) in V. nia. }
  destruct (SFdiv_normal m1 7372800000000000 e1 (-11) D1 eq_refl ltac:(lia))
    as (r & n & Hr & Hn01 & Hr52 & Hrup).
  rewrite Hr.
  destruct (Fnorm_normal r (e1 - -11 - 53 + n) Hr52 ltac:(lia)) as [N' V'].
  split; [exact N'|]. rewrite V'.
  replace (e1 - -11 - 53 + n + 150) with (e1 + n + 108) by lia.
  split.
  - assert (2 ^ 57 <= 2 ^ (e1 + n + 108)) by (apply Z.pow_le_mono_r; lia).
    change (2 ^ 108) with (2 ^ 51 * 2 ^ 57). change (2 ^ 52) with (2 * 2 ^ 51) in Hr52.
    assert (0 < 2 ^ 51) by lia. nia.
  - (* the quotient is below 1 *)
    set (T := 2 ^ (42 - e1 - n)).
    assert (HT : T * 2 ^ (e1 + n + 108) = 2 ^ 150).
    { unfold T. rewrite <- Z.pow_add_r by lia. f_equal. lia. }
    assert (Pn : 0 < 2 ^ n) by (apply Z.pow_pos_nonneg; lia).
    assert (HTn : T * 2 ^ n = 2 ^ (42 - e1)).
    { unfold T. rewrite <- Z.pow_add_r by lia. f_equal. lia. }
    assert (Hq : Zpos m1 * 2 ^ 53 / 7372800000000000 < 2 ^ (42 - e1)).
    { apply Z.div_lt_upper_bound; [lia|].
      (* m1 * 2^e1 = nsec < Hour = 7372800000000000 * 2^-11 *)
      assert (Hv : Zpos m1 = nsec * 2 ^ (- e1)).
      { assert (E : 2 ^ 150 = 2 ^ (e1 + 150) * 2 ^ (- e1))
          by (rewrite <- Z.pow_add_r by lia; f_equal; lia).
        rewrite E in V. assert (0 < 2 ^ (e1 + 150)) by (apply Z.pow_pos_nonneg; lia). nia. }
      rewrite Hv.
      replace (2 ^ (42 - e1)) with (2 ^ 42 * 2 ^ (- e1))
        by (rewrite <- Z.pow_add_r by lia; f_equal; lia).
      assert (0 < 2 ^ (- e1)) by (apply Z.pow_pos_nonneg; lia).
      change (2 ^ 53) with (2 ^ 42 * 2048). nia. }
    assert (Ha : Zpos m1 * 2 ^ 53 / 7372800000000000 / 2 ^ n < T).
    { apply Z.div_lt_upper_bound; [lia|]. rewrite (Z.mul_comm (2 ^ n) T), HTn. exact Hq. }
    rewrite <- HT. apply Z.mul_le_mono_nonneg_r; [apply Z.pow_nonneg; lia|]. lia.
Qed.

(** *** [Hours] against exact hours

    For a positive duration, [Hours d] is a normal float, and against a
    whole threshold of at most 4095 hours it compares as [d] itself does. *)
Lemma Hours_spec (d : Z) :
  1 <= d <= 2 ^ 63 - 1 ->
  Fnormal (Hours d) = true
  /\ forall H, 1 <= H <= 4095 -> (Fval (Hours d) <= H * 2 ^ 150 <-> d <= H * Hour).
Proof.
  intros Hd. unfold Hours, f64_add, prec, emax.
  rewrite Z.quot_div_nonneg, Z.rem_mod_nonneg by (unfold Hour; lia).
  pose proof (Z.div_mod d Hour ltac:(unfold Hour; lia)) as Edm.
  pose proof (Z.mod_pos_bound d Hour ltac:(unfold Hour; lia)) as Bn.
  set (hour := d / Hour) in *. set (nsec := d mod Hour) in *.
  assert (Bh : 0 <= hour <= 2562047).
  { split; [apply Z.div_pos; unfold Hour; lia|].
    assert (hour < 2562048); [|lia].
    apply Z.div_lt_upper_bound; unfold Hour; lia. }
  destruct (Z.eq_dec nsec 0) as [E0|E0].
  - (* a whole number of hours *)
    rewrite E0 in *. change (float64_of_int 0) with (S754_zero false).
    change (float64_of_int (60 * 60 * 1000000000))
      with (S754_finite false 7372800000000000 (-11)).
    unfold f64_div. cbn [SFdiv xorb].
    destruct (binary_normalize_small hour ltac:(unfold Hour in *; lia)) as [N V].
    destruct (Fnormal_inv _ N) as (m & e & Ex & _). rewrite Ex in *.
    cbn [SFadd]. split; [exact N|]. intros H HH. rewrite V.
    assert (0 < 2 ^ 150) by lia. unfold Hour in *. split; intros; nia.
  - destruct (hour_fraction nsec ltac:(lia)) as [Nq [Qlo Qhi]]. cbn zeta in Nq, Qlo, Qhi.
    set (q := f64_div (float64_of_int nsec) (float64_of_int (60 * 60 * 1000000000))) in *.
    destruct (Z.eq_dec hour 0) as [Eh|Eh].
    + (* less than an hour *)
      rewrite Eh in *. change (float64_of_int 0) with (S754_zero false).
      destruct (Fnormal_inv _ Nq) as (m & e & Ex & _). rewrite Ex in *.
      cbn [SFadd]. split; [exact Nq|]. intros H HH.
      unfold Hour in *. split; intros; nia.
    + destruct (binary_normalize_small hour ltac:(lia)) as [N V].
      destruct (SFadd_round (float64_of_int hour) q N Nq ltac:(rewrite V; lia))
        as (k & r & Hk & Nz & Vz & Wlo & Hr & Hex1 & Hex2).
      split; [exact Nz|]. intros H HH. rewrite Vz.
      rewrite V in *. set (W := hour * 2 ^ 150 + Fval q) in *.
      set (u := 2 ^ k) in *. assert (Hu : 0 < u) by (apply Z.pow_pos_nonneg; lia).
      assert (Hk' : k <= 120).
      { destruct (Z.leb_spec k 120); [assumption|].
        assert (2 ^ 121 <= u) by (apply Z.pow_le_mono_r; lia).
        assert (2 ^ 52 * u <= W) by (pose proof (Z.mul_div_le W u Hu); nia).
        subst W. change (2 ^ 150) with (2 ^ 29 * 2 ^ 121) in *. nia. }
      assert (Hg : 2 ^ 150 = 2 ^ (150 - k) * u).
      { unfold u. rewrite <- Z.pow_add_r by lia. f_equal. lia. }
      assert (Pg : 0 < 2 ^ (150 - k)) by (apply Z.pow_pos_nonneg; lia).
      destruct (Z.lt_trichotomy hour H) as [Hlt|[Heq|Hgt]].
      * (* below the threshold *)
        assert (HW : W <= (H * 2 ^ (150 - k)) * u) by (subst W; nia).
        pose proof (round_le_grid W u r (H * 2 ^ (150 - k)) Hu Hr Hex1 HW).
        unfold Hour in *. split; intros; nia.
      * (* the threshold and a fraction *)
        subst H.
        assert (hour * 2 ^ 150 < r * u); [|unfold Hour in *; split; intros; nia].
        destruct (Z.leb_spec (2 ^ 150) (Fval q)) as [Hq1|Hq1].
        -- assert (HW : ((hour + 1) * 2 ^ (150 - k)) * u <= W) by (subst W; nia).
           pose proof (round_ge_grid W u r _ Hu (proj1 Hr) HW). nia.
        -- assert (Hk109 : k <= 109).
           { destruct (Z.leb_spec k 109); [assumption|].
             assert (2 ^ 110 <= u) by (apply Z.pow_le_mono_r; lia).
             pose proof (Z.mul_div_le W u Hu).
             subst W. change (2 ^ 150) with (2 ^ 40 * 2 ^ 110) in *. nia. }
           assert (u <= 2 ^ 109) by (apply Z.pow_le_mono_r; lia).
           replace (hour * 2 ^ 150) with ((hour * 2 ^ (150 - k)) * u) by nia.
           apply (round_gt_grid W u r (hour * 2 ^ (150 - k)) (Fval q) Hu);
             [subst W; nia | change (2 ^ 109) with (2 * 2 ^ 108) in *; lia | lia | exact Hex2].
      * (* above the threshold *)
        assert (HW : ((H + 1) * 2 ^ (150 - k)) * u <= W) by (subst W; nia).
        pose proof (round_ge_grid W u r _ Hu (proj1 Hr) HW).
        unfold Hour in *. split; intros; nia.
Qed.

(** The conversion of a non-zero integer keeps its sign. *)
Lemma binary_round_Fnorm (s : bool) (p : positive) :
  exists r e, binary_round 53 1024 s p 0 = Fnorm s r e.
Proof.
  unfold binary_round. rewrite Z.add_0_r.
  remember (Zpos (digits2_pos p)) as d eqn:Hdd.
  assert (Hd : 1 <= d) by lia.
  rewrite fexp_normal by lia.
  destruct (Z.leb_spec d 53) as [Hle|Hgt].
  - destruct (shl_align p 0 (d - 53)) as [mz ez] eqn:Hsh.
    pose proof (digits2_bounds p) as [Blo Bhi]. rewrite <- Hdd in Blo, Bhi.
    assert (Hmz : Zpos mz = Zpos p * 2 ^ (53 - d)).
    { pose proof (shl_align_fst p 0 (d - 53) ltac:(lia)) as H. rewrite Hsh in H. cbn [fst] in H.
      rewrite H. f_equal. f_equal. lia. }
    assert (Hez : ez = d - 53).
    { unfold shl_align in Hsh. destruct (d - 53 - 0) as [|q|q] eqn:E;
        injection Hsh as _ Hez; lia. }
    subst ez.
    assert (Hdz : Zpos (digits2_pos mz) = 53 + 0).
    { apply digits2_unique. rewrite Hmz. change (53 + 0 - 1) with 52. change (53 + 0) with 53.
      assert (P : 0 < 2 ^ (53 - d)) by (apply Z.pow_pos_nonneg; lia).
      replace (2 ^ 52) with (2 ^ (d - 1) * 2 ^ (53 - d))
        by (rewrite <- Z.pow_add_r by lia; f_equal; lia).
      replace (2 ^ 53) with (2 ^ d * 2 ^ (53 - d))
        by (rewrite <- Z.pow_add_r by lia; f_equal; lia).
      nia. }
    destruct (binary_round_aux_normal s mz (d - 53) loc_Exact 0 Hdz ltac:(lia) ltac:(lia))
      as (r & Hr & _). eauto.
  - assert (Hsh : shl_align p 0 (d - 53) = (p, 0)).
    { unfold shl_align. destruct (d - 53 - 0) eqn:E; [reflexivity|reflexivity|lia]. }
    rewrite Hsh.
    destruct (binary_round_aux_normal s p 0 loc_Exact (d - 53) ltac:(lia) ltac:(lia) ltac:(lia))
      as (r & Hr & _). eauto.
Qed.

Lemma SFleb_pos_neg (m : positive) (e r e' : Z) :
  SFleb (S754_finite false m e) (Fnorm true r e') = false.
Proof.
  unfold Fnorm. destruct (r =? 2 ^ 53); [destruct (e' + 1 <=? 971)|destruct (e' <=? 971)];
    reflexivity.
Qed.


(** The test of [checkProposal], for thresholds of at most 4095 hours. *)
Lemma due_iff (t now H : Z) :
  H <= 4095 -> (due t now H = true <-> 0 < t - now <= H * Hour).
Proof.
  intros HH. unfold due, After, f64_le, f64_gt.
  destruct (Z.ltb_spec now t) as [Hlt|Hge]; cbn [andb]; [|split; [discriminate|lia]].
  set (d := Sub t now).
  assert (Hd : 1 <= d <= 2 ^ 63 - 1 /\ (d = t - now \/ (d = 2 ^ 63 - 1 /\ d < t - now))).
  { subst d. unfold Sub, minDuration, maxDuration.
    destruct (Z.ltb_spec (t - now) (- 2 ^ 63)); [lia|].
    destruct (Z.ltb_spec (2 ^ 63 - 1) (t - now)); lia. }
  destruct Hd as [Hd Hsat].
  destruct (Hours_spec d Hd) as [N Hall].
  destruct (Fnormal_inv _ N) as (m & e & Ex & _).
  assert (Hpos : SFltb (float64_of_int 0) (Hours d) = true) by (rewrite Ex; reflexivity).
  rewrite Hpos, andb_true_r.
  destruct (Z.leb_spec 1 H) as [H1|H0].
  - destruct (binary_normalize_small H ltac:(lia)) as [NH VH].
    unfold SFleb. rewrite (SFcompare_normal _ _ N NH), VH.
    specialize (Hall H ltac:(lia)).
    destruct (Z.compare_spec (Fval (Hours d)) (H * 2 ^ 150)) as [E|E|E].
    + split; [intros _|reflexivity]. unfold Hour in *. lia.
    + split; [intros _|reflexivity]. unfold Hour in *. lia.
    + split; [discriminate|]. intros. unfold Hour in *. lia.
  - split; [|unfold Hour; lia]. intros Hle. exfalso. revert Hle. rewrite Ex.
    destruct H as [|p|p]; [discriminate|lia|].
    unfold float64_of_int, prec, emax. cbn [binary_normalize].
    destruct (binary_round_Fnorm true p) as (r & e' & ->).
    rewrite SFleb_pos_neg. discriminate.
Qed.




(** The two scenarios of the specification: five hours ahead fires with a
    threshold of 24 hours and not with one of 4. *)
Example five_hours_ahead :
  due (scenario.now0 + 5 * Hour) scenario.now0 24 = true
  /\ due (scenario.now0 + 5 * Hour) scenario.now0 4 = false.
Proof. split; vm_compute; reflexivity. Qed.

End float64_spec.

(** ** The notifier *)
Module notifier_spec.
Import types world notifications.

Section Proofs.
Variable env : Env.
Variable json_Marshal_text : string -> error + string.

(** C2. [SendNotification] runs the send of the chat bot when the bot is
    present and then, from the history that leaves, the send of the webhook
    when it is enabled, whatever the first one returned; the error returned
    is the first one met (the chat bot's before the webhook's), wrapped with
    the channel's name, and [nil] when neither failed. Each attempted send
    shows in the history as the channel's call. *)
Theorem SendNotification_every_channel (n : Notifier) (msg : NotificationMessage) (h : History) :
  let rT := match telegram n with
            | Some _ => sendTelegramNotification env n msg h
            | None => (None, h)
            end in
  let rS := if Slack_Enabled (slack n)
            then sendSlackNotification env json_Marshal_text n msg (snd rT)
            else (None, snd rT) in
  SendNotification env json_Marshal_text n msg h =
    (match fst rT, fst rS with
     | Some e, _ => Some (Errorf_w "telegram" e)
     | None, Some e => Some (Errorf_w "slack" e)
     | None, None => None
     end, snd rS)
  /\ (telegram n <> None ->
      exists o, snd rT = h ++ [EvTelegramSend (telegramChatID n) (formatTelegramMessage msg) o])
  /\ (Slack_Enabled (slack n) = true ->
      forall jsonData, json_Marshal_text (formatSlackMessage msg) = inr jsonData ->
      exists o, snd rS = snd rT ++ [EvPost (WebhookURL (slack n)) "application/json" jsonData o]).
Proof.
  unfold SendNotification, sendTelegramNotification, sendSlackNotification,
    telebot_Send, http_Post, bind, ret.
  split; [|split].
  - destruct (telegram n) as [b|]; cbn [fst snd].
    + destruct (telegram_at env h _ _) as [e|]; cbn [fst snd app];
        destruct (Slack_Enabled (slack n)); cbn [fst snd]; try reflexivity;
        (destruct (json_Marshal_text _) as [e'|jd]; cbn [fst snd app]; [reflexivity|]);
        (destruct (post_at env _ _ _ _) as [e'|st]; cbn [fst snd app]; [reflexivity|]);
        destruct (st =? 200); reflexivity.
    + destruct (Slack_Enabled (slack n)); cbn [fst snd]; try reflexivity.
      destruct (json_Marshal_text _) as [e'|jd]; cbn [fst snd app]; [reflexivity|].
      destruct (post_at env _ _ _ _) as [e'|st]; cbn [fst snd app]; [reflexivity|].
      destruct (st =? 200); reflexivity.
  - intros Hn. destruct (telegram n) as [b|]; [|congruence].
    exists (telegram_at env h (telegramChatID n) (formatTelegramMessage msg)).
    destruct (telegram_at env h _ _); reflexivity.
  - intros Hs jd Hjd. rewrite Hs, Hjd.
    match goal with |- context [post_at env ?a ?b ?c ?d] =>
      exists (post_at env a b c d); destruct (post_at env a b c d) as [e|st] end;
      [reflexivity|].
    destruct (st =? 200); reflexivity.
Qed.

(** C10. A notifier without chat bot and with the webhook disabled, which is
    what [NewNotifier] builds when both channels are disabled in the
    configuration, returns [nil] for every message and leaves the history
    as it was: nothing is delivered. *)
Theorem SendNotification_no_channel (token url : string) (chat : Z)
    (msg : NotificationMessage) (h : History) :
  let config := {| Telegram := {| Telegram_Enabled := false; BotToken := token; ChatID := chat |};
                   Slack := {| Slack_Enabled := false; WebhookURL := url |} |} in
  let n := {| telegram := None; telegramChatID := 0;
              slack := {| Slack_Enabled := false; WebhookURL := url |} |} in
  NewNotifier env config h = (inr n, h)
  /\ SendNotification env json_Marshal_text n msg h = (None, h).
Proof.
  split; reflexivity.
Qed.

(** C6, as the code has it. The webhook send returns [nil] exactly when the
    payload was marshalled and the POST was answered with status 200; a
    response with any other status, 2xx or not, is reported as the error
    "unexpected status code", and a failed POST as "failed to send
    request". *)
Theorem sendSlackNotification_ok_iff_200 (n : Notifier) (msg : NotificationMessage) (h : History) :
  (fst (sendSlackNotification env json_Marshal_text n msg h) = None <->
   exists jsonData,
     json_Marshal_text (formatSlackMessage msg) = inr jsonData /\
     post_at env h (WebhookURL (slack n)) "application/json" jsonData = PostResponse 200)
  /\ (forall jsonData status,
        json_Marshal_text (formatSlackMessage msg) = inr jsonData ->
        post_at env h (WebhookURL (slack n)) "application/json" jsonData = PostResponse status ->
        status <> 200 ->
        fst (sendSlackNotification env json_Marshal_text n msg h)
        = Some ("unexpected status code: " +:+ pretty status))
  /\ (forall jsonData err,
        json_Marshal_text (formatSlackMessage msg) = inr jsonData ->
        post_at env h (WebhookURL (slack n)) "application/json" jsonData = PostError err ->
        fst (sendSlackNotification env json_Marshal_text n msg h)
        = Some (Errorf_w "failed to send request" err)).
Proof.
  unfold sendSlackNotification, http_Post, bind, ret.
  split; [|split].
  - destruct (json_Marshal_text _) as [e|jd]; cbn [fst].
    + split; [discriminate|]. intros (jd & Hjd & _). discriminate.
    + destruct (post_at env h _ _ jd) as [e|st] eqn:Hp; cbn [fst].
      * split; [discriminate|]. intros (jd' & Hjd & Hp'). congruence.
      * destruct (Z.eqb_spec st 200) as [->|Hne]; cbn [negb fst].
        -- split; [|reflexivity]. intros _. exists jd. split; [reflexivity|exact Hp].
        -- split; [discriminate|]. intros (jd' & Hjd & Hp'). congruence.
  - intros jd st Hjd Hp Hne. rewrite Hjd, Hp.
    destruct (Z.eqb_spec st 200); [contradiction|reflexivity].
  - intros jd err Hjd Hp. rewrite Hjd, Hp. reflexivity.
Qed.

End Proofs.

(** Two channels, the chat bot failing: both are attempted, and the error
    of the chat bot is returned. *)
Example SendNotification_one_channel_fails :
  SendNotification (scenario.env_of 0 scenario.no_get 200 (Some "boom")) scenario.marshal0
    scenario.both_channels scenario.msg0 []
  = (Some "telegram: failed to send message: boom",
     [EvTelegramSend 42 (formatTelegramMessage scenario.msg0) (Some "boom");
      EvPost "https://hooks.example/T" "application/json"
        (match scenario.marshal0 (formatSlackMessage scenario.msg0) with
         | inr b => b | inl _ => "" end)
        (PostResponse 200)]).
Proof. vm_compute. reflexivity. Qed.

(** C6 as stated fails: status 204 lies in the 2xx range, and the send
    reports an error. *)
Lemma sendSlackNotification_rejects_204 :
  200 <= 204 < 300 /\
  sendSlackNotification (scenario.env_of 0 scenario.no_get 204 None) scenario.marshal0
    scenario.slack_only scenario.msg0 []
  = (Some "unexpected status code: 204",
     [EvPost "https://hooks.example/T" "application/json"
        (match scenario.marshal0 (formatSlackMessage scenario.msg0) with
         | inr b => b | inl _ => "" end)
        (PostResponse 204)]).
Proof.
  split; [lia|]. vm_compute. reflexivity.
Qed.

End notifier_spec.

(** ** The governance client *)
Module client_spec.
Import types world governance governance_view.

Section Proofs.
Variable env : Env.
Variable time_Parse_RFC3339 : string -> error + Time.
Variable json_Unmarshal : string -> error + CosmosGovResponse.

(** The loop appends, in order, the conversions of the proposals in the
    voting period that convert. *)
Lemma filterVoting_omap (c : Client) (raw : list CosmosProposal) (acc : list Proposal) :
  filterVoting time_Parse_RFC3339 c raw acc
  = acc ++ omap (convert time_Parse_RFC3339 c) (filter (fun p => isVoting p = true) raw).
Proof.
  revert acc. induction raw as [|p rest IH]; intros acc; cbn [filterVoting].
  - rewrite app_nil_r. reflexivity.
  - rewrite filter_cons.
    change (String.eqb (raw_Status p) "PROPOSAL_STATUS_VOTING_PERIOD") with (isVoting p).
    destruct (decide (isVoting p = true)) as [Hv|Hv].
    + rewrite Hv. cbn [omap list_omap]. unfold convert at 1.
      destruct (time_Parse_RFC3339 (raw_VotingStart p)) as [e|s]; [apply IH|].
      destruct (time_Parse_RFC3339 (raw_VotingEnd p)) as [e|t]; [apply IH|].
      destruct (gofmt.Sscanf_d_uint64 (raw_ID p)) as [e|i]; [apply IH|].
      rewrite IH, <- app_assoc. reflexivity.
    + apply not_true_is_false in Hv. rewrite Hv. apply IH.
Qed.

Lemma filterVoting_app (c : Client) (l1 l2 : list CosmosProposal) :
  filterVoting time_Parse_RFC3339 c (l1 ++ l2) []
  = filterVoting time_Parse_RFC3339 c l1 [] ++ filterVoting time_Parse_RFC3339 c l2 [].
Proof.
  rewrite !filterVoting_omap. cbn [app]. rewrite filter_app, omap_app. reflexivity.
Qed.

(** A proposal in the voting period whose start or end timestamp is
    rejected by [time.Parse], or whose identifier is rejected by [Sscanf],
    leaves the result as if it were not in the batch: the fetch goes on and
    the proposals around it are returned. *)
Lemma filterVoting_skips_rejected (c : Client) (l1 l2 : list CosmosProposal) (p : CosmosProposal) :
  (exists e, time_Parse_RFC3339 (raw_VotingStart p) = inl e) \/
  (exists e, time_Parse_RFC3339 (raw_VotingEnd p) = inl e) \/
  (exists e, gofmt.Sscanf_d_uint64 (raw_ID p) = inl e) ->
  filterVoting time_Parse_RFC3339 c (l1 ++ p :: l2) []
  = filterVoting time_Parse_RFC3339 c (l1 ++ l2) [].
Proof.
  intros H.
  assert (Hp : filterVoting time_Parse_RFC3339 c [p] [] = []).
  { rewrite filterVoting_omap. cbn [app]. rewrite filter_cons, filter_nil.
    destruct (decide (isVoting p = true)); [|reflexivity].
    cbn [omap list_omap]. unfold convert.
    destruct H as [[e1 He]|[[e2 He]|[e3 He]]]; rewrite He.
    - reflexivity.
    - destruct (time_Parse_RFC3339 (raw_VotingStart p)); reflexivity.
    - destruct (time_Parse_RFC3339 (raw_VotingStart p)); [reflexivity|].
      destruct (time_Parse_RFC3339 (raw_VotingEnd p)); reflexivity. }
  change (p :: l2) with ([p] ++ l2).
  rewrite !filterVoting_app, Hp. reflexivity.
Qed.


(** C9. Every returned proposal comes from a raw proposal of the batch whose
    title it carries unchanged when that title is not empty, and
    ["Proposal " ++ id], with the raw identifier, when it is; likewise its
    description is the raw one when not empty and the placeholder
    ["No description available"] when it is. *)
Theorem GetVotingProposals_title_description (c : Client) (raw : list CosmosProposal)
    (q : Proposal) :
  q ∈ filterVoting time_Parse_RFC3339 c raw [] ->
  exists p, p ∈ raw
    /\ convert time_Parse_RFC3339 c p = Some q
    /\ (raw_Title p = "" -> Title q = "Proposal " +:+ raw_ID p)
    /\ (raw_Title p <> "" -> Title q = raw_Title p)
    /\ (raw_Description p = "" -> Description q = "No description available")
    /\ (raw_Description p <> "" -> Description q = raw_Description p).
Proof.
  rewrite filterVoting_omap. cbn [app]. rewrite list_elem_of_omap.
  intros (p & Hp & Hq). apply list_elem_of_filter in Hp as [_ Hp].
  exists p. split; [exact Hp|]. split; [exact Hq|].
  unfold convert in Hq.
  destruct (time_Parse_RFC3339 (raw_VotingStart p)); [discriminate|].
  destruct (time_Parse_RFC3339 (raw_VotingEnd p)); [discriminate|].
  destruct (gofmt.Sscanf_d_uint64 (raw_ID p)); [discriminate|].
  injection Hq as <-. cbn [Title Description].
  destruct (String.eqb_spec (raw_Title p) ""), (String.eqb_spec (raw_Description p) "");
    repeat split; intros; congruence.
Qed.

End Proofs.



(** The batch of the witness above: the passed proposal and the one with a
    bad timestamp are left out, the one in the voting period is returned. *)
Example GetVotingProposals_batch :
  filterVoting scenario.parse0 {| config := scenario.zetachain |}
    [scenario.raw_passed; scenario.raw_voting "7" "" "Raise the cap"; scenario.raw_bad_time] []
  = [ {| ID := 7; Title := "Proposal 7"; Description := "Raise the cap";
         Status := "PROPOSAL_STATUS_VOTING_PERIOD";
         VotingStart := 1893456000000000000; VotingEnd := 1893542400000000000;
         Network := "ZetaChain Mainnet" |} ].
Proof. vm_compute. reflexivity. Qed.

Lemma GetVotingProposals_title_description_witness :
  let c := {| config := scenario.zetachain |} in
  let raw := [scenario.raw_voting "7" "" ""] in
  let q := {| ID := 7; Title := "Proposal 7"; Description := "No description available";
              Status := "PROPOSAL_STATUS_VOTING_PERIOD";
              VotingStart := 1893456000000000000; VotingEnd := 1893542400000000000;
              Network := "ZetaChain Mainnet" |} in
  exists p, p ∈ raw
    /\ convert scenario.parse0 c p = Some q
    /\ (raw_Title p = "" -> Title q = "Proposal " +:+ raw_ID p)
    /\ (raw_Title p <> "" -> Title q = raw_Title p)
    /\ (raw_Description p = "" -> Description q = "No description available")
    /\ (raw_Description p <> "" -> Description q = raw_Description p).
Proof.
  intros c raw q.
  apply (GetVotingProposals_title_description scenario.parse0 c raw q).
  vm_compute. apply list_elem_of_here.
Defined.

(** C7 at the identifier ["12abc"]. [Sscanf] with [%d] reads the digits at
    the front of the input and does not look at what follows them, so the
    identifier, which is not numeric, is accepted as 12 and the proposal is
    returned (under the title made from the raw identifier). *)
Theorem filterVoting_keeps_digit_prefix :
  numeric "12abc" = false
  /\ gofmt.Sscanf_d_uint64 "12abc" = inr 12
  /\ filterVoting scenario.parse0 {| config := scenario.zetachain |}
       [scenario.raw_voting "12abc" "" ""] []
     = [ {| ID := 12; Title := "Proposal 12abc"; Description := "No description available";
            Status := "PROPOSAL_STATUS_VOTING_PERIOD";
            VotingStart := 1893456000000000000; VotingEnd := 1893542400000000000;
            Network := "ZetaChain Mainnet" |} ].
Proof. repeat split; vm_compute; reflexivity. Qed.

(** More generally, whatever follows the digits is not looked at. *)
Lemma Sscanf_ignores_trailing_text (c : ascii) (rest : string) :
  gofmt.is_digit c = false ->
  gofmt.Sscanf_d_uint64 (String "1" (String "2" (String c rest))) = inr 12.
Proof.
  intros Hc. unfold gofmt.Sscanf_d_uint64.
  change (gofmt.SkipSpace (String "1" (String "2" (String c rest))) 0)
    with (inr (String "1" (String "2" (String c rest)), 0%N) : gofmt.ScanError + string * N).
  cbv beta iota.
  change (gofmt.accept_digits (String "1" (String "2" (String c rest))) 0 0)
    with (if gofmt.is_digit c
          then gofmt.accept_digits rest 3 (10 * 12 + gofmt.digit_value c)
          else 12).
  rewrite Hc. reflexivity.
Qed.

(** An identifier without a digit at its front is rejected, and the
    proposal left out while its neighbours stay. *)
Example filterVoting_skips_non_numeric :
  filterVoting scenario.parse0 {| config := scenario.zetachain |}
    [scenario.raw_voting "seven" "" ""; scenario.raw_voting "8" "Eight" "d"] []
  = [ {| ID := 8; Title := "Eight"; Description := "d";
         Status := "PROPOSAL_STATUS_VOTING_PERIOD";
         VotingStart := 1893456000000000000; VotingEnd := 1893542400000000000;
         Network := "ZetaChain Mainnet" |} ].
Proof. vm_compute. reflexivity. Qed.

End client_spec.

(** ** The monitoring service *)
Module service_spec.
Import types world service service_view.

(** C5, as the code has it. [Stop] on a service whose stop channel is open
    closes the channel, after which the receive in the loop of [Run] can
    proceed; [Stop] on the service so left panics with "close of closed
    channel". *)
Theorem Stop_once (cfg : Config) (n : notifications.Notifier)
    (cl : gmap string governance.Client) :
  let s := {| config := cfg; notifier := n; clients := cl; stopChan := ChanOpen |} in
  let s' := {| config := cfg; notifier := n; clients := cl; stopChan := ChanClosed |} in
  recv_ready (stopChan s) = false
  /\ Stop s = inr s'
  /\ recv_ready (stopChan s') = true
  /\ Stop s' = inl (PanicMsg "close of closed channel").
Proof.
  repeat split.
Qed.

(** C5 as stated fails: the second call of [Stop] on the same service
    panics. *)
Lemma Stop_twice_panics :
  exists s', Stop scenario.service0 = inr s'
             /\ Stop s' = inl (PanicMsg "close of closed channel").
Proof.
  eexists. split; reflexivity.
Qed.

Section Proofs.
Variable env : Env.
Variable json_Marshal_text : string -> error + string.
Variable time_Parse_RFC3339 : string -> error + Time.
Variable json_Unmarshal : string -> error + governance.CosmosGovResponse.
Variable Sprintf_f1 : gotime.float64 -> string.

Local Abbreviation SendNotification := (notifications.SendNotification env json_Marshal_text).
Local Abbreviation GetVotingProposals :=
  (governance.GetVotingProposals env time_Parse_RFC3339 json_Unmarshal).
Local Abbreviation checkProposal_end := (service.checkProposal_end env json_Marshal_text Sprintf_f1).
Local Abbreviation checkProposal := (service.checkProposal env json_Marshal_text Sprintf_f1).
Local Abbreviation checkEach := (service.checkEach env json_Marshal_text Sprintf_f1).
Local Abbreviation checkNetworkProposals :=
  (service.checkNetworkProposals env json_Marshal_text time_Parse_RFC3339 json_Unmarshal
     Sprintf_f1).
Local Abbreviation checkProposals_in :=
  (service.checkProposals_in env json_Marshal_text time_Parse_RFC3339 json_Unmarshal
     Sprintf_f1).
Local Abbreviation checkProposals :=
  (service.checkProposals env json_Marshal_text time_Parse_RFC3339 json_Unmarshal
     Sprintf_f1).
Local Abbreviation startMessage := (service.startMessage Sprintf_f1).
Local Abbreviation endMessage := (service.endMessage Sprintf_f1).

(** *** Histories only grow *)

Lemma grows_ret {A : Type} (a : A) : grows (ret a).
Proof. intros h. reflexivity. Qed.

Lemma grows_bind {A B : Type} (m : M A) (k : A -> M B) :
  grows m -> (forall a, grows (k a)) -> grows (bind m k).
Proof.
  intros Hm Hk h. unfold bind. specialize (Hm h).
  destruct (m h) as [a h1]. cbn [snd] in Hm.
  etransitivity; [exact Hm|apply Hk].
Qed.

Lemma grows_event {A : Type} (f : History -> A) (ev : A -> Event) :
  grows (fun h => (f h, h ++ [ev (f h)])).
Proof. intros h. apply prefix_app_r. reflexivity. Qed.

Lemma grows_SendNotification n msg : grows (SendNotification n msg).
Proof.
  unfold notifications.SendNotification, notifications.sendTelegramNotification,
    notifications.sendSlackNotification.
  apply grows_bind.
  - destruct (notifications.telegram n); [|apply grows_ret].
    apply grows_bind.
    + apply grows_bind; [|intros [e|]; apply grows_ret].
      apply (grows_event (fun h => telegram_at env h _ _)
               (fun o => EvTelegramSend _ _ o)).
    + intros [e|]; apply grows_ret.
  - intros errs. apply grows_bind.
    + destruct (Slack_Enabled _); [|apply grows_ret].
      apply grows_bind; [|intros [e|]; apply grows_ret].
      destruct (json_Marshal_text _); [apply grows_ret|].
      apply grows_bind.
      * apply (grows_event (fun h => post_at env h _ _ _) (fun o => EvPost _ _ _ o)).
      * intros [e|st]; [apply grows_ret|]. destruct (negb _); apply grows_ret.
    + intros [|e l]; apply grows_ret.
Qed.

Lemma grows_checkProposal_end s p nc now : grows (checkProposal_end s p nc now).
Proof.
  unfold service.checkProposal_end.
  destruct (gotime.After _ _); [|apply grows_ret].
  destruct (_ && _); [|apply grows_ret].
  apply grows_bind; [apply grows_SendNotification|].
  intros [e|]; apply grows_ret.
Qed.

Lemma grows_checkProposal s p c nc : grows (checkProposal s p c nc).
Proof.
  unfold service.checkProposal.
  apply grows_bind.
  - apply (grows_event (now_at env) EvNow).
  - intros now.
    destruct (gotime.After _ _); [|apply grows_checkProposal_end].
    destruct (_ && _); [|apply grows_checkProposal_end].
    apply grows_bind; [apply grows_SendNotification|].
    intros [e|]; [apply grows_ret|apply grows_checkProposal_end].
Qed.

Lemma grows_checkEach s ps c nc : grows (checkEach s ps c nc).
Proof.
  induction ps as [|p ps IH]; cbn [service.checkEach]; [apply grows_ret|].
  apply grows_bind; [apply grows_checkProposal|]. intros _. exact IH.
Qed.

Lemma grows_GetVotingProposals c : grows (GetVotingProposals c).
Proof.
  unfold governance.GetVotingProposals, governance.makeRequest.
  apply grows_bind.
  - apply grows_bind.
    + apply (grows_event (fun h => get_at env h _) (fun o => EvGet _ o)).
    + intros [e|e|st body]; try apply grows_ret.
      destruct (negb _); [apply grows_ret|]. destruct body; apply grows_ret.
  - intros [e|body]; [apply grows_ret|]. destruct (json_Unmarshal body); apply grows_ret.
Qed.

Lemma grows_checkNetworkProposals s name c : grows (checkNetworkProposals s name c).
Proof.
  unfold service.checkNetworkProposals.
  apply grows_bind; [apply grows_GetVotingProposals|].
  intros [e|ps]; [apply grows_ret|].
  destruct (_ =? _)%nat; [apply grows_ret|].
  apply grows_bind; [apply grows_checkEach|]. intros _. apply grows_ret.
Qed.

Lemma grows_checkProposals_in s order : grows (checkProposals_in s order).
Proof.
  induction order as [|[name c] rest IH]; cbn [service.checkProposals_in]; [apply grows_ret|].
  apply grows_bind; [apply grows_checkNetworkProposals|]. intros _. exact IH.
Qed.

(** *** The checks of one proposal, in terms of [due] *)

Lemma checkProposal_end_due s p nc now h :
  checkProposal_end s p nc now h =
  if due (VotingEnd p) now (HoursBeforeEnd (Alerts (config s))) then
    let hours := gotime.Hours (gotime.Sub (VotingEnd p) now) in
    let '(r, h1) := SendNotification (notifier s) (endMessage p nc hours) h in
    (match r with
     | Some err => Some (Errorf_w "failed to send end notification" err)
     | None => None
     end, h1)
  else (None, h).
Proof.
  unfold service.checkProposal_end, due, bind, ret.
  destruct (gotime.After _ _); cbn [andb]; [|reflexivity].
  destruct (_ && _); [|reflexivity].
  destruct (SendNotification _ _ h) as [[e|] h1]; reflexivity.
Qed.

Lemma checkProposal_due s p c nc h :
  checkProposal s p c nc h =
  let now := now_at env h in
  let h0 := h ++ [EvNow now] in
  if due (VotingStart p) now (HoursBeforeStart (Alerts (config s))) then
    let hours := gotime.Hours (gotime.Sub (VotingStart p) now) in
    let '(r, h1) := SendNotification (notifier s) (startMessage p nc hours) h0 in
    match r with
    | Some err => (Some (Errorf_w "failed to send start notification" err), h1)
    | None => checkProposal_end s p nc now h1
    end
  else checkProposal_end s p nc now h0.
Proof.
  unfold service.checkProposal, due, bind, ret, time_Now. cbn zeta.
  destruct (gotime.After _ _); cbn [andb]; [|reflexivity].
  destruct (_ && _); [|reflexivity].
  destruct (SendNotification _ _ _) as [[e|] h1]; reflexivity.
Qed.

(** A start alert that is due is handed to the notifier. *)
Lemma checkProposal_sends_start s p c nc h :
  let now := now_at env h in
  due (VotingStart p) now (HoursBeforeStart (Alerts (config s))) = true ->
  runs_within
    (SendNotification (notifier s)
       (startMessage p nc (gotime.Hours (gotime.Sub (VotingStart p) now))))
    h (snd (checkProposal s p c nc h)).
Proof.
  intros now Hdue. rewrite checkProposal_due. cbn zeta. fold now. rewrite Hdue.
  exists (h ++ [EvNow now]).
  destruct (SendNotification _ _ (h ++ [EvNow now])) as [r h1] eqn:E.
  exists r, h1. split; [apply prefix_app_r; reflexivity|]. split; [reflexivity|].
  destruct r as [e|]; [reflexivity|]. apply grows_checkProposal_end.
Qed.

(** An end alert that is due is handed to the notifier, unless the send of
    a due start alert has just failed. *)
Lemma checkProposal_sends_end s p c nc h :
  let now := now_at env h in
  due (VotingEnd p) now (HoursBeforeEnd (Alerts (config s))) = true ->
  due (VotingStart p) now (HoursBeforeStart (Alerts (config s))) = false \/
  fst (SendNotification (notifier s)
         (startMessage p nc (gotime.Hours (gotime.Sub (VotingStart p) now)))
         (h ++ [EvNow now])) = None ->
  runs_within
    (SendNotification (notifier s)
       (endMessage p nc (gotime.Hours (gotime.Sub (VotingEnd p) now))))
    h (snd (checkProposal s p c nc h)).
Proof.
  intros now Hend Hstart. rewrite checkProposal_due. cbn zeta. fold now.
  assert (Hrun : forall h1, h `prefix_of` h1 ->
            runs_within
              (SendNotification (notifier s)
                 (endMessage p nc (gotime.Hours (gotime.Sub (VotingEnd p) now))))
              h (snd (checkProposal_end s p nc now h1))).
  { intros h1 Hh1. rewrite checkProposal_end_due, Hend. cbn zeta.
    destruct (SendNotification _ _ h1) as [r h2] eqn:E.
    exists h1, r, h2. split; [exact Hh1|]. split; [exact E|]. reflexivity. }
  destruct (due (VotingStart p) now _) eqn:Hs.
  - destruct Hstart as [Hstart|Hstart]; [discriminate|].
    pose proof (grows_SendNotification (notifier s)
                  (startMessage p nc (gotime.Hours (gotime.Sub (VotingStart p) now)))
                  (h ++ [EvNow now])) as G.
    destruct (SendNotification _ _ (h ++ [EvNow now])) as [r h1]. cbn [fst snd] in *.
    subst r. apply Hrun. etransitivity; [|exact G]. apply prefix_app_r. reflexivity.
  - apply Hrun. apply prefix_app_r. reflexivity.
Qed.

(** When the send of a due start alert fails, [checkProposal] returns at
    once: nothing happens after that send, whether or not the end alert is
    due. *)
Lemma checkProposal_start_failure_returns s p c nc h err :
  let now := now_at env h in
  let msg := startMessage p nc (gotime.Hours (gotime.Sub (VotingStart p) now)) in
  due (VotingStart p) now (HoursBeforeStart (Alerts (config s))) = true ->
  fst (SendNotification (notifier s) msg (h ++ [EvNow now])) = Some err ->
  checkProposal s p c nc h
  = (Some (Errorf_w "failed to send start notification" err),
     snd (SendNotification (notifier s) msg (h ++ [EvNow now]))).
Proof.
  intros now msg Hdue Hfail. rewrite checkProposal_due. cbn zeta. fold now. rewrite Hdue.
  fold msg. destruct (SendNotification _ msg _) as [r h1]. cbn [fst snd] in *.
  rewrite Hfail. reflexivity.
Qed.

(** *** Every proposal of a batch and every network of a cycle is checked *)

Lemma checkEach_runs s ps c nc p h :
  p ∈ ps -> runs_within (checkProposal s p c nc) h (snd (checkEach s ps c nc h)).
Proof.
  revert h. induction ps as [|p0 ps IH]; intros h Hin; [inversion Hin|].
  cbn [service.checkEach]. unfold bind.
  destruct (checkProposal s p0 c nc h) as [r0 h0] eqn:E0.
  apply elem_of_cons in Hin as [->|Hin].
  - exists h, r0, h0. split; [reflexivity|]. split; [exact E0|]. apply grows_checkEach.
  - destruct (IH h0 Hin) as (h1 & a & h2 & H1 & H2 & H3).
    exists h1, a, h2. split; [|split; assumption].
    etransitivity; [|exact H1].
    pose proof (grows_checkProposal s p0 c nc h) as G. rewrite E0 in G. exact G.
Qed.

Lemma checkProposals_in_nil_error s order h : fst (checkProposals_in s order h) = None.
Proof.
  revert h. induction order as [|[name c] rest IH]; intros h; [reflexivity|].
  cbn [service.checkProposals_in]. unfold bind.
  destruct (checkNetworkProposals s name c h) as [r h1]. apply IH.
Qed.

Lemma checkProposals_in_runs s order name c h :
  (name, c) ∈ order ->
  runs_within (checkNetworkProposals s name c) h (snd (checkProposals_in s order h)).
Proof.
  revert h. induction order as [|[name0 c0] rest IH]; intros h Hin; [inversion Hin|].
  cbn [service.checkProposals_in]. unfold bind.
  destruct (checkNetworkProposals s name0 c0 h) as [r0 h0] eqn:E0.
  apply elem_of_cons in Hin as [Heq|Hin].
  - injection Heq as -> ->.
    exists h, r0, h0. split; [reflexivity|]. split; [exact E0|]. apply grows_checkProposals_in.
  - destruct (IH h0 Hin) as (h1 & a & h2 & H1 & H2 & H3).
    exists h1, a, h2. split; [|split; assumption].
    etransitivity; [|exact H1].
    pose proof (grows_checkNetworkProposals s name0 c0 h) as G. rewrite E0 in G. exact G.
Qed.

(** What the check of a network does once its fetch has succeeded. *)
Lemma checkNetworkProposals_fetched s name c h proposals :
  fst (GetVotingProposals c h) = inr proposals ->
  fst (checkNetworkProposals s name c h) = None
  /\ forall p, p ∈ proposals ->
       runs_within
         (checkProposal s p c (default NetworkConfig_zero (Networks (config s) !! name)))
         h (snd (checkNetworkProposals s name c h)).
Proof.
  intros Hf. unfold service.checkNetworkProposals, bind, ret.
  pose proof (grows_GetVotingProposals c h) as G.
  destruct (GetVotingProposals c h) as [r h1]. cbn [fst snd] in *. subst r.
  destruct proposals as [|p0 ps]; cbn [length Nat.eqb].
  - split; [reflexivity|]. intros p Hp. inversion Hp.
  - set (nc := default NetworkConfig_zero (Networks (config s) !! name)).
    destruct (checkEach s (p0 :: ps) c nc h1) as [u h2] eqn:E. cbn [fst snd].
    split; [reflexivity|]. intros p Hp.
    destruct (checkEach_runs s (p0 :: ps) c nc p h1 Hp) as (ha & a & hb & H1 & H2 & H3).
    rewrite E in H3. cbn [snd] in H3.
    exists ha, a, hb. split; [etransitivity; eassumption|]. split; assumption.
Qed.


End Proofs.

(** *** A cycle in which the first network is down *)

(** The fetch for Babylon fails; ZetaChain is fetched all the same, its
    proposal, which starts in one hour, is evaluated, and the alert goes
    out. *)
Example cycle_with_one_network_down :
  checkProposals_in
    (scenario.env_of scenario.now0 scenario.get_zeta_only 200 None)
    scenario.marshal0 scenario.parse0
    (scenario.unmarshal0 [] [scenario.raw_voting "7" "Raise the cap" "d"])
    scenario.f1_0 scenario.service0 scenario.down_then_up []
  = (None,
     [EvGet "https://babylon-rest.publicnode.com/cosmos/gov/v1/proposals"
        (GetDoError "connection refused");
      EvGet "https://zetachain.blockpi.network/lcd/v1/public/cosmos/gov/v1/proposals"
        (GetResponse 200 (inr "B"));
      EvNow scenario.now0;
      EvTelegramSend 42
        (notifications.formatTelegramMessage
           (startMessage scenario.f1_0
              {| ID := 7; Title := "Raise the cap"; Description := "d";
                 Status := "PROPOSAL_STATUS_VOTING_PERIOD";
                 VotingStart := 1893456000000000000; VotingEnd := 1893542400000000000;
                 Network := "ZetaChain Mainnet" |}
              scenario.zetachain
              (gotime.Hours 3600000000000)))
        None]).
Proof. vm_compute. reflexivity. Qed.


(** C4 on a proposal for which both alerts are due, with a chat bot that
    fails. Voting starts in one hour and ends in two, both within the 24
    hours of the thresholds; the send of the start alert fails and
    [checkProposal] returns that error at once: the history ends with the
    failed send, and no end alert is attempted. *)
Theorem checkProposal_start_failure_drops_end_alert :
  let env := scenario.env_of scenario.now0 scenario.no_get 200 (Some "boom") in
  let p := scenario.short_window in
  due (VotingStart p) scenario.now0 24 = true
  /\ due (VotingEnd p) scenario.now0 24 = true
  /\ checkProposal env scenario.marshal0 scenario.f1_0 scenario.service0 p
       {| governance.config := scenario.zetachain |} scenario.zetachain []
     = (Some "failed to send start notification: telegram: failed to send message: boom",
        [EvNow scenario.now0;
         EvTelegramSend 42
           (notifications.formatTelegramMessage
              (startMessage scenario.f1_0 p scenario.zetachain (gotime.Hours 3600000000000)))
           (Some "boom")]).
Proof. repeat split; vm_compute; reflexivity. Qed.

(** With a chat bot that works, the same proposal gets both alerts. *)
Example checkProposal_both_alerts :
  checkProposal (scenario.env_of scenario.now0 scenario.no_get 200 None)
    scenario.marshal0 scenario.f1_0 scenario.service0 scenario.short_window
    {| governance.config := scenario.zetachain |} scenario.zetachain []
  = (None,
     [EvNow scenario.now0;
      EvTelegramSend 42
        (notifications.formatTelegramMessage
           (startMessage scenario.f1_0 scenario.short_window scenario.zetachain
              (gotime.Hours 3600000000000)))
        None;
      EvTelegramSend 42
        (notifications.formatTelegramMessage
           (endMessage scenario.f1_0 scenario.short_window scenario.zetachain
              (gotime.Hours 7200000000000)))
        None]).
Proof. vm_compute. reflexivity. Qed.

End service_spec.

(** ** More on the governance client *)
Module client_extra.
Import types world governance governance_view.

(** What [Sscanf] accepts is the value of a [uint64]. *)
Lemma accept_digits_range (s : string) (count : N) (acc : Z) :
  0 <= acc -> 0 <= gofmt.accept_digits s count acc.
Proof.
  revert count acc. induction s as [|c r IH]; intros count acc Hacc; cbn [gofmt.accept_digits].
  - destruct (_ <=? _)%N; exact Hacc.
  - destruct (_ <=? _)%N; [exact Hacc|].
    destruct (gofmt.is_digit c) eqn:Hc; [|exact Hacc].
    apply IH. unfold gofmt.is_digit, gofmt.byte_in in Hc. unfold gofmt.digit_value.
    apply andb_prop in Hc as [Hlo _]. apply N.leb_le in Hlo. lia.
Qed.

Lemma Sscanf_range (s : string) (v : Z) :
  gofmt.Sscanf_d_uint64 s = inr v -> 0 <= v < 2 ^ 64.
Proof.
  unfold gofmt.Sscanf_d_uint64.
  destruct (gofmt.SkipSpace s 0) as [e|[s' count]]; [discriminate|].
  destruct (_ <=? _)%N; [discriminate|].
  destruct s' as [|c r]; [discriminate|].
  destruct (gofmt.is_digit c); [|discriminate].
  pose proof (accept_digits_range (String c r) count 0 ltac:(lia)) as Hlo.
  destruct (Z.ltb_spec (gofmt.accept_digits (String c r) count 0) (2 ^ 64)) as [Hhi|Hhi];
    [|discriminate].
  intros Heq. injection Heq as Heq. rewrite <- Heq. split; assumption.
Qed.

(** A string that starts with a digit has nothing for [SkipSpace] to skip. *)
Lemma SkipSpace_digit (c : ascii) (r : string) :
  gofmt.is_digit c = true -> gofmt.SkipSpace (String c r) 0 = inr (String c r, 0%N).
Proof.
  intros Hc. unfold gofmt.is_digit, gofmt.byte_in in Hc.
  apply andb_prop in Hc as [Hlo Hhi]. apply N.leb_le in Hlo, Hhi.
  cbn [gofmt.SkipSpace]. change (gofmt.hugeWid <=? 0)%N with false. cbv beta iota.
  unfold gofmt.byte_in.
  repeat match goal with
         | |- context [(?a <=? N_of_ascii c)%N] =>
             destruct (N.leb_spec a (N_of_ascii c)); try lia
         | |- context [(N_of_ascii c <=? ?a)%N] =>
             destruct (N.leb_spec (N_of_ascii c) a); try lia
         end; cbn [andb orb]; try reflexivity; lia.
Qed.

Lemma accept_digits_all (s : string) (count : N) (acc : Z) :
  all_digits s = true ->
  (count + N.of_nat (String.length s) <= gofmt.hugeWid)%N ->
  gofmt.accept_digits s count acc = decimal_from acc s.
Proof.
  revert count acc. induction s as [|c r IH]; intros count acc Hd Hlen;
    cbn [gofmt.accept_digits decimal_from].
  - destruct (_ <=? _)%N; reflexivity.
  - cbn [all_digits String.length] in Hd, Hlen. apply andb_prop in Hd as [Hc Hr].
    destruct (N.leb_spec gofmt.hugeWid count); [lia|].
    rewrite Hc. apply IH; [exact Hr|lia].
Qed.

Lemma length_omap_le {A B : Type} (f : A -> option B) (l : list A) :
  (length (omap f l) <= length l)%nat.
Proof.
  induction l as [|a l IH]; cbn [omap list_omap length]; [lia|].
  destruct (f a); cbn [length]; lia.
Qed.

Section Proofs.
Variable env : Env.
Variable time_Parse_RFC3339 : string -> error + Time.
Variable json_Unmarshal : string -> error + CosmosGovResponse.
Variable json_Unmarshal_proposal : string -> error + CosmosProposal.
Variable ScanError_Error : gofmt.ScanError -> string.


(** X2. Whatever the batch, every proposal returned carries the name of the
    client's network and an identifier in the range of [uint64], and no more
    proposals are returned than the batch holds. *)
Theorem filterVoting_invariant (c : Client) (raw : list CosmosProposal) :
  Forall (fun q => Network q = Name (config c) /\ 0 <= ID q < 2 ^ 64)
    (filterVoting time_Parse_RFC3339 c raw [])
  /\ (length (filterVoting time_Parse_RFC3339 c raw []) <= length raw)%nat.
Proof.
  rewrite client_spec.filterVoting_omap. cbn [app]. split.
  - apply Forall_forall. intros q Hq. apply list_elem_of_omap in Hq as (p & _ & Hq).
    unfold convert in Hq.
    destruct (time_Parse_RFC3339 (raw_VotingStart p)); [discriminate|].
    destruct (time_Parse_RFC3339 (raw_VotingEnd p)); [discriminate|].
    destruct (gofmt.Sscanf_d_uint64 (raw_ID p)) as [e|v] eqn:Hv; [discriminate|].
    injection Hq as <-. cbn [Network ID]. split; [reflexivity|].
    exact (Sscanf_range _ _ Hv).
  - etransitivity; [apply length_omap_le|]. apply length_filter.
Qed.

(** X3. An identifier made of decimal digits only, at most 2^30 of them, is
    read as the number it writes when that number is below 2^64, and
    rejected as out of range otherwise; so a proposal in the voting period
    with such an identifier and timestamps that parse is returned under
    that number. *)
Theorem numeric_identifier (c : Client) (p : CosmosProposal) :
  numeric (raw_ID p) = true ->
  (N.of_nat (String.length (raw_ID p)) <= gofmt.hugeWid)%N ->
  gofmt.Sscanf_d_uint64 (raw_ID p)
  = (if decimal_value (raw_ID p) <? 2 ^ 64 then inr (decimal_value (raw_ID p))
     else inl gofmt.ErrValueOutOfRange)
  /\ (decimal_value (raw_ID p) < 2 ^ 64 ->
      forall votingStart votingEnd,
        time_Parse_RFC3339 (raw_VotingStart p) = inr votingStart ->
        time_Parse_RFC3339 (raw_VotingEnd p) = inr votingEnd ->
        exists q, convert time_Parse_RFC3339 c p = Some q
                  /\ ID q = decimal_value (raw_ID p)
                  /\ VotingStart q = votingStart /\ VotingEnd q = votingEnd).
Proof.
  intros Hnum Hlen.
  assert (Hs : gofmt.Sscanf_d_uint64 (raw_ID p)
               = (if decimal_value (raw_ID p) <? 2 ^ 64 then inr (decimal_value (raw_ID p))
                  else inl gofmt.ErrValueOutOfRange)).
  { destruct (raw_ID p) as [|d r] eqn:Hid; [discriminate|].
    unfold numeric in Hnum. pose proof Hnum as Hall. cbn [all_digits] in Hnum.
    apply andb_prop in Hnum as [Hd _].
    unfold gofmt.Sscanf_d_uint64. rewrite (SkipSpace_digit d r Hd).
    change (gofmt.hugeWid <=? 0)%N with false. cbv beta iota. rewrite Hd.
    rewrite (accept_digits_all (String d r) 0 0 Hall) by lia. reflexivity. }
  split; [exact Hs|].
  intros Hlt votingStart votingEnd Hstart Hend.
  unfold convert. rewrite Hstart, Hend, Hs.
  destruct (Z.ltb_spec (decimal_value (raw_ID p)) (2 ^ 64)); [|lia].
  eexists. split; [reflexivity|]. cbn [ID VotingStart VotingEnd]. repeat split.
Qed.

(** What [GetProposalDetails] returns, case by case. *)
Lemma GetProposalDetails_cases (c : Client) (proposalID : Z) (h : History) :
  let url := RestEndpoint (config c) +:+ "/cosmos/gov/v1/proposals/" +:+ pretty proposalID in
  let run := GetProposalDetails env time_Parse_RFC3339 json_Unmarshal_proposal
               ScanError_Error c proposalID h in
  snd run = h ++ [EvGet url (get_at env h url)]
  /\ match get_at env h url with
     | GetResponse 200 (inr body) =>
         match json_Unmarshal_proposal body with
         | inl _ => exists err, fst run = inl err
         | inr p =>
             match convert time_Parse_RFC3339 c p with
             | Some q => fst run = inr q
             | None =>
                 match time_Parse_RFC3339 (raw_VotingStart p) with
                 | inl e => fst run = inl (Errorf_w "failed to parse voting start time" e)
                 | inr _ => exists err, fst run = inl err
                 end
             end
         end
     | _ => exists err, fst run = inl err
     end.
Proof.
  intros url run. subst run.
  unfold GetProposalDetails, makeRequest, http_Get, bind, ret. fold url.
  destruct (get_at env h url) as [e|e|status b]; cbn [fst snd]; [eauto..|].
  destruct (Z.eqb_spec status 200) as [->|Hne]; cbn [negb fst snd].
  2: { split; [reflexivity|].
       destruct status as [|st|st]; eauto.
       repeat (destruct st as [st|st|]; eauto). exfalso. apply Hne. reflexivity. }
  destruct b as [e|body]; cbn [fst snd]; [eauto|].
  destruct (json_Unmarshal_proposal body) as [e|p]; cbn [fst snd]; [eauto|].
  unfold convert.
  destruct (time_Parse_RFC3339 (raw_VotingStart p)) as [e|vs]; cbn [fst snd]; [eauto|].
  destruct (time_Parse_RFC3339 (raw_VotingEnd p)) as [e|ve]; cbn [fst snd]; [eauto|].
  destruct (gofmt.Sscanf_d_uint64 (raw_ID p)) as [e|v]; cbn [fst snd]; eauto.
Qed.


(** X5. [CheckProposalStatus] returns the status string of the response
    unchanged, and does so only when the whole proposal converts: for a
    proposal whose voting start does not parse it returns that parse error
    instead of the status. *)
Theorem CheckProposalStatus_needs_conversion (c : Client) (proposalID : Z) (h : History) :
  let url := RestEndpoint (config c) +:+ "/cosmos/gov/v1/proposals/" +:+ pretty proposalID in
  let run := CheckProposalStatus env time_Parse_RFC3339 json_Unmarshal_proposal
               ScanError_Error c proposalID h in
  (forall st, fst run = inr st <->
     exists body p q,
       get_at env h url = GetResponse 200 (inr body)
       /\ json_Unmarshal_proposal body = inr p
       /\ convert time_Parse_RFC3339 c p = Some q
       /\ raw_Status p = st)
  /\ (forall body p e,
        get_at env h url = GetResponse 200 (inr body) ->
        json_Unmarshal_proposal body = inr p ->
        time_Parse_RFC3339 (raw_VotingStart p) = inl e ->
        fst run = inl (Errorf_w "failed to parse voting start time" e)).
Proof.
  intros url run. subst run. unfold CheckProposalStatus, bind, ret.
  destruct (GetProposalDetails_cases c proposalID h) as [_ Hr]. fold url in Hr. cbv zeta in Hr.
  destruct (GetProposalDetails env time_Parse_RFC3339 json_Unmarshal_proposal
              ScanError_Error c proposalID h) as [r h1]. cbn [fst] in Hr.
  assert (Hst : forall p q, convert time_Parse_RFC3339 c p = Some q -> Status q = raw_Status p).
  { intros p q Hc. unfold convert in Hc.
    destruct (time_Parse_RFC3339 (raw_VotingStart p)); [discriminate|].
    destruct (time_Parse_RFC3339 (raw_VotingEnd p)); [discriminate|].
    destruct (gofmt.Sscanf_d_uint64 (raw_ID p)); [discriminate|].
    injection Hc as <-. reflexivity. }
  split.
  - intros st. split.
    + destruct r as [err|q]; cbn [fst]; [discriminate|]. intros [= <-].
      destruct (get_at env h url) as [e|e|status b]; try (destruct Hr; discriminate).
      destruct status as [|s0|s0]; try (destruct Hr; discriminate).
      do 8 (destruct s0 as [s0|s0|]; try (destruct Hr; discriminate)).
      destruct b as [e|body]; [destruct Hr; discriminate|].
      destruct (json_Unmarshal_proposal body) as [e|p] eqn:Hj; [destruct Hr; discriminate|].
      destruct (convert time_Parse_RFC3339 c p) as [q'|] eqn:Hc.
      * injection Hr as ->. exists body, p, q'. repeat split; auto. symmetry. auto.
      * destruct (time_Parse_RFC3339 (raw_VotingStart p)); [discriminate|].
        destruct Hr; discriminate.
    + intros (body & p & q & Hg & Hj & Hc & Hs). rewrite Hg, Hj, Hc in Hr. subst r.
      cbn [fst]. rewrite (Hst p q Hc), Hs. reflexivity.
  - intros body p e Hg Hj He. rewrite Hg, Hj in Hr.
    assert (Hc : convert time_Parse_RFC3339 c p = None) by (unfold convert; rewrite He; reflexivity).
    rewrite Hc, He in Hr. subst r. reflexivity.
Qed.

End Proofs.

Lemma numeric_identifier_witness :
  let p := scenario.raw_voting "42" "" "" in
  gofmt.Sscanf_d_uint64 (raw_ID p)
  = (if decimal_value (raw_ID p) <? 2 ^ 64 then inr (decimal_value (raw_ID p))
     else inl gofmt.ErrValueOutOfRange)
  /\ (decimal_value (raw_ID p) < 2 ^ 64 ->
      forall votingStart votingEnd,
        scenario.parse0 (raw_VotingStart p) = inr votingStart ->
        scenario.parse0 (raw_VotingEnd p) = inr votingEnd ->
        exists q, convert scenario.parse0 {| config := scenario.zetachain |} p = Some q
                  /\ ID q = decimal_value (raw_ID p)
                  /\ VotingStart q = votingStart /\ VotingEnd q = votingEnd).
Proof.
  intros p.
  apply (numeric_identifier scenario.parse0 {| config := scenario.zetachain |} p).
  - reflexivity.
  - vm_compute. discriminate.
Defined.

End client_extra.

(** ** The notifier, from its configuration to its deliveries *)
Module notifier_extra.
Import types world notifications.

Section Proofs.
Variable env : Env.
Variable json_Marshal_text : string -> error + string.

(** The events of one call of [SendNotification]. *)
Lemma SendNotification_events (n : Notifier) (msg : NotificationMessage) (h : History) :
  let sent :=
    match telegram n with
    | Some _ =>
        [EvTelegramSend (telegramChatID n) (formatTelegramMessage msg)
           (telegram_at env h (telegramChatID n) (formatTelegramMessage msg))]
    | None => []
    end in
  let posted :=
    if Slack_Enabled (slack n) then
      match json_Marshal_text (formatSlackMessage msg) with
      | inr jsonData =>
          [EvPost (WebhookURL (slack n)) "application/json" jsonData
             (post_at env (h ++ sent) (WebhookURL (slack n)) "application/json" jsonData)]
      | inl _ => []
      end
    else [] in
  snd (SendNotification env json_Marshal_text n msg h) = (h ++ sent) ++ posted.
Proof.
  unfold SendNotification, sendTelegramNotification, sendSlackNotification,
    telebot_Send, http_Post, bind, ret.
  destruct (telegram n) as [b|]; cbn zeta.
  - destruct (telegram_at env h (telegramChatID n) (formatTelegramMessage msg)) as [e|];
      destruct (Slack_Enabled (slack n)); cbn [snd app]; rewrite ?app_nil_r;
      try reflexivity.
    all: destruct (json_Marshal_text (formatSlackMessage msg)) as [e'|d];
      cbn [snd app]; rewrite ?app_nil_r; try reflexivity.
    all: match goal with
         | |- context [post_at env ?hh ?u ?ct ?d] =>
             destruct (post_at env hh u ct d) as [e''|st]; cbn [snd]; try reflexivity
         end.
    all: destruct (negb (st =? 200)); reflexivity.
  - rewrite app_nil_r. destruct (Slack_Enabled (slack n)); cbn [snd app];
      rewrite ?app_nil_r; try reflexivity.
    destruct (json_Marshal_text (formatSlackMessage msg)) as [e'|d];
      cbn [snd app]; rewrite ?app_nil_r; try reflexivity.
    destruct (post_at env h (WebhookURL (slack n)) "application/json" d) as [e''|st];
      cbn [snd]; try reflexivity.
    destruct (negb (st =? 200)); reflexivity.
Qed.

(** X6. A notifier built by [NewNotifier] delivers on exactly the channels
    that the configuration enables: every notification goes to the
    configured chat when the chat bot is enabled and to the configured
    webhook URL when the webhook is enabled (and its payload can be
    encoded), and nothing else is added to the history. A chat bot that
    cannot be created fails the construction, whatever the webhook
    setting. *)
Theorem NewNotifier_channels (cfg : NotificationConfig) (h : History) :
  (forall n h1, NewNotifier env cfg h = (inr n, h1) ->
     forall msg h2,
       let sent :=
         if Telegram_Enabled (Telegram cfg) then
           [EvTelegramSend (ChatID (Telegram cfg)) (formatTelegramMessage msg)
              (telegram_at env h2 (ChatID (Telegram cfg)) (formatTelegramMessage msg))]
         else [] in
       let posted :=
         if Slack_Enabled (Slack cfg) then
           match json_Marshal_text (formatSlackMessage msg) with
           | inr jsonData =>
               [EvPost (WebhookURL (Slack cfg)) "application/json" jsonData
                  (post_at env (h2 ++ sent) (WebhookURL (Slack cfg)) "application/json" jsonData)]
           | inl _ => []
           end
         else [] in
       snd (SendNotification env json_Marshal_text n msg h2) = (h2 ++ sent) ++ posted)
  /\ (Telegram_Enabled (Telegram cfg) = false ->
      exists n, NewNotifier env cfg h = (inr n, h))
  /\ (Telegram_Enabled (Telegram cfg) = true ->
      forall bot, newbot_at env h (BotToken (Telegram cfg)) = inr bot ->
      exists n, NewNotifier env cfg h
                = (inr n, h ++ [EvNewBot (BotToken (Telegram cfg)) (inr bot)]))
  /\ (Telegram_Enabled (Telegram cfg) = true ->
      forall err, newbot_at env h (BotToken (Telegram cfg)) = inl err ->
      NewNotifier env cfg h
      = (inl (Errorf_w "failed to create Telegram bot" err),
         h ++ [EvNewBot (BotToken (Telegram cfg)) (inl err)])).
Proof.
  unfold NewNotifier, telebot_NewBot, bind, ret.
  destruct (Telegram_Enabled (Telegram cfg)) eqn:Ht.
  - repeat split; try discriminate.
    + intros n h1 Hn msg h2.
      destruct (newbot_at env h (BotToken (Telegram cfg))) as [e|bot]; [discriminate|].
      injection Hn as <- <-. rewrite SendNotification_events. reflexivity.
    + intros _ bot ->. eauto.
    + intros _ err ->. reflexivity.
  - repeat split; try discriminate.
    + intros n h1 Hn msg h2. injection Hn as <- <-.
      rewrite SendNotification_events. reflexivity.
    + intros _. eauto.
Qed.

End Proofs.
End notifier_extra.

(** ** The configuration *)
Module config_extra.
Import types config.

Lemma validateNetworks_None (order : list (string * NetworkConfig)) :
  validateNetworks order = None <->
  Forall (fun entry => Name (snd entry) <> "" /\ RestEndpoint (snd entry) <> ""
                       /\ ChainID (snd entry) <> "") order.
Proof.
  induction order as [|[name network] rest IH]; cbn [validateNetworks].
  - split; [constructor | reflexivity].
  - rewrite Forall_cons. cbn [snd].
    destruct (String.eqb_spec (Name network) "") as [Hn|Hn].
    { split; [discriminate | intros [[Hc _] _]; contradiction]. }
    destruct (String.eqb_spec (RestEndpoint network) "") as [Hr|Hr].
    { split; [discriminate | intros [(_ & Hc & _) _]; contradiction]. }
    destruct (String.eqb_spec (ChainID network) "") as [Hc|Hc].
    { split; [discriminate | intros [(_ & _ & Hc') _]; contradiction]. }
    rewrite IH. tauto.
Qed.

Lemma validateConfig_in_valid (cfg : Config) (order : list (string * NetworkConfig)) :
  order ≡ₚ map_to_list (Networks cfg) ->
  validateConfig_in cfg order = None <-> valid cfg.
Proof.
  intros Hperm. unfold validateConfig_in, valid.
  destruct (Z.leb_spec (HoursBeforeStart (Alerts cfg)) 0) as [Hs|Hs].
  { split; [discriminate | lia]. }
  destruct (Z.leb_spec (HoursBeforeEnd (Alerts cfg)) 0) as [He|He].
  { split; [discriminate | lia]. }
  destruct (Z.leb_spec (CheckIntervalMinutes (Alerts cfg)) 0) as [Hc|Hc].
  { split; [discriminate | lia]. }
  destruct (Nat.eqb_spec (size (Networks cfg)) 0) as [Hz|Hz].
  { apply map_size_empty_iff in Hz. split; [discriminate | tauto]. }
  rewrite validateNetworks_None, Forall_forall.
  assert (Hne : Networks cfg <> ∅) by (intros H0; apply Hz, map_size_empty_iff, H0).
  split.
  - intros Hall. do 4 (split; [assumption|]). intros name network Hl.
    apply (Hall (name, network)). rewrite Hperm. apply elem_of_map_to_list. exact Hl.
  - intros (_ & _ & _ & _ & Hall) [name network] Hin.
    rewrite Hperm in Hin. apply elem_of_map_to_list in Hin. exact (Hall name network Hin).
Qed.

(** X7. [validateConfig] accepts a configuration exactly when the three
    alert settings are positive, at least one network is configured, and
    every network has a name, a REST endpoint and a chain identifier;
    whether it accepts does not depend on the order in which the networks
    are visited. *)
Theorem validateConfig_accepts_iff_valid (cfg : Config) :
  (validateConfig cfg None <-> valid cfg)
  /\ (forall order, order ≡ₚ map_to_list (Networks cfg) ->
        (validateConfig_in cfg order = None <-> valid cfg))
  /\ (forall err, validateConfig cfg (Some err) -> ~ valid cfg).
Proof.
  split; [|split].
  - split.
    + intros (order & Hperm & Hv). apply (validateConfig_in_valid cfg order Hperm), Hv.
    + intros Hv. exists (map_to_list (Networks cfg)). split; [reflexivity|].
      apply validateConfig_in_valid; [reflexivity | exact Hv].
  - intros order Hperm. apply validateConfig_in_valid, Hperm.
  - intros err (order & Hperm & Hv) Hvalid.
    apply (validateConfig_in_valid cfg order Hperm) in Hvalid. congruence.
Qed.

Section LoadConfig.
Variable os_Stat_IsNotExist : string -> bool.
Variable viper_ReadInConfig : string -> option error.
Variable viper_Unmarshal : string -> error + Config.

(** X8. [LoadConfig] returns a configuration exactly when the file (the
    default [config/config.yaml] for an empty path) exists, is read and
    decoded into that configuration, and the configuration passes
    validation: a configuration that [LoadConfig] returns is a valid one.
    A missing file is reported without anything being read. *)
Theorem LoadConfig_returns_valid (configPath : string) (order : list (string * NetworkConfig))
    (cfg : Config) :
  order ≡ₚ map_to_list (Networks cfg) ->
  let path := if String.eqb configPath "" then "config/config.yaml" else configPath in
  (LoadConfig_in os_Stat_IsNotExist viper_ReadInConfig viper_Unmarshal configPath order
   = inr cfg
   <-> os_Stat_IsNotExist path = false
       /\ viper_ReadInConfig path = None
       /\ viper_Unmarshal path = inr cfg
       /\ valid cfg)
  /\ (os_Stat_IsNotExist path = true ->
      LoadConfig_in os_Stat_IsNotExist viper_ReadInConfig viper_Unmarshal configPath order
      = inl ("config file not found: " +:+ path)).
Proof.
  intros Hperm path. unfold LoadConfig_in. fold path.
  destruct (os_Stat_IsNotExist path).
  { split; [|reflexivity]. split; [discriminate | intros [H _]; discriminate]. }
  split; [|discriminate].
  destruct (viper_ReadInConfig path) as [e|].
  { split; [discriminate | intros (_ & H & _); discriminate]. }
  destruct (viper_Unmarshal path) as [e|cfg'] eqn:Hu.
  { split; [discriminate | intros (_ & _ & H & _); discriminate]. }
  split.
  - destruct (validateConfig_in cfg' order) eqn:Hv; [discriminate|].
    intros [= ->]. do 3 (split; [reflexivity|]).
    apply (validateConfig_in_valid cfg order Hperm), Hv.
  - intros (_ & _ & [= ->] & Hvalid).
    apply (validateConfig_in_valid cfg order Hperm) in Hvalid. rewrite Hvalid. reflexivity.
Qed.

End LoadConfig.

Lemma LoadConfig_returns_valid_witness :
  let stat := fun _ : string => false in
  let read := fun _ : string => @None error in
  let unm := fun _ : string => @inr error Config scenario.config0 in
  let path := if String.eqb "" "" then "config/config.yaml" else "" in
  (LoadConfig_in stat read unm "" (map_to_list (Networks scenario.config0))
   = inr scenario.config0
   <-> stat path = false /\ read path = None /\ unm path = inr scenario.config0
       /\ valid scenario.config0)
  /\ (stat path = true ->
      LoadConfig_in stat read unm "" (map_to_list (Networks scenario.config0))
      = inl ("config file not found: " +:+ path)).
Proof.
  intros stat read unm.
  apply (LoadConfig_returns_valid stat read unm "" (map_to_list (Networks scenario.config0))
           scenario.config0).
  reflexivity.
Defined.

End config_extra.

(** ** The service: construction, cycles and the loop *)
Module service_extra.
Import types world service service_view.

Lemma count_app (f : Event -> bool) (h1 h2 : History) :
  count f (h1 ++ h2) = (count f h1 + count f h2)%nat.
Proof. induction h1 as [|e h1 IH]; cbn [count app]; [reflexivity|]. rewrite IH. lia. Qed.

Lemma count_none (f g : Event -> bool) (evs : list Event) :
  (forall e, g e = true -> f e = false) ->
  Forall (fun e => g e = true) evs -> count f evs = 0%nat.
Proof.
  intros Hfg Hall. induction Hall as [|e evs He _ IH]; cbn [count]; [reflexivity|].
  rewrite (Hfg e He), IH. reflexivity.
Qed.

Lemma count_all (f : Event -> bool) (evs : list Event) :
  Forall (fun e => f e = true) evs -> count f evs = length evs.
Proof.
  intros Hall. induction Hall as [|e evs He _ IH]; cbn [count length]; [reflexivity|].
  rewrite He, IH. reflexivity.
Qed.

Lemma omap_get_url_none (g : Event -> bool) (evs : list Event) :
  (forall e, g e = true -> get_url e = None) ->
  Forall (fun e => g e = true) evs -> omap get_url evs = [].
Proof.
  intros Hg Hall. induction Hall as [|e evs He _ IH]; [reflexivity|].
  cbn. rewrite (Hg e He). exact IH.
Qed.

Lemma adds_only_ret {A : Type} (f : Event -> bool) (a : A) : adds_only f 0 (ret a).
Proof. intros h. exists []. cbn. rewrite app_nil_r. repeat constructor. Qed.

Lemma adds_only_bind {A B : Type} (f : Event -> bool) (n k : nat) (m : M A) (K : A -> M B) :
  adds_only f n m -> (forall a, adds_only f k (K a)) -> adds_only f (n + k) (bind m K).
Proof.
  intros Hm HK h. unfold bind. destruct (Hm h) as (e1 & E1 & F1 & L1).
  destruct (m h) as [a h1]. cbn [snd] in E1. subst h1.
  destruct (HK a (h ++ e1)) as (e2 & E2 & F2 & L2).
  exists (e1 ++ e2). rewrite E2, app_assoc. split; [reflexivity|].
  split; [apply Forall_app; split; assumption|]. rewrite length_app. lia.
Qed.

Lemma adds_only_le {A : Type} (f : Event -> bool) (n k : nat) (m : M A) :
  (n <= k)%nat -> adds_only f n m -> adds_only f k m.
Proof.
  intros Hle Hm h. destruct (Hm h) as (evs & E & F & L). exists evs. repeat split; [assumption..|lia].
Qed.

Lemma string_app_assoc (a b c : string) : (a +:+ b) +:+ c = a +:+ (b +:+ c).
Proof.
  induction a as [|x a IH]; [reflexivity|].
  change (String x ((a +:+ b) +:+ c) = String x (a +:+ (b +:+ c))). rewrite IH. reflexivity.
Qed.

Lemma string_app_nil_r (a : string) : a +:+ "" = a.
Proof.
  induction a as [|x a IH]; [reflexivity|].
  change (String x (a +:+ "") = String x a). rewrite IH. reflexivity.
Qed.

Lemma string_length_app (a b : string) :
  String.length (a +:+ b) = (String.length a + String.length b)%nat.
Proof.
  induction a as [|x a IH]; [reflexivity|].
  change (S (String.length (a +:+ b)) = S (String.length a + String.length b)).
  rewrite IH. reflexivity.
Qed.

Lemma substring_0_length (n : nat) (s : string) :
  (n <= String.length s)%nat -> String.length (substring 0 n s) = n.
Proof.
  revert s. induction n as [|n IH]; intros s Hle.
  - destruct s; reflexivity.
  - destruct s as [|c s]; cbn in Hle |- *; [lia|]. rewrite IH by lia. reflexivity.
Qed.

Lemma substring_0_prefix (n : nat) (s : string) :
  exists rest, s = substring 0 n s +:+ rest.
Proof.
  revert s. induction n as [|n IH]; intros s.
  - exists s. destruct s; reflexivity.
  - destruct s as [|c s]; cbn.
    + exists "". reflexivity.
    + destruct (IH s) as [rest Hr]. exists rest.
      change (String c s = String c (substring 0 n s +:+ rest)). rewrite <- Hr. reflexivity.
Qed.

(** X9. [truncateString] with a limit that is not negative returns the
    string itself when it has at most [maxLen] bytes, and otherwise its
    first [maxLen] bytes followed by three dots: a result of [maxLen + 3]
    bytes, longer than the limit. With a negative limit it panics. *)
Theorem truncateString_length (s : string) (maxLen : Z) :
  (0 <= maxLen ->
   exists r,
     truncateString s maxLen = inr r
     /\ (Z.of_nat (String.length s) <= maxLen -> r = s)
     /\ (maxLen < Z.of_nat (String.length s) ->
         Z.of_nat (String.length r) = maxLen + 3
         /\ exists head rest,
              s = head +:+ rest /\ r = head +:+ "..."
              /\ Z.of_nat (String.length head) = maxLen))
  /\ (maxLen < 0 -> exists p, truncateString s maxLen = inl p).
Proof.
  unfold truncateString. split.
  - intros Hpos. destruct (Z.leb_spec (Z.of_nat (String.length s)) maxLen) as [Hle|Hgt].
    + exists s. split; [reflexivity|]. split; [reflexivity|lia].
    + destruct (Z.ltb_spec maxLen 0) as [Hneg|_]; [lia|].
      eexists. split; [reflexivity|]. split; [lia|]. intros _.
      assert (Hlen : String.length (substring 0 (Z.to_nat maxLen) s) = Z.to_nat maxLen)
        by (apply substring_0_length; lia).
      split.
      * rewrite string_length_app, Hlen. cbn [String.length]. lia.
      * destruct (substring_0_prefix (Z.to_nat maxLen) s) as [rest Hr].
        exists (substring 0 (Z.to_nat maxLen) s), rest.
        split; [exact Hr|]. split; [reflexivity|]. rewrite Hlen. lia.
  - intros Hneg. destruct (Z.leb_spec (Z.of_nat (String.length s)) maxLen) as [Hle|Hgt]; [lia|].
    destruct (Z.ltb_spec maxLen 0) as [_|Hge]; [|lia]. eauto.
Qed.

Lemma valid_config0 : config.valid scenario.config0.
Proof.
  apply (config_extra.validateConfig_in_valid scenario.config0
           (map_to_list (Networks scenario.config0))); reflexivity.
Qed.

Lemma valid_config_long : config.valid scenario.config_long.
Proof.
  apply (config_extra.validateConfig_in_valid scenario.config_long
           (map_to_list (Networks scenario.config_long))); reflexivity.
Qed.

Section Proofs.
Variable env : Env.
Variable json_Marshal_text : string -> error + string.
Variable time_Parse_RFC3339 : string -> error + Time.
Variable json_Unmarshal : string -> error + governance.CosmosGovResponse.
Variable Sprintf_f1 : gotime.float64 -> string.

Local Abbreviation SendNotification := (notifications.SendNotification env json_Marshal_text).
Local Abbreviation GetVotingProposals :=
  (governance.GetVotingProposals env time_Parse_RFC3339 json_Unmarshal).
Local Abbreviation checkProposal_end := (service.checkProposal_end env json_Marshal_text Sprintf_f1).
Local Abbreviation checkProposal := (service.checkProposal env json_Marshal_text Sprintf_f1).
Local Abbreviation checkEach := (service.checkEach env json_Marshal_text Sprintf_f1).
Local Abbreviation checkNetworkProposals :=
  (service.checkNetworkProposals env json_Marshal_text time_Parse_RFC3339 json_Unmarshal
     Sprintf_f1).
Local Abbreviation checkProposals_in :=
  (service.checkProposals_in env json_Marshal_text time_Parse_RFC3339 json_Unmarshal
     Sprintf_f1).
Local Abbreviation checkProposals :=
  (service.checkProposals env json_Marshal_text time_Parse_RFC3339 json_Unmarshal
     Sprintf_f1).
Local Abbreviation NewService := (service.NewService env).
Local Abbreviation NewService_in := (service.NewService_in env).

(** *** Construction *)

Lemma newClients_lookup (order : list (string * NetworkConfig))
    (acc : gmap string governance.Client) :
  NoDup order.*1 ->
  exists m, newClients order acc = inr m
    /\ forall name, m !! name
         = match (list_to_map order : gmap string NetworkConfig) !! name with
           | Some networkConfig => Some {| governance.config := networkConfig |}
           | None => acc !! name
           end.
Proof.
  revert acc. induction order as [|[name networkConfig] rest IH]; intros acc Hnd.
  - exists acc. split; [reflexivity|]. intros name. cbn. rewrite lookup_empty. reflexivity.
  - cbn [fmap list_fmap fst] in Hnd. apply NoDup_cons in Hnd as [Hnotin Hnd].
    cbn [newClients governance.NewClient].
    destruct (IH (<[name := {| governance.config := networkConfig |}]> acc) Hnd)
      as (m & Hm & Hlook).
    exists m. split; [exact Hm|]. intros k. rewrite Hlook, list_to_map_cons.
    destruct (decide (k = name)) as [->|Hne].
    + rewrite (not_elem_of_list_to_map_1 rest name Hnotin), !lookup_insert_eq. reflexivity.
    + rewrite !lookup_insert_ne by congruence. reflexivity.
Qed.

Lemma newClients_clients (cfg : Config) (order : list (string * NetworkConfig)) :
  order ≡ₚ map_to_list (Networks cfg) ->
  newClients order ∅
  = inr ((fun networkConfig => {| governance.config := networkConfig |}) <$> Networks cfg).
Proof.
  intros Hperm.
  assert (Hnd : NoDup order.*1).
  { rewrite Hperm. apply NoDup_fst_map_to_list. }
  destruct (newClients_lookup order ∅ Hnd) as (m & Hm & Hlook).
  rewrite Hm. f_equal. apply map_eq. intros name. rewrite Hlook, lookup_fmap.
  assert (Hl : (list_to_map order : gmap string NetworkConfig) = Networks cfg).
  { rewrite <- (list_to_map_to_list (Networks cfg)). apply list_to_map_proper; assumption. }
  rewrite Hl. destruct (Networks cfg !! name); [reflexivity|apply lookup_empty].
Qed.

(** X10. [NewService] builds one client per configured network, in
    whatever order the networks are visited: under each name of the
    configuration the service holds the client of that network's
    configuration, and no other. The configuration is kept as given and
    the stop channel is open. *)
Theorem NewService_one_client_per_network (cfg : Config)
    (order : list (string * NetworkConfig)) (h : History) :
  order ≡ₚ map_to_list (Networks cfg) ->
  NewService_in cfg order h = NewService cfg h
  /\ forall s h1, NewService_in cfg order h = (inr s, h1) ->
       config s = cfg
       /\ stopChan s = ChanOpen
       /\ (forall name, clients s !! name
             = (fun networkConfig => {| governance.config := networkConfig |})
                 <$> Networks cfg !! name)
       /\ (forall name client, clients s !! name = Some client ->
             Networks (config s) !! name = Some (governance.config client))
       /\ size (clients s) = size (Networks cfg).
Proof.
  intros Hperm. unfold service.NewService_in, service.NewService, bind, ret.
  rewrite (newClients_clients cfg order Hperm).
  split; [destruct (notifications.NewNotifier env (Notifications cfg) h) as [[e|n] h1];
          reflexivity|].
  intros s h1 Hs.
  destruct (notifications.NewNotifier env (Notifications cfg) h) as [[e|n] h2];
    [discriminate|].
  injection Hs as <- <-. cbn [config stopChan clients].
  split; [reflexivity|]. split; [reflexivity|]. split; [|split].
  - intros name. apply lookup_fmap.
  - intros name client. rewrite lookup_fmap.
    destruct (Networks cfg !! name) as [nc|]; cbn; [|discriminate].
    intros [= <-]. reflexivity.
  - apply map_size_fmap.
Qed.

(** *** What a cycle does to the world *)

Lemma SendNotification_deliveries (n : notifications.Notifier) (msg : NotificationMessage) :
  adds_only is_delivery (channels n) (SendNotification n msg).
Proof.
  intros h. pose proof (notifier_extra.SendNotification_events env json_Marshal_text n msg h) as E.
  cbv zeta in E. rewrite E, <- app_assoc. eexists. split; [reflexivity|].
  unfold channels.
  destruct (notifications.telegram n) as [b|];
    destruct (Slack_Enabled (notifications.slack n));
    try destruct (json_Marshal_text (notifications.formatSlackMessage msg)) as [e|d];
    cbn [app length]; split; try lia; repeat constructor.
Qed.

Lemma checkProposal_end_deliveries s p nc now :
  adds_only is_delivery (channels (notifier s)) (checkProposal_end s p nc now).
Proof.
  unfold service.checkProposal_end.
  destruct (gotime.After (VotingEnd p) now);
    [|apply (adds_only_le _ 0); [lia | apply adds_only_ret]].
  cbv zeta.
  match goal with |- context [if ?b then _ else _] => destruct b end;
    [|apply (adds_only_le _ 0); [lia | apply adds_only_ret]].
  apply (adds_only_le _ (channels (notifier s) + 0)); [lia|].
  apply adds_only_bind; [apply SendNotification_deliveries|].
  intros [e|]; apply adds_only_ret.
Qed.

(** The events of the check of one proposal: the clock is read, then come
    at most two deliveries on each channel. *)
Lemma checkProposal_events s p c nc h :
  exists evs,
    snd (checkProposal s p c nc h) = h ++ EvNow (now_at env h) :: evs
    /\ Forall (fun e => is_delivery e = true) evs
    /\ (length evs <= 2 * channels (notifier s))%nat.
Proof.
  unfold service.checkProposal. unfold bind at 1. unfold time_Now. cbv zeta.
  set (now := now_at env h).
  match goal with |- context [snd (?K (h ++ [EvNow now]))] =>
    assert (HK : adds_only is_delivery (2 * channels (notifier s)) K)
  end.
  { destruct (gotime.After (VotingStart p) now);
      [|apply (adds_only_le _ (channels (notifier s))); [lia | apply checkProposal_end_deliveries]].
    match goal with |- context [if ?b then _ else _] => destruct b end;
      [|apply (adds_only_le _ (channels (notifier s))); [lia | apply checkProposal_end_deliveries]].
    apply (adds_only_le _ (channels (notifier s) + channels (notifier s))); [lia|].
    apply adds_only_bind; [apply SendNotification_deliveries|].
    intros [e|]; [apply (adds_only_le _ 0); [lia | apply adds_only_ret]|].
    apply checkProposal_end_deliveries. }
  destruct (HK (h ++ [EvNow now])) as (evs & E & F & L).
  exists evs. rewrite E, <- app_assoc. repeat split; assumption.
Qed.

Lemma checkEach_events s ps c nc h :
  exists evs,
    snd (checkEach s ps c nc h) = h ++ evs
    /\ Forall (fun e => is_now e || is_delivery e = true) evs
    /\ count is_now evs = length ps
    /\ (count is_delivery evs <= 2 * channels (notifier s) * length ps)%nat.
Proof.
  revert h. induction ps as [|p rest IH]; intros h.
  - exists []. cbn. rewrite app_nil_r. repeat split; [constructor|lia].
  - cbn [service.checkEach]. unfold bind.
    destruct (checkProposal_events s p c nc h) as (e1 & E1 & F1 & L1).
    destruct (checkProposal s p c nc h) as [r h1]. cbn [snd] in E1. subst h1.
    destruct (IH (h ++ EvNow (now_at env h) :: e1)) as (e2 & E2 & F2 & N2 & D2).
    exists ((EvNow (now_at env h) :: e1) ++ e2). rewrite E2, app_assoc.
    split; [reflexivity|]. split; [|split].
    + apply Forall_app. split; [|exact F2]. constructor; [reflexivity|].
      eapply Forall_impl; [exact F1|]. cbv beta. intros e ->. apply orb_true_r.
    + rewrite count_app. cbn [count is_now length]. rewrite N2.
      rewrite (count_none is_now is_delivery e1); [lia| |exact F1].
      intros [] H; try reflexivity; discriminate.
    + rewrite count_app. cbn [count is_delivery is_telegram_send is_post orb].
      rewrite (count_all is_delivery e1 F1). cbn [length]. lia.
Qed.

(** The events of the check of one network: the request, then clock
    readings and deliveries only. *)
Lemma checkNetworkProposals_events (s : Service) (name : string)
    (c : governance.Client) (h : History) :
  exists evs,
    snd (checkNetworkProposals s name c h)
    = h ++ EvGet (proposals_url c) (get_at env h (proposals_url c)) :: evs
    /\ Forall (fun e => is_now e || is_delivery e = true) evs
    /\ match fst (GetVotingProposals c h) with
       | inl _ => evs = []
       | inr proposals =>
           count is_now evs = length proposals
           /\ (count is_delivery evs <= 2 * channels (notifier s) * length proposals)%nat
       end.
Proof.
  unfold service.checkNetworkProposals, bind.
  assert (Hg : snd (GetVotingProposals c h)
               = h ++ [EvGet (proposals_url c) (get_at env h (proposals_url c))]).
  { unfold governance.GetVotingProposals, governance.makeRequest, http_Get, bind, ret,
      proposals_url.
    destruct (get_at env h _) as [e|e|status [e|body]]; try reflexivity.
    - destruct (negb (status =? 200)); reflexivity.
    - destruct (negb (status =? 200)); [reflexivity|].
      destruct (json_Unmarshal body); reflexivity. }
  destruct (GetVotingProposals c h) as [[err|proposals] h1]; cbn [fst snd] in Hg |- *; subst h1.
  - exists []. repeat split. constructor.
  - destruct proposals as [|p rest].
    + exists []. cbn [length Nat.eqb ret snd count].
      repeat split; [constructor|lia].
    + cbn [length Nat.eqb].
      destruct (checkEach_events s (p :: rest) c
                  (default NetworkConfig_zero (Networks (config s) !! name))
                  (h ++ [EvGet (proposals_url c) (get_at env h (proposals_url c))]))
        as (evs & E & F & N & D).
      destruct (checkEach s (p :: rest) c _ _) as [u h2]. cbn [snd ret] in E |- *.
      exists evs. rewrite E, <- app_assoc. repeat split; assumption.
Qed.


Lemma checkProposals_in_events s order h :
  exists evs,
    snd (checkProposals_in s order h) = h ++ evs
    /\ omap get_url evs = proposals_url <$> order.*2
    /\ Forall (fun e => is_get e || is_now e || is_delivery e = true) evs.
Proof.
  revert h. induction order as [|[name c] rest IH]; intros h.
  - exists []. cbn. rewrite app_nil_r. repeat split. constructor.
  - cbn [service.checkProposals_in]. unfold bind.
    destruct (checkNetworkProposals_events s name c h) as (e1 & E1 & F1 & _).
    destruct (checkNetworkProposals s name c h) as [r h1]. cbn [snd] in E1. subst h1.
    destruct (IH (h ++ EvGet (proposals_url c) (get_at env h (proposals_url c)) :: e1))
      as (e2 & E2 & U2 & F2).
    exists ((EvGet (proposals_url c) (get_at env h (proposals_url c)) :: e1) ++ e2).
    rewrite E2, app_assoc. split; [reflexivity|]. split.
    + rewrite omap_app. cbn [omap list_omap get_url].
      rewrite (omap_get_url_none (fun e => is_now e || is_delivery e) e1); [|
        intros [] H; try reflexivity; discriminate | exact F1].
      cbn [app]. rewrite U2. reflexivity.
    + apply Forall_app. split; [|exact F2]. constructor; [reflexivity|].
      eapply Forall_impl; [exact F1|]. cbv beta. intros e He.
      rewrite <- orb_assoc, He. apply orb_true_r.
Qed.


(** X13. Outside the windows nothing happens: when neither the start nor
    the end of the voting period lies within its threshold (of at most
    4095 hours) after the clock reading, the check of the proposal reads
    the clock, delivers nothing and returns no error. *)
Theorem checkProposal_silent_outside_windows (s : Service) (p : Proposal)
    (c : governance.Client) (nc : NetworkConfig) (h : History) :
  let now := now_at env h in
  HoursBeforeStart (Alerts (config s)) <= 4095 ->
  HoursBeforeEnd (Alerts (config s)) <= 4095 ->
  ~ (0 < VotingStart p - now <= HoursBeforeStart (Alerts (config s)) * gotime.Hour) ->
  ~ (0 < VotingEnd p - now <= HoursBeforeEnd (Alerts (config s)) * gotime.Hour) ->
  checkProposal s p c nc h = (None, h ++ [EvNow now]).
Proof.
  intros now Hs He Hstart Hend.
  rewrite (service_spec.checkProposal_due env json_Marshal_text Sprintf_f1 s p c nc h).
  cbv zeta. fold now.
  destruct (due (VotingStart p) now (HoursBeforeStart (Alerts (config s)))) eqn:Ds.
  { apply (float64_spec.due_iff _ _ _ Hs) in Ds. contradiction. }
  rewrite (service_spec.checkProposal_end_due env json_Marshal_text Sprintf_f1 s p nc now).
  destruct (due (VotingEnd p) now (HoursBeforeEnd (Alerts (config s)))) eqn:De.
  { apply (float64_spec.due_iff _ _ _ He) in De. contradiction. }
  reflexivity.
Qed.

(** *** No memory of the alerts sent *)

Lemma framed_ret {A : Type} (a : A) : framed (ret a).
Proof. intros h. unfold ret. cbn [fst snd]. rewrite app_nil_r. reflexivity. Qed.

Lemma framed_bind {A B : Type} (m : M A) (K : A -> M B) :
  framed m -> (forall a, framed (K a)) -> framed (bind m K).
Proof.
  intros Hm HK h. unfold bind. rewrite (Hm h).
  destruct (m []) as [a e1]. cbn [fst snd].
  rewrite (HK a (h ++ e1)), (HK a e1). cbn [fst snd]. rewrite app_assoc. reflexivity.
Qed.

Section Stationary.
Hypothesis Hstationary : stationary env.

Lemma framed_time_Now : framed (time_Now env).
Proof.
  intros h. unfold time_Now. cbv zeta. cbn [fst snd app].
  destruct Hstationary as (Hn & _). rewrite (Hn h). reflexivity.
Qed.

Lemma framed_http_Get url : framed (http_Get env url).
Proof.
  intros h. unfold http_Get. cbv zeta. cbn [fst snd app].
  destruct Hstationary as (_ & Hg & _). rewrite (Hg h). reflexivity.
Qed.

Lemma framed_http_Post url ct body : framed (http_Post env url ct body).
Proof.
  intros h. unfold http_Post. cbv zeta. cbn [fst snd app].
  destruct Hstationary as (_ & _ & Hp & _). rewrite (Hp h). reflexivity.
Qed.

Lemma framed_telebot_Send chat text : framed (telebot_Send env chat text).
Proof.
  intros h. unfold telebot_Send. cbv zeta. cbn [fst snd app].
  destruct Hstationary as (_ & _ & _ & _ & Ht). rewrite (Ht h). reflexivity.
Qed.

Local Ltac framed_step :=
  first [ apply framed_ret
        | apply framed_time_Now
        | apply framed_http_Get
        | apply framed_http_Post
        | apply framed_telebot_Send
        | apply framed_bind
        | match goal with
          | |- forall _, _ => intro
          | |- framed (match ?x with _ => _ end) => destruct x
          end ].

Lemma framed_SendNotification n msg : framed (SendNotification n msg).
Proof.
  unfold notifications.SendNotification, notifications.sendTelegramNotification,
    notifications.sendSlackNotification. cbv zeta.
  repeat framed_step.
Qed.

Lemma framed_checkProposal_end s p nc now : framed (checkProposal_end s p nc now).
Proof.
  unfold service.checkProposal_end. cbv zeta.
  repeat first [apply framed_SendNotification | framed_step].
Qed.

Lemma framed_checkProposal s p c nc : framed (checkProposal s p c nc).
Proof.
  unfold service.checkProposal. cbv zeta.
  repeat first [apply framed_SendNotification | apply framed_checkProposal_end | framed_step].
Qed.

Lemma framed_checkEach s ps c nc : framed (checkEach s ps c nc).
Proof.
  induction ps as [|p rest IH]; cbn [service.checkEach]; [apply framed_ret|].
  apply framed_bind; [apply framed_checkProposal | intros _; exact IH].
Qed.

Lemma framed_checkNetworkProposals s name c : framed (checkNetworkProposals s name c).
Proof.
  unfold service.checkNetworkProposals, governance.GetVotingProposals, governance.makeRequest.
  cbv zeta. repeat first [apply framed_checkEach | framed_step].
Qed.

Lemma framed_checkProposals_in s order : framed (checkProposals_in s order).
Proof.
  induction order as [|[name c] rest IH]; cbn [service.checkProposals_in]; [apply framed_ret|].
  apply framed_bind; [apply framed_checkNetworkProposals | intros _; exact IH].
Qed.

End Stationary.

(** X14. The service keeps no record of the alerts it has sent. In a
    world that gives the same answers as before (the same clock reading,
    the same proposals, the same delivery outcomes) a cycle does the same
    whatever happened earlier, so a second cycle repeats every delivery of
    the first. *)
Theorem checkProposals_keeps_no_record (s : Service)
    (order : list (string * governance.Client)) (h : History) :
  stationary env ->
  let evs := snd (checkProposals_in s order []) in
  checkProposals_in s order h = (None, h ++ evs)
  /\ checkProposals_in s order (h ++ evs) = (None, (h ++ evs) ++ evs)
  /\ count is_delivery ((h ++ evs) ++ evs) = (count is_delivery h + 2 * count is_delivery evs)%nat.
Proof.
  intros Hst evs.
  assert (Hrun : forall h0, checkProposals_in s order h0 = (None, h0 ++ evs)).
  { intros h0. rewrite (framed_checkProposals_in Hst s order h0).
    rewrite (service_spec.checkProposals_in_nil_error env json_Marshal_text time_Parse_RFC3339
               json_Unmarshal Sprintf_f1 s order []).
    reflexivity. }
  split; [apply Hrun|]. split; [apply Hrun|]. rewrite !count_app. lia.
Qed.

(** *** Startup and the loop *)

Local Abbreviation sendStartupNotification_in :=
  (service.sendStartupNotification_in env json_Marshal_text).
Local Abbreviation Run_loop :=
  (service.Run_loop env json_Marshal_text time_Parse_RFC3339 json_Unmarshal Sprintf_f1).
Local Abbreviation Run_in :=
  (service.Run_in env json_Marshal_text time_Parse_RFC3339 json_Unmarshal Sprintf_f1).

Lemma fold_left_lines (others : list string) (content : string) :
  fold_left (fun content network => content +:+ LF +:+ "• " +:+ network) others content
  = content +:+ foldr (fun network acc => (LF +:+ "• " +:+ network) +:+ acc) "" others.
Proof.
  revert content. induction others as [|network rest IH]; intros content; cbn [fold_left foldr].
  - symmetry. apply string_app_nil_r.
  - rewrite IH. rewrite !string_app_assoc. reflexivity.
Qed.

Lemma lines_map (rest : list (string * NetworkConfig)) :
  foldr (fun network acc => (LF +:+ "• " +:+ network) +:+ acc) ""
    (map (fun entry => Name (snd entry) +:+ " (" +:+ ChainID (snd entry) +:+ ")") rest)
  = foldr (fun entry acc => startup_line (snd entry) +:+ acc) "" rest.
Proof.
  induction rest as [|entry rest IH]; cbn [map foldr]; [reflexivity|].
  rewrite IH. reflexivity.
Qed.

(** X15. The startup notification is one notification, in the form
    reserved for service messages, whose text gives the number of
    configured networks and then one line per network, in the order of
    visit; with no network configured [sendStartupNotification] panics
    before anything is sent. *)
Theorem sendStartupNotification_lists_networks (s : Service)
    (order : list (string * NetworkConfig)) (h : History) :
  order ≡ₚ map_to_list (Networks (config s)) ->
  (Networks (config s) = ∅ ->
   sendStartupNotification_in s order h
   = (inl (PanicMsg "runtime error: index out of range [0] with length 0"), h))
  /\ (Networks (config s) <> ∅ ->
      exists msg,
        sendStartupNotification_in s order h
        = (inr (fst (SendNotification (notifier s) msg h)),
           snd (SendNotification (notifier s) msg h))
        /\ msg_Content msg
           = "Service is now monitoring "
             +:+ pretty (Z.of_nat (size (Networks (config s)))) +:+ " networks:"
             +:+ foldr (fun entry acc => startup_line (snd entry) +:+ acc) "" order
        /\ notifications.formatTelegramMessage msg
           = "🚀 <b>🚀 Governance Alerts Service Started</b>" +:+ LF +:+ LF +:+ msg_Content msg
        /\ notifications.formatSlackMessage msg
           = "🚀 *🚀 Governance Alerts Service Started*" +:+ LF +:+ LF +:+ msg_Content msg).
Proof.
  intros Hperm. unfold service.sendStartupNotification_in. cbv zeta.
  assert (Hsize : size (Networks (config s)) = length order).
  { rewrite Hperm. symmetry. apply length_map_to_list. }
  destruct order as [|[name network] rest].
  - split; [reflexivity|]. intros Hne. exfalso. apply Hne.
    apply map_size_empty_iff. exact Hsize.
  - split.
    { intros He. rewrite He, map_size_empty in Hsize. discriminate. }
    intros _. cbn [map snd]. unfold bind, ret.
    match goal with |- context [SendNotification _ ?m h] => exists m end.
    split; [destruct (SendNotification _ _ h); reflexivity|].
    split; [|split; reflexivity].
    cbn [msg_Content startupMessage]. rewrite fold_left_lines, lines_map, Hsize, length_map.
    cbn [length foldr snd]. unfold startup_line. rewrite !string_app_assoc. reflexivity.
Qed.

Lemma checkProposals_in_gets s order h :
  order ≡ₚ map_to_list (clients s) ->
  count is_get (snd (checkProposals_in s order h)) = (count is_get h + size (clients s))%nat.
Proof.
  intros Hperm. destruct (checkProposals_in_events s order h) as (evs & E & U & _).
  rewrite E, count_app. f_equal.
  assert (Hc : forall l, count is_get l = length (omap get_url l)).
  { induction l as [|e l IH]; [reflexivity|]. cbn [count]. rewrite IH.
    destruct e; reflexivity. }
  rewrite Hc, U, !length_fmap, Hperm. apply length_map_to_list.
Qed.

Lemma Run_loop_ticks s (orders : list (list (string * governance.Client)))
    (final : Select) (rest : list Select) (h : History) :
  Forall (fun order => order ≡ₚ map_to_list (clients s)) orders ->
  (forall order, final <> SelectTick order) ->
  exists h',
    Run_loop s (map SelectTick orders ++ final :: rest) h
    = (Returned (match final with SelectDone err => Some err | _ => None end), h')
    /\ count is_get h' = (count is_get h + length orders * size (clients s))%nat.
Proof.
  intros Hall Hfinal. revert h. induction Hall as [|order orders Hperm _ IH]; intros h.
  - cbn [map app service.Run_loop length]. exists h.
    destruct final as [err| |order]; [split; [reflexivity|lia]..|].
    exfalso. exact (Hfinal order eq_refl).
  - cbn [map app service.Run_loop length]. unfold bind.
    pose proof (checkProposals_in_gets s order h Hperm) as Hg.
    destruct (checkProposals_in s order h) as [r h1]. cbn [snd] in Hg.
    destruct (IH h1) as (h' & Hrun & Hcount). exists h'. split; [exact Hrun|]. lia.
Qed.

Lemma wrap_int64_small (x : Z) : - 2 ^ 63 <= x < 2 ^ 63 -> wrap_int64 x = x.
Proof. intros Hx. unfold wrap_int64. rewrite Z.mod_small; lia. Qed.

Lemma sendStartup_gets s startup h :
  count is_get
    (snd ((if NotifyOnStartup (Alerts (config s))
           then sendStartupNotification_in s startup
           else ret (inr None)) h))
  = count is_get h.
Proof.
  destruct (NotifyOnStartup (Alerts (config s))); [|reflexivity].
  unfold service.sendStartupNotification_in. cbv zeta.
  destruct (map _ startup) as [|first others]; [reflexivity|].
  unfold bind, ret.
  destruct (SendNotification_deliveries (notifier s) (startupMessage first others) h)
    as (evs & E & F & _).
  destruct (SendNotification _ _ h) as [r h1]. cbn [snd] in E |- *. subst h1.
  rewrite count_app, (count_none is_get is_delivery evs); [lia| |exact F].
  intros [] H; try reflexivity; discriminate.
Qed.

Lemma sendStartup_no_panic s startup h :
  startup ≡ₚ map_to_list (Networks (config s)) ->
  Networks (config s) <> ∅ ->
  exists r,
    fst ((if NotifyOnStartup (Alerts (config s))
          then sendStartupNotification_in s startup
          else ret (inr None)) h) = inr r.
Proof.
  intros Hperm Hne. destruct (NotifyOnStartup (Alerts (config s))); [|eexists; reflexivity].
  unfold service.sendStartupNotification_in. cbv zeta.
  destruct startup as [|entry rest].
  - exfalso. apply Hne, map_size_empty_iff.
    rewrite <- (length_map_to_list (Networks (config s))), <- Hperm. reflexivity.
  - cbn [map]. unfold bind, ret. destruct (SendNotification _ _ h) as [r h1].
    eexists. reflexivity.
Qed.


(** X17. [validateConfig] puts no upper bound on the check interval, and
    [Run] multiplies it by [time.Minute] in [int64]: with an interval
    between 153722868 and 307445734 minutes the product wraps to a
    duration that is not positive, and [Run] panics in [time.NewTicker],
    after the startup notification and before any proposal is
    requested. *)
Theorem Run_interval_overflow (s : Service) (startup : list (string * NetworkConfig))
    (first : list (string * governance.Client)) (schedule : list Select) (h : History) :
  config.valid (config s) ->
  153722868 <= CheckIntervalMinutes (Alerts (config s)) <= 307445734 ->
  startup ≡ₚ map_to_list (Networks (config s)) ->
  exists h',
    Run_in s startup first schedule h
    = (Panicked (PanicMsg "non-positive interval for NewTicker"), h')
    /\ count is_get h' = count is_get h.
Proof.
  intros (_ & _ & _ & Hne & _) Hint Hperm.
  unfold service.Run_in. unfold bind at 1.
  pose proof (sendStartup_gets s startup h) as Hg0.
  destruct (sendStartup_no_panic s startup h Hperm Hne) as [r Hr].
  destruct ((if NotifyOnStartup (Alerts (config s))
             then sendStartupNotification_in s startup else ret (inr None)) h) as [r0 h0].
  cbn [fst snd] in Hr, Hg0. subst r0.
  assert (Hw : wrap_int64 (CheckIntervalMinutes (Alerts (config s)) * Minute)
               = CheckIntervalMinutes (Alerts (config s)) * Minute - 2 ^ 64).
  { unfold wrap_int64, Minute.
    rewrite <- (Z.mod_add _ (-1) (2 ^ 64)) by lia. rewrite Z.mod_small; lia. }
  rewrite Hw.
  destruct (Z.leb_spec (CheckIntervalMinutes (Alerts (config s)) * Minute - 2 ^ 64) 0)
    as [_|Hgt]; [|unfold Minute in Hgt; lia].
  exists h0. split; [reflexivity | exact Hg0].
Qed.

End Proofs.

Lemma sendStartupNotification_lists_networks_witness :
  let env := scenario.env_of scenario.now0 scenario.no_get 200 None in
  let s := scenario.service_long in
  let order := map_to_list (Networks scenario.config_long) in
  (Networks (config s) = ∅ ->
   service.sendStartupNotification_in env scenario.marshal0 s order []
   = (inl (PanicMsg "runtime error: index out of range [0] with length 0"), []))
  /\ (Networks (config s) <> ∅ ->
      exists msg,
        service.sendStartupNotification_in env scenario.marshal0 s order []
        = (inr (fst (notifications.SendNotification env scenario.marshal0 (notifier s) msg [])),
           snd (notifications.SendNotification env scenario.marshal0 (notifier s) msg []))
        /\ msg_Content msg
           = "Service is now monitoring "
             +:+ pretty (Z.of_nat (size (Networks (config s)))) +:+ " networks:"
             +:+ foldr (fun entry acc => startup_line (snd entry) +:+ acc) "" order
        /\ notifications.formatTelegramMessage msg
           = "🚀 <b>🚀 Governance Alerts Service Started</b>" +:+ LF +:+ LF +:+ msg_Content msg
        /\ notifications.formatSlackMessage msg
           = "🚀 *🚀 Governance Alerts Service Started*" +:+ LF +:+ LF +:+ msg_Content msg).
Proof.
  intros env s order.
  apply (sendStartupNotification_lists_networks env scenario.marshal0 s order []).
  reflexivity.
Defined.


Lemma Run_interval_overflow_witness :
  let env := scenario.env_of scenario.now0 scenario.get_zeta_only 200 None in
  let json_Unmarshal := scenario.unmarshal0 [] [scenario.raw_voting "7" "Raise the cap" "d"] in
  let s := scenario.service_long in
  exists h',
    service.Run_in env scenario.marshal0 scenario.parse0 json_Unmarshal scenario.f1_0 s
      (map_to_list (Networks scenario.config_long)) scenario.down_then_up [SelectStop] []
    = (Panicked (PanicMsg "non-positive interval for NewTicker"), h')
    /\ count is_get h' = count is_get [].
Proof.
  intros env json_Unmarshal s.
  apply (Run_interval_overflow env scenario.marshal0 scenario.parse0 json_Unmarshal
           scenario.f1_0 s (map_to_list (Networks scenario.config_long))
           scenario.down_then_up [SelectStop] []).
  - exact valid_config_long.
  - vm_compute. split; discriminate.
  - reflexivity.
Defined.

Lemma checkProposal_silent_outside_windows_witness :
  let env := scenario.env_of (scenario.now0 + 3 * gotime.Hour) scenario.no_get 200 None in
  let now := now_at env [] in
  service.checkProposal env scenario.marshal0 scenario.f1_0 scenario.service0
    scenario.short_window {| governance.config := scenario.zetachain |} scenario.zetachain []
  = (None, [] ++ [EvNow now]).
Proof.
  intros env now.
  apply (checkProposal_silent_outside_windows env scenario.marshal0 scenario.f1_0
           scenario.service0 scenario.short_window
           {| governance.config := scenario.zetachain |} scenario.zetachain []).
  - vm_compute. discriminate.
  - vm_compute. discriminate.
  - vm_compute. intros [H _]. discriminate.
  - vm_compute. intros [H _]. discriminate.
Defined.

Lemma checkProposals_keeps_no_record_witness :
  let env := scenario.env_of scenario.now0 scenario.get_zeta_only 200 None in
  let json_Unmarshal := scenario.unmarshal0 [] [scenario.raw_voting "7" "Raise the cap" "d"] in
  let run := service.checkProposals_in env scenario.marshal0 scenario.parse0 json_Unmarshal
               scenario.f1_0 scenario.service0 scenario.down_then_up in
  let evs := snd (run []) in
  run [] = (None, [] ++ evs)
  /\ run ([] ++ evs) = (None, ([] ++ evs) ++ evs)
  /\ count is_delivery (([] ++ evs) ++ evs)
     = (count is_delivery [] + 2 * count is_delivery evs)%nat.
Proof.
  intros env json_Unmarshal run.
  apply (checkProposals_keeps_no_record env scenario.marshal0 scenario.parse0 json_Unmarshal
           scenario.f1_0 scenario.service0 scenario.down_then_up []).
  repeat split; reflexivity.
Defined.


Lemma NewService_one_client_per_network_witness :
  let env := scenario.env_of 0 scenario.no_get 200 None in
  let cfg := scenario.config0 in
  let order := map_to_list (Networks scenario.config0) in
  NewService_in env cfg order [] = NewService env cfg []
  /\ forall s h1, NewService_in env cfg order [] = (inr s, h1) ->
       config s = cfg
       /\ stopChan s = ChanOpen
       /\ (forall name, clients s !! name
             = (fun networkConfig => {| governance.config := networkConfig |})
                 <$> Networks cfg !! name)
       /\ (forall name client, clients s !! name = Some client ->
             Networks (config s) !! name = Some (governance.config client))
       /\ size (clients s) = size (Networks cfg).
Proof.
  intros env cfg order.
  apply (NewService_one_client_per_network env cfg order []).
  reflexivity.
Defined.

End service_extra.

(** ** The alert window for every threshold *)
Module float64_extra.
Import gotime float64_view service float64_spec.

(** For a positive duration, [Hours d] does not exceed a whole number of
    hours that [d] does not exceed, and exceeds one that [d] exceeds by an
    hour or more. *)
Lemma Hours_coarse (d : Z) :
  1 <= d <= 2 ^ 63 - 1 ->
  forall H, 1 <= H ->
    (d <= H * Hour -> Fval (Hours d) <= H * 2 ^ 150)
    /\ ((H + 1) * Hour <= d -> H * 2 ^ 150 < Fval (Hours d)).
Proof.
  intros Hd. unfold Hours, f64_add, prec, emax.
  rewrite Z.quot_div_nonneg, Z.rem_mod_nonneg by (unfold Hour; lia).
  pose proof (Z.div_mod d Hour ltac:(unfold Hour; lia)) as Edm.
  pose proof (Z.mod_pos_bound d Hour ltac:(unfold Hour; lia)) as Bn.
  set (hour := d / Hour) in *. set (nsec := d mod Hour) in *.
  assert (Bh : 0 <= hour <= 2562047).
  { split; [apply Z.div_pos; unfold Hour; lia|].
    assert (hour < 2562048); [|lia].
    apply Z.div_lt_upper_bound; unfold Hour; lia. }
  destruct (Z.eq_dec nsec 0) as [E0|E0].
  - rewrite E0 in *. change (float64_of_int 0) with (S754_zero false).
    change (float64_of_int (60 * 60 * 1000000000))
      with (S754_finite false 7372800000000000 (-11)).
    unfold f64_div. cbn [SFdiv xorb].
    destruct (binary_normalize_small hour ltac:(unfold Hour in *; lia)) as [N V].
    destruct (Fnormal_inv _ N) as (m & e & Ex & _). rewrite Ex in *.
    cbn [SFadd]. intros H HH. rewrite V.
    assert (0 < 2 ^ 150) by lia. unfold Hour in *. split; intros; nia.
  - destruct (hour_fraction nsec ltac:(lia)) as [Nq [Qlo Qhi]]. cbn zeta in Nq, Qlo, Qhi.
    set (q := f64_div (float64_of_int nsec) (float64_of_int (60 * 60 * 1000000000))) in *.
    destruct (Z.eq_dec hour 0) as [Eh|Eh].
    + rewrite Eh in *. change (float64_of_int 0) with (S754_zero false).
      destruct (Fnormal_inv _ Nq) as (m & e & Ex & _). rewrite Ex in *.
      cbn [SFadd]. intros H HH.
      unfold Hour in *. split; intros; nia.
    + destruct (binary_normalize_small hour ltac:(lia)) as [N V].
      destruct (SFadd_round (float64_of_int hour) q N Nq ltac:(rewrite V; lia))
        as (k & r & Hk & Nz & Vz & Wlo & Hr & Hex1 & Hex2).
      intros H HH. rewrite Vz.
      rewrite V in *. set (W := hour * 2 ^ 150 + Fval q) in *.
      set (u := 2 ^ k) in *. assert (Hu : 0 < u) by (apply Z.pow_pos_nonneg; lia).
      assert (Hk' : k <= 120).
      { destruct (Z.leb_spec k 120); [assumption|].
        assert (2 ^ 121 <= u) by (apply Z.pow_le_mono_r; lia).
        assert (2 ^ 52 * u <= W) by (pose proof (Z.mul_div_le W u Hu); nia).
        subst W. change (2 ^ 150) with (2 ^ 29 * 2 ^ 121) in *. nia. }
      assert (Hg : 2 ^ 150 = 2 ^ (150 - k) * u).
      { unfold u. rewrite <- Z.pow_add_r by lia. f_equal. lia. }
      assert (Pg : 0 < 2 ^ (150 - k)) by (apply Z.pow_pos_nonneg; lia).
      split; intros Hc.
      * assert (Hlt : hour < H) by (unfold Hour in *; lia).
        assert (HW : W <= (H * 2 ^ (150 - k)) * u) by (subst W; nia).
        pose proof (round_le_grid W u r (H * 2 ^ (150 - k)) Hu Hr Hex1 HW). nia.
      * assert (Hgt : H + 1 <= hour) by (unfold Hour in *; lia).
        assert (HW : ((H + 1) * 2 ^ (150 - k)) * u <= W) by (subst W; nia).
        pose proof (round_ge_grid W u r _ Hu (proj1 Hr) HW). nia.
Qed.

(** The test of [checkProposal] on a future boundary, as a comparison of
    scaled values. *)
Lemma due_float (t now H : Z) :
  now < t -> 1 <= H < 2 ^ 53 ->
  (due t now H = true <-> Fval (Hours (Sub t now)) <= H * 2 ^ 150).
Proof.
  intros Hlt HH. unfold due, After, f64_le, f64_gt.
  destruct (Z.ltb_spec now t) as [_|Hge]; [|lia]. cbn [andb].
  assert (Hd : 1 <= Sub t now <= 2 ^ 63 - 1).
  { unfold Sub, minDuration, maxDuration.
    destruct (Z.ltb_spec (t - now) (- 2 ^ 63)); [lia|].
    destruct (Z.ltb_spec (2 ^ 63 - 1) (t - now)); lia. }
  destruct (Hours_spec (Sub t now) Hd) as [N _].
  destruct (Fnormal_inv _ N) as (m & e & Ex & _).
  assert (Hpos : SFltb (float64_of_int 0) (Hours (Sub t now)) = true)
    by (rewrite Ex; reflexivity).
  rewrite Hpos, andb_true_r.
  destruct (binary_normalize_small H ltac:(lia)) as [NH VH].
  unfold SFleb. rewrite (SFcompare_normal _ _ N NH), VH.
  destruct (Z.compare_spec (Fval (Hours (Sub t now))) (H * 2 ^ 150)) as [E|E|E].
  - split; [lia|reflexivity].
  - split; [lia|reflexivity].
  - split; [discriminate|lia].
Qed.

(** X18. For every threshold of [H] hours that float64 holds exactly: an
    alert whose boundary lies in the exact window (0, H hours] is always
    due; an alert that is due has its boundary less than [H + 1] hours
    away, so rounding makes an alert at most one hour early, never late;
    and from 2562048 hours on, more than a [Duration] can hold, every
    boundary in the future is due. *)
Theorem alert_window_any_threshold (t now H : Z) :
  1 <= H < 2 ^ 53 ->
  (0 < t - now <= H * Hour -> due t now H = true)
  /\ (H <= 2562046 -> due t now H = true -> 0 < t - now < (H + 1) * Hour)
  /\ (2562048 <= H -> (due t now H = true <-> now < t)).
Proof.
  intros HH.
  assert (Hd : now < t ->
               1 <= Sub t now <= 2 ^ 63 - 1
               /\ (Sub t now = t - now \/ (Sub t now = 2 ^ 63 - 1 /\ Sub t now < t - now))).
  { intros Hlt. unfold Sub, minDuration, maxDuration.
    destruct (Z.ltb_spec (t - now) (- 2 ^ 63)); [lia|].
    destruct (Z.ltb_spec (2 ^ 63 - 1) (t - now)); lia. }
  assert (Hfuture : due t now H = true -> now < t).
  { unfold due, After. destruct (Z.ltb_spec now t); [trivial|discriminate]. }
  split; [|split].
  - intros Hw. assert (Hlt : now < t) by lia.
    destruct (Hd Hlt) as [Hr Hs].
    apply (due_float t now H Hlt HH).
    apply (Hours_coarse (Sub t now) Hr H ltac:(lia)). lia.
  - intros Hmax Hdue. pose proof (Hfuture Hdue) as Hlt.
    destruct (Hd Hlt) as [Hr Hs].
    apply (due_float t now H Hlt HH) in Hdue.
    destruct (Hours_coarse (Sub t now) Hr H ltac:(lia)) as [_ Hb].
    assert (Hn : ~ (H + 1) * Hour <= Sub t now) by (intros Hc; specialize (Hb Hc); lia).
    unfold Hour in *. lia.
  - intros Hbig. split; [exact Hfuture|]. intros Hlt.
    destruct (Hd Hlt) as [Hr Hs].
    apply (due_float t now H Hlt HH).
    apply (Hours_coarse (Sub t now) Hr H ltac:(lia)). unfold Hour. lia.
Qed.

Lemma alert_window_any_threshold_witness :
  let now := scenario.now0 in
  let t := scenario.now0 + 5000 * Hour + 1 in
  (0 < t - now <= 5000 * Hour -> due t now 5000 = true)
  /\ (5000 <= 2562046 -> due t now 5000 = true -> 0 < t - now < (5000 + 1) * Hour)
  /\ (2562048 <= 5000 -> (due t now 5000 = true <-> now < t)).
Proof.
  intros now t. apply (alert_window_any_threshold t now 5000). lia.
Defined.

End float64_extra.
